(** * Multi-region Prometheus MCP server: a shallow embedding of
    [src/prometheus_mcp_server/server.py] and the properties of its
    request router, metrics cache and operation handlers.

    Conventions of the embedding.
    - A Python [str] is a Rocq [string].  [lower] lowercases the ASCII
      letters and leaves every other byte alone: it is Python's
      [str.lower] on ASCII text, which is what region names (suffixes of
      environment variable names) are made of.
    - A Python [dict] with string keys is an association list in insertion
      order (module [Dict]); [d[k] = v] replaces in place or appends.
    - JSON payloads and handler results are Python values ([value]).
    - A function that can raise returns a [result]; functions that touch
      the module globals ([config], [_metrics_cache]) or the network run in
      the monad [M], which threads the globals and the log of requests
      handed to [requests.get].
    - [time.time()] is read as an integer number of seconds.
    - Logging has no effect on the program state and is left out, except
      that arguments of a logging call that can raise are evaluated. *)

From Stdlib Require Import String Ascii ZArith List Bool Lia.
From Stdlib Require Import Sorted Permutation DecimalString.
Import ListNotations.

Local Open Scope string_scope.
Local Open Scope Z_scope.

(* ================================================================== *)
(** ** Python strings *)

Module PyStr.

(** [c.lower()] for one ASCII character. *)
Definition lower_ascii (c : ascii) : ascii :=
  let n := N_of_ascii c in
  if (65 <=? n)%N && (n <=? 90)%N then ascii_of_N (n + 32) else c.

(** [s.lower()] *)
Fixpoint lower (s : string) : string :=
  match s with
  | EmptyString => EmptyString
  | String c s' => String (lower_ascii c) (lower s')
  end.

(** [sub in s] for two strings: [sub] occurs in [s] as a substring. *)
Fixpoint contains (sub s : string) : bool :=
  String.prefix sub s ||
  match s with
  | EmptyString => false
  | String _ s' => contains sub s'
  end.

(** [s.rstrip(c)] for a one-character argument. *)
Fixpoint rstrip (c : ascii) (s : string) : string :=
  match s with
  | EmptyString => EmptyString
  | String a s' =>
      match rstrip c s' with
      | EmptyString => if Ascii.eqb a c then EmptyString else String a EmptyString
      | r => String a r
      end
  end.

(** [sep.join(l)] *)
Definition join (sep : string) (l : list string) : string := String.concat sep l.

(** [str(n)] for an integer. *)
Definition of_Z (n : Z) : string := NilZero.string_of_int (Z.to_int n).

(** [sorted(l)] on strings: insertion sort by the code-point order. *)
Fixpoint insert (x : string) (l : list string) : list string :=
  match l with
  | [] => [x]
  | y :: l' => if String.leb x y then x :: y :: l' else y :: insert x l'
  end.

Fixpoint sorted (l : list string) : list string :=
  match l with
  | [] => []
  | x :: l' => insert x (sorted l')
  end.

(** Truth value of a string: [bool(s)]. *)
Definition truthy (s : string) : bool :=
  match s with EmptyString => false | _ => true end.

(** Truth value of an [Optional[str]]. *)
Definition opt_truthy (o : option string) : bool :=
  match o with Some s => truthy s | None => false end.

End PyStr.

(* ================================================================== *)
(** ** Python dicts with string keys, in insertion order *)

Module Dict.

Definition dict (V : Type) : Type := list (string * V).

Section Ops.
Context {V : Type}.

(** [d.get(k)] *)
Fixpoint dget (k : string) (d : dict V) : option V :=
  match d with
  | [] => None
  | (k', v) :: d' => if String.eqb k k' then Some v else dget k d'
  end.

(** [k in d] *)
Definition dmem (k : string) (d : dict V) : bool :=
  match dget k d with Some _ => true | None => false end.

(** [d[k] = v] *)
Fixpoint dset (k : string) (v : V) (d : dict V) : dict V :=
  match d with
  | [] => [(k, v)]
  | (k', v') :: d' =>
      if String.eqb k k' then (k, v) :: d' else (k', v') :: dset k v d'
  end.

(** [d.update(other)] *)
Definition dupdate (d other : dict V) : dict V :=
  fold_left (fun acc kv => dset (fst kv) (snd kv) acc) other d.

(** [list(d.keys())] *)
Definition dkeys (d : dict V) : list string := map fst d.

(** [bool(d)] *)
Definition dtruthy (d : dict V) : bool :=
  match d with [] => false | _ => true end.

(** Keys are pairwise distinct, as in every dict Python builds. *)
Definition wf (d : dict V) : Prop := NoDup (dkeys d).
End Ops.

End Dict.
Import Dict.

(* ================================================================== *)
(** ** Python values and the operations the handlers apply to them *)

#[local] Set Warnings "-register-all".

Inductive value : Type :=
| VNone
| VBool (b : bool)
| VInt (n : Z)
| VFloat (repr : string)       (* a float, carried by its [repr] *)
| VStr (s : string)
| VList (l : list value)
| VDict (d : list (string * value)).

(** Exception classes that the module names or that its callees raise. *)
Inductive exn_class : Type :=
| Exception
| ValueError
| KeyError
| TypeError
| AttributeError
| ConnectionError              (* the builtin one, an OSError *)
| json_JSONDecodeError
| requests_RequestException
| requests_ConnectionError
| requests_Timeout
| requests_HTTPError
| requests_InvalidJSONError
| requests_JSONDecodeError.

Record exn : Type := mkExn { exn_cls : exn_class; exn_str : string }.

Definition exn_class_eqb (a b : exn_class) : bool :=
  match a, b with
  | Exception, Exception | ValueError, ValueError | KeyError, KeyError
  | TypeError, TypeError | AttributeError, AttributeError
  | ConnectionError, ConnectionError
  | json_JSONDecodeError, json_JSONDecodeError
  | requests_RequestException, requests_RequestException
  | requests_ConnectionError, requests_ConnectionError
  | requests_Timeout, requests_Timeout
  | requests_HTTPError, requests_HTTPError
  | requests_InvalidJSONError, requests_InvalidJSONError
  | requests_JSONDecodeError, requests_JSONDecodeError => true
  | _, _ => false
  end.

(** The classes a class inherits from, itself included (its MRO restricted
    to the classes above).  [requests.exceptions.JSONDecodeError] derives
    from both [InvalidJSONError] (a [RequestException]) and
    [json.JSONDecodeError] (a [ValueError]). *)
Definition mro (c : exn_class) : list exn_class :=
  match c with
  | Exception => [Exception]
  | ValueError => [ValueError; Exception]
  | KeyError => [KeyError; Exception]
  | TypeError => [TypeError; Exception]
  | AttributeError => [AttributeError; Exception]
  | ConnectionError => [ConnectionError; Exception]
  | json_JSONDecodeError => [json_JSONDecodeError; ValueError; Exception]
  | requests_RequestException => [requests_RequestException; Exception]
  | requests_ConnectionError =>
      [requests_ConnectionError; requests_RequestException; Exception]
  | requests_Timeout => [requests_Timeout; requests_RequestException; Exception]
  | requests_HTTPError => [requests_HTTPError; requests_RequestException; Exception]
  | requests_InvalidJSONError =>
      [requests_InvalidJSONError; requests_RequestException; Exception]
  | requests_JSONDecodeError =>
      [requests_JSONDecodeError; requests_InvalidJSONError;
       requests_RequestException; json_JSONDecodeError; ValueError; Exception]
  end.

(** [isinstance(e, c)] *)
Definition isinstance (e : exn) (c : exn_class) : bool :=
  existsb (exn_class_eqb c) (mro (exn_cls e)).

Inductive result (A : Type) : Type :=
| Ok (a : A)
| Raise (e : exn).
Arguments Ok {A} a.
Arguments Raise {A} e.

(** Sequencing of computations that can raise. *)
Definition rbind {A B : Type} (c : result A) (k : A -> result B) : result B :=
  match c with
  | Ok a => k a
  | Raise e => Raise e
  end.

Declare Scope py_scope.
Delimit Scope py_scope with py.
Notation "x <~ c ;; k" := (rbind c (fun x => k))
  (at level 100, c at next level, right associativity) : py_scope.

Module Py.

(** [type(v).__name__] *)
Definition type_name (v : value) : string :=
  match v with
  | VNone => "NoneType"
  | VBool _ => "bool"
  | VInt _ => "int"
  | VFloat _ => "float"
  | VStr _ => "str"
  | VList _ => "list"
  | VDict _ => "dict"
  end.

(** [repr(v)]; strings are quoted without escapes, which is what Python
    prints for text free of quotes, backslashes and control characters. *)
Fixpoint repr (v : value) : string :=
  match v with
  | VNone => "None"
  | VBool true => "True"
  | VBool false => "False"
  | VInt n => PyStr.of_Z n
  | VFloat r => r
  | VStr s => "'" ++ s ++ "'"
  | VList l => "[" ++ PyStr.join ", " (map repr l) ++ "]"
  | VDict d =>
      "{" ++ PyStr.join ", "
               (map (fun kv => "'" ++ fst kv ++ "': " ++ repr (snd kv)) d) ++ "}"
  end.

(** [str(v)] *)
Definition str (v : value) : string :=
  match v with
  | VStr s => s
  | _ => repr v
  end.

(** [isinstance(v, dict)] *)
Definition is_dict (v : value) : bool :=
  match v with VDict _ => true | _ => false end.

(** [v is None] *)
Definition is_none (v : value) : bool :=
  match v with VNone => true | _ => false end.

(** [v == s] for a string literal [s]. *)
Definition eq_str (v : value) (s : string) : bool :=
  match v with VStr s' => String.eqb s' s | _ => false end.

(** [len(v)] *)
Definition len (v : value) : result Z :=
  match v with
  | VStr s => Ok (Z.of_nat (String.length s))
  | VList l => Ok (Z.of_nat (List.length l))
  | VDict d => Ok (Z.of_nat (List.length d))
  | _ => Raise (mkExn TypeError
                  ("object of type '" ++ type_name v ++ "' has no len()"))
  end.

(** [v[k]] for a string key [k]. *)
Definition getitem (v : value) (k : string) : result value :=
  match v with
  | VDict d =>
      match dget k d with
      | Some x => Ok x
      | None => Raise (mkExn KeyError ("'" ++ k ++ "'"))
      end
  | VList _ =>
      Raise (mkExn TypeError "list indices must be integers or slices, not str")
  | VStr _ =>
      Raise (mkExn TypeError "string indices must be integers, not 'str'")
  | _ => Raise (mkExn TypeError
                  ("'" ++ type_name v ++ "' object is not subscriptable"))
  end.

(** [v.get(k, default)] *)
Definition get (v : value) (k : string) (default : value) : result value :=
  match v with
  | VDict d =>
      match dget k d with
      | Some x => Ok x
      | None => Ok default
      end
  | _ => Raise (mkExn AttributeError
                  ("'" ++ type_name v ++ "' object has no attribute 'get'"))
  end.

(** [k in v] for a string [k]. *)
Definition contains (k : string) (v : value) : result bool :=
  match v with
  | VDict d => Ok (dmem k d)
  | VList l => Ok (existsb (fun x => eq_str x k) l)
  | VStr s => Ok (PyStr.contains k s)
  | _ => Raise (mkExn TypeError
                  ("argument of type '" ++ type_name v ++ "' is not iterable"))
  end.

(** The elements a [for] loop over [v] visits. *)
Definition iter (v : value) : result (list value) :=
  match v with
  | VList l => Ok l
  | VDict d => Ok (map (fun kv => VStr (fst kv)) d)
  | VStr s => Ok (map (fun c => VStr (String c EmptyString)) (list_ascii_of_string s))
  | _ => Raise (mkExn TypeError
                  ("'" ++ type_name v ++ "' object is not iterable"))
  end.

(** [m.lower()] *)
Definition lower (v : value) : result string :=
  match v with
  | VStr s => Ok (PyStr.lower s)
  | _ => Raise (mkExn AttributeError
                  ("'" ++ type_name v ++ "' object has no attribute 'lower'"))
  end.

(** A slice bound brought into [0, n]: negative bounds count from the
    end, as in [l[i:j]]. *)
Definition clamp (n i : Z) : Z :=
  if i <? 0 then Z.max 0 (n + i) else Z.min i n.

(** [l[i:j]] on a list. *)
Definition slice_list {A : Type} (l : list A) (i j : Z) : list A :=
  let n := Z.of_nat (List.length l) in
  let lo := clamp n i in
  let hi := clamp n j in
  firstn (Z.to_nat (hi - lo)) (skipn (Z.to_nat lo) l).

(** [v[i:j]] *)
Definition slice (v : value) (i j : Z) : result value :=
  match v with
  | VList l => Ok (VList (slice_list l i j))
  | VStr s =>
      Ok (VStr (string_of_list_ascii (slice_list (list_ascii_of_string s) i j)))
  | VDict _ => Raise (mkExn TypeError "unhashable type: 'slice'")
  | _ => Raise (mkExn TypeError
                  ("'" ++ type_name v ++ "' object is not subscriptable"))
  end.

End Py.

(* ================================================================== *)
(** ** Configuration records *)

Record MCPServerConfig : Type := {
  mcp_server_transport : string;
  mcp_bind_host : string;
  mcp_bind_port : Z
}.

Record RegionConfig : Type := {
  url : string;
  url_ssl_verify : bool;
  username : option string;
  password : option string;
  token : option string;
  custom_headers : option (dict string)
}.

Record PrometheusConfig : Type := {
  regions : dict RegionConfig;
  default_region : string;
  disable_prometheus_links : bool;
  org_id : option string;
  mcp_server_config : option MCPServerConfig
}.

(** One entry of [_metrics_cache]: [{"data": ..., "timestamp": ...}]. *)
Record cache_entry : Type := {
  data : value;
  timestamp : Z
}.

Definition _CACHE_TTL : Z := 300.

(* ================================================================== *)
(** ** The outside world: HTTP and the clock *)

(** The arguments of one [requests.get] call. *)
Record request : Type := {
  req_url : string;
  req_params : option (dict string);
  req_auth : option (string * string);      (* HTTPBasicAuth(user, password) *)
  req_headers : dict string;
  req_verify : bool
}.

(** What a [requests.Response] answers to the two methods the module
    calls: [raise_for_status()] looks at the status code (and raises an
    [HTTPError] whose text is [http_error_text]), [json()] returns the
    decoded body or raises. *)
Record response : Type := {
  status_code : Z;
  http_error_text : string;
  json : result value
}.

(** The environment of one handler call: how the network answers a
    request ([requests.get] returns a response or raises), and the clock
    readings [time.time()] and [datetime.utcnow().isoformat()]. *)
Record env : Type := {
  requests_get : request -> result response;
  time_time : Z;
  utcnow_isoformat : string
}.

(** [response.raise_for_status()] *)
Definition raise_for_status (r : response) : result unit :=
  if (400 <=? status_code r) && (status_code r <? 600)
  then Raise (mkExn requests_HTTPError (http_error_text r))
  else Ok tt.

(* ================================================================== *)
(** ** Module globals and the monad of the handlers *)

Record globals : Type := {
  config : PrometheusConfig;
  _metrics_cache : dict cache_entry;
  sent : list request                       (* requests handed to requests.get *)
}.

Definition M (A : Type) : Type := globals -> result A * globals.

Definition ret {A : Type} (a : A) : M A := fun g => (Ok a, g).

Definition bind {A B : Type} (c : M A) (k : A -> M B) : M B :=
  fun g =>
    match c g with
    | (Ok a, g') => k a g'
    | (Raise e, g') => (Raise e, g')
    end.

Definition raise {A : Type} (e : exn) : M A := fun g => (Raise e, g).

(** [try: c  except Exception as e: h e] *)
Definition try_except {A : Type} (c : M A) (h : exn -> M A) : M A :=
  fun g =>
    match c g with
    | (Ok a, g') => (Ok a, g')
    | (Raise e, g') => h e g'
    end.

Definition lift {A : Type} (r : result A) : M A := fun g => (r, g).

Definition get_config : M PrometheusConfig := fun g => (Ok (config g), g).

Definition get_cache : M (dict cache_entry) := fun g => (Ok (_metrics_cache g), g).

(** The globals once [_metrics_cache[k] = v] has run. *)
Definition store_entry (k : string) (v : cache_entry) (g : globals) : globals :=
  {| config := config g;
     _metrics_cache := dset k v (_metrics_cache g);
     sent := sent g |}.

Definition set_cache_entry (k : string) (v : cache_entry) : M unit :=
  fun g => (Ok tt, store_entry k v g).

(** The globals once [rq] has been handed to [requests.get]. *)
Definition log_request (rq : request) (g : globals) : globals :=
  {| config := config g;
     _metrics_cache := _metrics_cache g;
     sent := sent g ++ [rq] |}.

(** [requests.get(url, params=..., auth=..., headers=..., verify=...)] *)
Definition http_get (e : env) (rq : request) : M response :=
  fun g => (requests_get e rq, log_request rq g).

Notation "x <- c ;; k" := (bind c (fun x => k))
  (at level 100, c at next level, right associativity) : py_scope.
Notation "' pat <- c ;; k" := (bind c (fun x => match x with pat => k end))
  (at level 100, pat pattern, c at next level, right associativity) : py_scope.
Local Open Scope py_scope.

(* ================================================================== *)
(** ** Region registry and authentication *)

Definition get_region_config (region : option string) : M (string * RegionConfig) :=
  cfg <- get_config ;;
  let region := match region with None => default_region cfg | Some r => r end in
  let region_normalized := PyStr.lower region in
  match dget region_normalized (regions cfg) with
  | None =>
      let available_regions := PyStr.join ", " (PyStr.sorted (dkeys (regions cfg))) in
      raise (mkExn ValueError
               ("Region '" ++ region ++ "' is not configured. Available regions: "
                ++ available_regions))
  | Some rc => ret (region_normalized, rc)
  end.

(** What [get_prometheus_auth] returns: a header dict for a bearer token,
    an [HTTPBasicAuth] object, or [None]. *)
Inductive auth : Type :=
| AuthHeaders (h : dict string)
| AuthBasic (user pass : string)
| AuthNone.

Definition opt_str (o : option string) : string :=
  match o with Some s => s | None => "" end.

Definition get_prometheus_auth (region_config : RegionConfig) : auth :=
  if PyStr.opt_truthy (token region_config)
  then AuthHeaders [("Authorization", "Bearer " ++ opt_str (token region_config))]
  else if PyStr.opt_truthy (username region_config)
          && PyStr.opt_truthy (password region_config)
  then AuthBasic (opt_str (username region_config)) (opt_str (password region_config))
  else AuthNone.

(* ================================================================== *)
(** ** The request client *)

(** Lines 340-352: the headers and the [auth] argument of the call. *)
Definition build_headers (cfg : PrometheusConfig) (region_config : RegionConfig)
  : dict string * option (string * string) :=
  let auth := get_prometheus_auth region_config in
  let headers := [] in
  let '(headers, auth) :=
    match auth with
    | AuthHeaders h => (dupdate headers h, None)
    | AuthBasic u p => (headers, Some (u, p))
    | AuthNone => (headers, None)
    end in
  let headers :=
    if PyStr.opt_truthy (org_id cfg)
    then dset "X-Scope-OrgID" (opt_str (org_id cfg)) headers
    else headers in
  let headers :=
    match custom_headers region_config with
    | Some ch => if dtruthy ch then dupdate headers ch else headers
    | None => headers
    end in
  (headers, auth).

(** The request [make_prometheus_request] hands to [requests.get]. *)
Definition build_request (cfg : PrometheusConfig) (region_config : RegionConfig)
  (endpoint : string) (params : option (dict string)) : request :=
  let '(headers, auth) := build_headers cfg region_config in
  {| req_url := PyStr.rstrip "/" (url region_config) ++ "/api/v1/" ++ endpoint;
     req_params := params;
     req_auth := auth;
     req_headers := headers;
     req_verify := url_ssl_verify region_config |}.

(** The three [except] clauses of [make_prometheus_request], in order;
    each ends in a [raise], and this is the exception it raises. *)
Definition request_handlers (ex : exn) : exn :=
  if isinstance ex requests_RequestException then ex
  else if isinstance ex json_JSONDecodeError
  then mkExn ValueError ("Invalid JSON response from Prometheus: " ++ exn_str ex)
  else ex.

Definition make_prometheus_request (e : env) (endpoint : string)
  (params : option (dict string)) (region : option string) : M value :=
  '(region_name, region_config) <- get_region_config region ;;
  if negb (PyStr.truthy (url region_config))
  then raise (mkExn ValueError
                ("Prometheus URL is not configured for region '" ++ region_name ++ "'."))
  else
    cfg <- get_config ;;
    try_except
      (response <- http_get e (build_request cfg region_config endpoint params) ;;
       _ <- lift (raise_for_status response) ;;
       result <- lift (json response) ;;
       status <- lift (Py.getitem result "status") ;;
       if negb (Py.eq_str status "success")
       then
         error_msg <- lift (Py.get result "error" (VStr "Unknown error")) ;;
         raise (mkExn ValueError ("Prometheus API error: " ++ Py.str error_msg))
       else
         _ <- lift (Py.get result "data" (VDict [])) ;;
         lift (Py.getitem result "data"))
      (fun ex => raise (request_handlers ex)).

(* ================================================================== *)
(** ** The metrics cache *)

(** [region.lower() if region else config.default_region] *)
Definition region_label (cfg : PrometheusConfig) (region : option string) : string :=
  if PyStr.opt_truthy region then PyStr.lower (opt_str region) else default_region cfg.

(** The test of line 401 on one cache entry. *)
Definition entry_usable (c : cache_entry) : bool := negb (Py.is_none (data c)).

Definition entry_fresh (current_time : Z) (c : cache_entry) : bool :=
  entry_usable c && (current_time - timestamp c <? _CACHE_TTL).

(** Lines 405-416: fetch, store, and fall back on what the cache holds. *)
Definition refresh_metrics (e : env) (region : option string)
  (cache_key : string) (current_time : Z) : M value :=
  try_except
    (data <- make_prometheus_request e "label/__name__/values" None region ;;
     _ <- set_cache_entry cache_key {| data := data; timestamp := current_time |} ;;
     _ <- lift (Py.len data) ;;          (* metric_count=len(data) *)
     ret data)
    (fun _ =>
       cache <- get_cache ;;
       match dget cache_key cache with
       | Some c => if entry_usable c then ret (data c) else ret (VList [])
       | None => ret (VList [])
       end).

Definition get_cached_metrics (e : env) (region : option string) : M value :=
  cfg <- get_config ;;
  let region_name := region_label cfg region in
  let cache_key := region_name ++ "_metrics" in
  let current_time := time_time e in
  cache <- get_cache ;;
  match dget cache_key cache with
  | Some c =>
      if entry_fresh current_time c then ret (data c)
      else refresh_metrics e region cache_key current_time
  | None => refresh_metrics e region cache_key current_time
  end.

(* ================================================================== *)
(** ** Operation handlers *)

(** [[m for m in data if pattern in m.lower()]], [pattern] being
    [filter_pattern.lower()]. *)
Fixpoint filter_metrics (pattern : string) (items : list value) : result (list value) :=
  match items with
  | [] => Ok []
  | m :: rest =>
      lm <~ Py.lower m ;;
      kept <~ filter_metrics pattern rest ;;
      Ok (if PyStr.contains pattern lm then m :: kept else kept)
  end.

(** Lines 600-623 of [list_metrics]: what the handler makes of the fetched
    [data].  [ctx] tells whether a progress context was passed. *)
Definition list_metrics_result (region_name : string) (limit : option Z)
  (offset : Z) (filter_pattern : option string) (ctx : bool) (data : value)
  : result value :=
  _ <~ (if ctx then Py.len data else Ok 0) ;;   (* f"Processing {len(data)} ..." *)
  data <~ (if PyStr.opt_truthy filter_pattern
           then
             items <~ Py.iter data ;;
             filtered_data <~
               filter_metrics (PyStr.lower (opt_str filter_pattern)) items ;;
             Ok (VList filtered_data)
           else Ok data) ;;
  total_count <~ Py.len data ;;
  let start_idx := offset in
  let end_idx := match limit with Some l => offset + l | None => total_count end in
  paginated_data <~ Py.slice data start_idx end_idx ;;
  returned_count <~ Py.len paginated_data ;;
  Ok (VDict [("metrics", paginated_data);
             ("total_count", VInt total_count);
             ("returned_count", VInt returned_count);
             ("offset", VInt offset);
             ("has_more", VBool (end_idx <? total_count));
             ("region", VStr region_name)]).

Definition list_metrics (e : env) (limit : option Z) (offset : Z)
  (filter_pattern : option string) (region : option string) (ctx : bool) : M value :=
  cfg <- get_config ;;
  let region_name := region_label cfg region in
  data <- make_prometheus_request e "label/__name__/values" None region ;;
  lift (list_metrics_result region_name limit offset filter_pattern ctx data).

(** Lines 662-669: pick the metadata out of the payload and make it a
    list. *)
Definition normalize_metadata (data : value) : result value :=
  in_metadata <~ Py.contains "metadata" data ;;
  metadata <~ (if in_metadata then Py.getitem data "metadata"
               else
                 in_data <~ Py.contains "data" data ;;
                 if in_data then Py.getitem data "data" else Ok data) ;;
  Ok (if Py.is_dict metadata then VList [metadata] else metadata).

Definition get_metric_metadata (e : env) (metric : string) (region : option string)
  : M value :=
  cfg <- get_config ;;
  let region_name := region_label cfg region in
  let endpoint := "metadata?metric=" ++ metric in
  data <- make_prometheus_request e endpoint None region ;;
  metadata <- lift (normalize_metadata data) ;;
  _ <- lift (Py.len metadata) ;;        (* metadata_count=len(metadata) *)
  ret (VDict [("metadata", metadata); ("region", VStr region_name)]).

(** [{"query": "up", "time": str(int(time.time()))}] *)
Definition probe_params (e : env) : dict string :=
  [("query", "up"); ("time", PyStr.of_Z (time_time e))].

(** The probe of [health_check]: an instant query [up] at the current
    time. *)
Definition probe (e : env) (region_name : string) : M value :=
  make_prometheus_request e "query" (Some (probe_params e)) (Some region_name).

(** The loop over [config.regions.items()], carrying [regions_status] and
    [all_healthy]. *)
Fixpoint probe_regions (e : env) (items : list (string * RegionConfig))
  (regions_status : dict value) (all_healthy : bool) : M (dict value * bool) :=
  match items with
  | [] => ret (regions_status, all_healthy)
  | (region_name, region_config) :: rest =>
      '(regions_status, all_healthy) <-
        try_except
          (_ <- probe e region_name ;;
           ret (dset region_name
                  (VDict [("prometheus_connectivity", VStr "healthy");
                          ("prometheus_url", VStr (url region_config))])
                  regions_status, all_healthy))
          (fun ex =>
             ret (dset region_name
                    (VDict [("prometheus_connectivity", VStr "degraded");
                            ("prometheus_error", VStr (exn_str ex))])
                    regions_status, false)) ;;
      probe_regions e rest regions_status all_healthy
  end.

(** Lines 48-59: the payload [health_check] starts from. *)
Definition initial_health_status (e : env) (cfg : PrometheusConfig) : dict value :=
  [("status", VStr "healthy");
   ("service", VStr "prometheus-mcp-server");
   ("version", VStr "1.5.1");
   ("timestamp", VStr (utcnow_isoformat e));
   ("transport",
     VStr match mcp_server_config cfg with
          | Some mc => mcp_server_transport mc
          | None => "stdio"
          end);
   ("configuration",
     VDict [("regions_configured", VList (map VStr (dkeys (regions cfg))));
            ("default_region", VStr (default_region cfg));
            ("org_id_configured", VBool (PyStr.opt_truthy (org_id cfg)))])].

Definition health_check (e : env) (region : option string) : M value :=
  try_except
    (cfg <- get_config ;;
     let health_status := initial_health_status e cfg in
     health_status <-
       (if PyStr.opt_truthy region
        then
          try_except
            ('(region_name, region_config) <- get_region_config region ;;
             try_except
               (_ <- probe e region_name ;;
                ret (dset "region" (VStr region_name)
                       (dset "prometheus_url" (VStr (url region_config))
                          (dset "prometheus_connectivity" (VStr "healthy")
                             health_status))))
               (fun ex =>
                  ret (dset "status" (VStr "degraded")
                         (dset "region" (VStr region_name)
                            (dset "prometheus_error" (VStr (exn_str ex))
                               (dset "prometheus_connectivity" (VStr "unhealthy")
                                  health_status))))))
            (fun ex =>
               if isinstance ex ValueError
               then ret (dset "error" (VStr (exn_str ex))
                           (dset "status" (VStr "unhealthy") health_status))
               else raise ex)
        else
          '(regions_status, all_healthy) <- probe_regions e (regions cfg) [] true ;;
          let health_status := dset "regions" (VDict regions_status) health_status in
          ret (if negb all_healthy
               then dset "status" (VStr "degraded") health_status
               else health_status)) ;;
     ret (VDict health_status))
    (fun ex =>
       ret (VDict [("status", VStr "unhealthy");
                   ("service", VStr "prometheus-mcp-server");
                   ("error", VStr (exn_str ex));
                   ("timestamp", VStr (utcnow_isoformat e))])).

(* ================================================================== *)
(** ** Auxiliary definitions for the statements *)

(** The order of [sorted] on strings. *)
Definition str_le (a b : string) : Prop := String.leb a b = true.

(** The region name a call asks for: the argument, or the default region
    when the argument is [None] (lines 286-287). *)
Definition requested_region (cfg : PrometheusConfig) (region : option string) : string :=
  match region with Some r => r | None => default_region cfg end.

(** The error of lines 294-296. *)
Definition unknown_region_error (cfg : PrometheusConfig) (requested : string) : exn :=
  mkExn ValueError
    ("Region '" ++ requested ++ "' is not configured. Available regions: "
     ++ PyStr.join ", " (PyStr.sorted (dkeys (regions cfg)))).

(** What the [try] block of [make_prometheus_request] makes of the answer
    of [requests.get], before the [except] clauses. *)
Definition decode_response (a : result response) : result value :=
  match a with
  | Raise ex => Raise ex
  | Ok r =>
      match raise_for_status r with
      | Raise ex => Raise ex
      | Ok _ =>
          match json r with
          | Raise ex => Raise ex
          | Ok result =>
              match Py.getitem result "status" with
              | Raise ex => Raise ex
              | Ok status =>
                  if negb (Py.eq_str status "success")
                  then
                    match Py.get result "error" (VStr "Unknown error") with
                    | Raise ex => Raise ex
                    | Ok error_msg =>
                        Raise (mkExn ValueError
                                 ("Prometheus API error: " ++ Py.str error_msg))
                    end
                  else
                    match Py.get result "data" (VDict []) with
                    | Raise ex => Raise ex
                    | Ok _ => Py.getitem result "data"
                    end
              end
          end
      end
  end.

(** ... and after them. *)
Definition request_outcome (a : result response) : result value :=
  match decode_response a with
  | Ok v => Ok v
  | Raise ex => Raise (request_handlers ex)
  end.

(** The configuration of [tests/test_multi_region.py]. *)
Definition test_regions : dict RegionConfig :=
  [("atl", {| url := "http://atl.example.com:9090"; url_ssl_verify := true;
              username := Some ""; password := Some ""; token := Some "";
              custom_headers := None |});
   ("blr", {| url := "http://blr.example.com:9090"; url_ssl_verify := true;
              username := Some ""; password := Some ""; token := Some "token123";
              custom_headers := Some [("X-Custom", "blr-value")] |});
   ("wdc", {| url := "http://wdc.example.com:9090"; url_ssl_verify := false;
              username := Some "admin"; password := Some "pass"; token := Some "";
              custom_headers := None |})].

Definition test_config : PrometheusConfig :=
  {| regions := test_regions;
     default_region := "atl";
     disable_prometheus_links := false;
     org_id := Some "";
     mcp_server_config :=
       Some {| mcp_server_transport := "stdio";
               mcp_bind_host := "127.0.0.1";
               mcp_bind_port := 8080 |} |}.

Definition test_globals : globals :=
  {| config := test_config; _metrics_cache := []; sent := [] |}.

(** A [200] answer with body [{"status": "success", "data": payload}]. *)
Definition success_response (payload : value) : response :=
  {| status_code := 200;
     http_error_text := "";
     json := Ok (VDict [("status", VStr "success"); ("data", payload)]) |}.

(** An environment in which every request is answered by [a]. *)
Definition const_env (a : result response) (now : Z) : env :=
  {| requests_get := fun _ => a;
     time_time := now;
     utcnow_isoformat := "2024-01-01T00:00:00" |}.

(** A region with a bearer token whose custom headers carry an
    [Authorization] entry of their own. *)
Definition override_region : RegionConfig :=
  {| url := "http://blr.example.com:9090"; url_ssl_verify := true;
     username := Some ""; password := Some ""; token := Some "token123";
     custom_headers := Some [("Authorization", "Basic YWRtaW46cGFzcw==")] |}.

Definition override_globals : globals :=
  {| config := {| regions := [("blr", override_region)];
                  default_region := "blr";
                  disable_prometheus_links := false;
                  org_id := Some "";
                  mcp_server_config := None |};
     _metrics_cache := [];
     sent := [] |}.

(** A [200] answer whose body is not JSON: [response.json()] raises
    [requests.exceptions.JSONDecodeError]. *)
Definition invalid_json_response : response :=
  {| status_code := 200;
     http_error_text := "";
     json := Raise (mkExn requests_JSONDecodeError
                      "Expecting value: line 1 column 1 (char 0)") |}.

Definition metric_names : value :=
  VList [VStr "up"; VStr "go_goroutines"; VStr "http_requests_total"].

Definition is_ok {A : Type} (r : result A) : bool :=
  match r with Ok _ => true | Raise _ => false end.

(** Whether the probe of [health_check] succeeds for a region name. *)
Definition probe_ok (e : env) (g : globals) (region_name : string) : bool :=
  is_ok (fst (probe e region_name g)).

(** The key of [_metrics_cache] a call of [get_cached_metrics] uses. *)
Definition cache_key_of (cfg : PrometheusConfig) (region : option string) : string :=
  region_label cfg region ++ "_metrics".

(** What [get_cached_metrics] falls back on: the data of the entry under
    [key] if it is there and not [None], else an empty list. *)
Definition stale_or_empty (cache : dict cache_entry) (key : string) : value :=
  match dget key cache with
  | Some c => if entry_usable c then data c else VList []
  | None => VList []
  end.

(** Whether the entry under [key] passes the test of line 401. *)
Definition cache_valid (cache : dict cache_entry) (key : string) (now : Z) : bool :=
  match dget key cache with
  | Some c => entry_fresh now c
  | None => false
  end.

(** The value of [prometheus_connectivity] in the per-region detail. *)
Definition connectivity (ok : bool) : value :=
  VStr (if ok then "healthy" else "degraded").

(** The entry [regions_status[region_name]] after a probe that answered
    [r] (lines 91-99). *)
Definition region_detail (region_config : RegionConfig) (r : result value) : value :=
  match r with
  | Ok _ => VDict [("prometheus_connectivity", VStr "healthy");
                   ("prometheus_url", VStr (url region_config))]
  | Raise ex => VDict [("prometheus_connectivity", VStr "degraded");
                       ("prometheus_error", VStr (exn_str ex))]
  end.

(** The network of [test_health_check_degraded_region]: the region [blr]
    refuses connections, the others answer an empty vector. *)
Definition blr_down_env : env :=
  {| requests_get := fun rq =>
       if String.prefix "http://blr" (req_url rq)
       then Raise (mkExn requests_ConnectionError "Connection refused")
       else Ok (success_response
                  (VDict [("resultType", VStr "vector"); ("result", VList [])]));
     time_time := 1617898448;
     utcnow_isoformat := "2021-04-08T16:14:08" |}.

(* ================================================================== *)
(** ** Query handlers and scrape targets *)

Module UrlLib.

(** The characters [urllib.parse.quote] never escapes: ASCII letters,
    digits and [_.-~]. *)
Definition always_safe (c : ascii) : bool :=
  let n := N_of_ascii c in
  ((65 <=? n) && (n <=? 90) || (97 <=? n) && (n <=? 122)
   || (48 <=? n) && (n <=? 57)
   || (n =? 95) || (n =? 46) || (n =? 45) || (n =? 126))%N.

(** One uppercase hexadecimal digit. *)
Definition hex_digit (n : N) : ascii :=
  if (n <? 10)%N then ascii_of_N (48 + n) else ascii_of_N (55 + n).

(** [quote_plus(s)]: safe characters stay, a space becomes [+], every
    other byte of the UTF-8 text becomes [%XX]. *)
Fixpoint quote_plus (s : string) : string :=
  match s with
  | EmptyString => EmptyString
  | String c s' =>
      if always_safe c then String c (quote_plus s')
      else if Ascii.eqb c " " then String "+" (quote_plus s')
      else String "%" (String (hex_digit (N_of_ascii c / 16))
                         (String (hex_digit (N_of_ascii c mod 16)) (quote_plus s')))
  end.

(** [urlencode(d)] for a dict of strings. *)
Definition urlencode (d : dict string) : string :=
  PyStr.join "&" (map (fun kv => quote_plus (fst kv) ++ "=" ++ quote_plus (snd kv)) d).

End UrlLib.

(** The value stored under ["links"]. *)
Definition prometheus_ui_links (href : string) : value :=
  VList [VDict [("href", VStr href);
                ("rel", VStr "prometheus-ui");
                ("title", VStr "View in Prometheus UI")]].

Definition execute_query (e : env) (query : string) (time : option string)
  (region : option string) : M value :=
  let params := [("query", query)] in
  let params :=
    if PyStr.opt_truthy time then dset "time" (opt_str time) params else params in
  cfg <- get_config ;;
  let region_name := region_label cfg region in
  data <- make_prometheus_request e "query" (Some params) region ;;
  result_type <- lift (Py.getitem data "resultType") ;;
  result_value <- lift (Py.getitem data "result") ;;
  let result := [("resultType", result_type);
                 ("result", result_value);
                 ("region", VStr region_name)] in
  cfg <- get_config ;;
  result <-
    (if negb (disable_prometheus_links cfg)
     then
       '(region_normalized, region_config) <- get_region_config region ;;
       let ui_params := [("g0.expr", query); ("g0.tab", "0")] in
       let ui_params :=
         if PyStr.opt_truthy time
         then dset "g0.moment_input" (opt_str time) ui_params
         else ui_params in
       let prometheus_ui_link :=
         PyStr.rstrip "/" (url region_config) ++ "/graph?"
         ++ UrlLib.urlencode ui_params in
       ret (dset "links" (prometheus_ui_links prometheus_ui_link) result)
     else ret result) ;;
  ret (VDict result).

(** The progress reports sent through [ctx] do not touch the module
    state and are left out. *)
Definition execute_range_query (e : env) (query start end_ step : string)
  (region : option string) : M value :=
  let params := [("query", query); ("start", start); ("end", end_); ("step", step)] in
  cfg <- get_config ;;
  let region_name := region_label cfg region in
  data <- make_prometheus_request e "query_range" (Some params) region ;;
  result_type <- lift (Py.getitem data "resultType") ;;
  result_value <- lift (Py.getitem data "result") ;;
  let result := [("resultType", result_type);
                 ("result", result_value);
                 ("region", VStr region_name)] in
  cfg <- get_config ;;
  result <-
    (if negb (disable_prometheus_links cfg)
     then
       '(region_normalized, region_config) <- get_region_config region ;;
       let ui_params := [("g0.expr", query);
                         ("g0.tab", "0");
                         ("g0.range_input", start ++ " to " ++ end_);
                         ("g0.step_input", step)] in
       let prometheus_ui_link :=
         PyStr.rstrip "/" (url region_config) ++ "/graph?"
         ++ UrlLib.urlencode ui_params in
       ret (dset "links" (prometheus_ui_links prometheus_ui_link) result)
     else ret result) ;;
  ret (VDict result).

Definition get_targets (e : env) (region : option string) : M value :=
  cfg <- get_config ;;
  let region_name := region_label cfg region in
  data <- make_prometheus_request e "targets" None region ;;
  active <- lift (Py.getitem data "activeTargets") ;;
  dropped <- lift (Py.getitem data "droppedTargets") ;;
  let result := [("activeTargets", active);
                 ("droppedTargets", dropped);
                 ("region", VStr region_name)] in
  _ <- lift (Py.len active) ;;          (* active_targets=len(...) *)
  _ <- lift (Py.len dropped) ;;         (* dropped_targets=len(...) *)
  ret (VDict result).

(* ================================================================== *)
(** ** Loading the configuration from the environment *)

(** What the loader takes from the Python runtime: the order in which a
    set of strings is iterated, [json.loads] on the text of a headers
    variable ([None] for a [JSONDecodeError]; the decoded object is read
    as the header dict the dataclass declares), and [int] on a string. *)
Record runtime : Type := {
  set_order : list string -> list string;
  json_loads : string -> option (dict string);
  int_of_str : string -> result Z
}.

(** [os.environ.get(k, default)] *)
Definition environ_get (environ : dict string) (k default : string) : string :=
  match dget k environ with
  | Some v => v
  | None => default
  end.

(** [s.lower() in ("true", "1", "yes")] *)
Definition flag_of (s : string) : bool :=
  let l := PyStr.lower s in
  String.eqb l "true" || String.eqb l "1" || String.eqb l "yes".

(** [s.add(x)] on a set kept as a list without repetition. *)
Definition set_add (x : string) (s : list string) : list string :=
  if existsb (String.eqb x) s then s else (s ++ [x])%list.

(** [key[len("PROMETHEUS_URL_"):]] *)
Definition url_suffix (key : string) : string :=
  String.substring 15 (String.length key - 15) key.

(** Lines 180-185: the suffixes of the [PROMETHEUS_URL_*] variables. *)
Fixpoint collect_suffixes (keys : list string) (region_suffixes : list string)
  : list string :=
  match keys with
  | [] => region_suffixes
  | key :: rest =>
      collect_suffixes rest
        (if String.prefix "PROMETHEUS_URL_" key
         then if PyStr.truthy (url_suffix key)
              then set_add (url_suffix key) region_suffixes
              else region_suffixes
         else region_suffixes)
  end.

(** Lines 194-200 and 216-222: the custom headers of a region. *)
Definition load_custom_headers (rt : runtime) (custom_headers_str : option string)
  : option (dict string) :=
  if PyStr.opt_truthy custom_headers_str
  then json_loads rt (opt_str custom_headers_str)
  else None.

(** Lines 202-209: the config built for one suffix. *)
Definition region_of_suffix (rt : runtime) (environ : dict string)
  (region_suffix url : string) : RegionConfig :=
  {| url := url;
     url_ssl_verify :=
       flag_of (environ_get environ ("PROMETHEUS_SSL_VERIFY_" ++ region_suffix) "True");
     username := Some (environ_get environ ("PROMETHEUS_USERNAME_" ++ region_suffix) "");
     password := Some (environ_get environ ("PROMETHEUS_PASSWORD_" ++ region_suffix) "");
     token := Some (environ_get environ ("PROMETHEUS_TOKEN_" ++ region_suffix) "");
     custom_headers :=
       load_custom_headers rt
         (dget ("PROMETHEUS_CUSTOM_HEADERS_" ++ region_suffix) environ) |}.

(** Lines 188-210: the loop over the suffixes, in iteration order. *)
Fixpoint parse_suffixes (rt : runtime) (environ : dict string)
  (suffixes : list string) (regions : dict RegionConfig) : dict RegionConfig :=
  match suffixes with
  | [] => regions
  | region_suffix :: rest =>
      let region_name := PyStr.lower region_suffix in
      let url := dget ("PROMETHEUS_URL_" ++ region_suffix) environ in
      parse_suffixes rt environ rest
        (if PyStr.opt_truthy url
         then dset region_name
                (region_of_suffix rt environ region_suffix (opt_str url)) regions
         else regions)
  end.

(** Lines 224-231: the config of the legacy single-region variables. *)
Definition legacy_region (rt : runtime) (environ : dict string) (legacy_url : string)
  : RegionConfig :=
  {| url := legacy_url;
     url_ssl_verify := flag_of (environ_get environ "PROMETHEUS_URL_SSL_VERIFY" "True");
     username := Some (environ_get environ "PROMETHEUS_USERNAME" "");
     password := Some (environ_get environ "PROMETHEUS_PASSWORD" "");
     token := Some (environ_get environ "PROMETHEUS_TOKEN" "");
     custom_headers :=
       load_custom_headers rt (dget "PROMETHEUS_CUSTOM_HEADERS" environ) |}.

Definition parse_region_configs (rt : runtime) (environ : dict string)
  : dict RegionConfig :=
  let region_suffixes := collect_suffixes (dkeys environ) [] in
  let regions := parse_suffixes rt environ (set_order rt region_suffixes) [] in
  let legacy_url := environ_get environ "PROMETHEUS_URL" "" in
  if PyStr.truthy legacy_url && negb (dtruthy regions)
  then dset "default" (legacy_region rt environ legacy_url) regions
  else regions.

(** [MCPServerConfig(...)] with its [__post_init__]. *)
Definition MCPServerConfig_init (transport host : string) (port : Z)
  : result MCPServerConfig :=
  if negb (PyStr.truthy transport)
  then Raise (mkExn ValueError "MCP SERVER TRANSPORT is required")
  else if negb (PyStr.truthy host)
  then Raise (mkExn ValueError "MCP BIND HOST is required")
  else if port =? 0
  then Raise (mkExn ValueError "MCP BIND PORT is required")
  else Ok {| mcp_server_transport := transport;
             mcp_bind_host := host;
             mcp_bind_port := port |}.

(** Lines 237-272: the module-level code that builds [config]. *)
Definition load_config (rt : runtime) (environ : dict string)
  : result PrometheusConfig :=
  let _regions := parse_region_configs rt environ in
  let _default_region :=
    PyStr.lower (environ_get environ "PROMETHEUS_DEFAULT_REGION" "") in
  let _default_region :=
    if negb (PyStr.truthy _default_region)
    then if dmem "default" _regions then "default"
         else match dkeys _regions with
              | first :: _ => first
              | [] => "default"
              end
    else _default_region in
  port <~ int_of_str rt (environ_get environ "PROMETHEUS_MCP_BIND_PORT" "8080") ;;
  mcp <~ MCPServerConfig_init
           (PyStr.lower (environ_get environ "PROMETHEUS_MCP_SERVER_TRANSPORT" "stdio"))
           (environ_get environ "PROMETHEUS_MCP_BIND_HOST" "127.0.0.1")
           port ;;
  let config :=
    {| regions := _regions;
       default_region := _default_region;
       disable_prometheus_links :=
         flag_of (environ_get environ "PROMETHEUS_DISABLE_LINKS" "False");
       org_id := Some (environ_get environ "ORG_ID" "");
       mcp_server_config := Some mcp |} in
  if dtruthy (regions config)
  then if negb (dmem (default_region config) (regions config))
       then Raise (mkExn ValueError
                     ("Default region '" ++ default_region config
                      ++ "' is not configured. Available regions: "
                      ++ PyStr.join ", " (dkeys (regions config))))
       else Ok config
  else Ok config.

(* ================================================================== *)
(** ** The entry point, [main.py] *)

(** [TransportType.values()] *)
Definition TransportType_values : list string := ["stdio"; "http"; "sse"].

(** Reading an attribute [name] that the dataclass [PrometheusConfig]
    does not declare. *)
Definition no_attribute {A : Type} (name : string) : result A :=
  Raise (mkExn AttributeError
           ("'PrometheusConfig' object has no attribute '" ++ name ++ "'")).

(** [setup_environment()]; [config.url], [config.username],
    [config.password] and [config.token] are not fields of
    [PrometheusConfig]. *)
Definition setup_environment (cfg : PrometheusConfig) : result bool :=
  url <~ (no_attribute "url" : result string) ;;
  match
    match mcp_server_config cfg with
    | Some mcp_config =>
        if negb (existsb (String.eqb (PyStr.lower (mcp_server_transport mcp_config)))
                   TransportType_values)
        then Some false
        else None
    | None => None
    end
  with
  | Some answer => Ok answer
  | None =>
      username <~ (no_attribute "username" : result string) ;;
      _ <~ (if PyStr.truthy username
            then no_attribute "password"
            else no_attribute "token" : result string) ;;
      Ok true
  end.

(** How a run of [run_server] ends: [mcp.run] is called, or the process
    exits, or an exception escapes. *)
Inductive server_run : Type :=
| Started (transport : string) (bind : option (string * Z))
| Exited (code : Z)
| Crashed (ex : exn).

Definition run_server (cfg : PrometheusConfig) : server_run :=
  match setup_environment cfg with
  | Raise ex => Crashed ex
  | Ok false => Exited 1
  | Ok true =>
      match mcp_server_config cfg with
      | None =>
          Crashed (mkExn AttributeError
                     "'NoneType' object has no attribute 'mcp_server_transport'")
      | Some mcp_config =>
          let transport := mcp_server_transport mcp_config in
          if existsb (String.eqb transport) ["http"; "sse"]
          then Started transport (Some (mcp_bind_host mcp_config, mcp_bind_port mcp_config))
          else Started transport None
      end
  end.

(** A runtime for examples: sets are iterated in insertion order, no
    headers variable decodes, the port is 8080. *)
Definition example_runtime : runtime :=
  {| set_order := fun l => l;
     json_loads := fun _ => None;
     int_of_str := fun _ => Ok 8080 |}.

(* ================================================================== *)
(** ** Auxiliary definitions for the further statements *)

(** Lines 457-468 and 528-542: the result with the link added, when links
    are enabled. *)
Definition with_links (cfg : PrometheusConfig) (region : option string)
  (ui_params : dict string) (fields : dict value) : result (dict value) :=
  if negb (disable_prometheus_links cfg)
  then
    match dget (PyStr.lower (requested_region cfg region)) (regions cfg) with
    | Some rc =>
        Ok (dset "links"
              (prometheus_ui_links
                 (PyStr.rstrip "/" (url rc) ++ "/graph?" ++ UrlLib.urlencode ui_params))
              fields)
    | None => Raise (unknown_region_error cfg (requested_region cfg region))
    end
  else Ok fields.

(** What the two query handlers make of the data the client returned. *)
Definition query_result (cfg : PrometheusConfig) (region : option string)
  (ui_params : dict string) (data : value) : result value :=
  result_type <~ Py.getitem data "resultType" ;;
  result_value <~ Py.getitem data "result" ;;
  fields <~ with_links cfg region ui_params
              [("resultType", result_type);
               ("result", result_value);
               ("region", VStr (region_label cfg region))] ;;
  Ok (VDict fields).

(** The parameters [execute_query] sends. *)
Definition instant_params (query : string) (time : option string) : dict string :=
  if PyStr.opt_truthy time
  then [("query", query); ("time", opt_str time)]
  else [("query", query)].

(** The parameters of the link [execute_query] builds. *)
Definition instant_ui_params (query : string) (time : option string) : dict string :=
  if PyStr.opt_truthy time
  then [("g0.expr", query); ("g0.tab", "0"); ("g0.moment_input", opt_str time)]
  else [("g0.expr", query); ("g0.tab", "0")].

Definition range_params (query start end_ step : string) : dict string :=
  [("query", query); ("start", start); ("end", end_); ("step", step)].

Definition range_ui_params (query start end_ step : string) : dict string :=
  [("g0.expr", query); ("g0.tab", "0");
   ("g0.range_input", start ++ " to " ++ end_); ("g0.step_input", step)].

(** What [get_targets] makes of the data the client returned. *)
Definition targets_result (cfg : PrometheusConfig) (region : option string)
  (data : value) : result value :=
  active <~ Py.getitem data "activeTargets" ;;
  dropped <~ Py.getitem data "droppedTargets" ;;
  _ <~ Py.len active ;;
  _ <~ Py.len dropped ;;
  Ok (VDict [("activeTargets", active);
             ("droppedTargets", dropped);
             ("region", VStr (region_label cfg region))]).

(** The characters [quote_plus] can produce. *)
Definition url_clean (c : ascii) : bool :=
  UrlLib.always_safe c || Ascii.eqb c "%" || Ascii.eqb c "+".

(** A region config with another base URL. *)
Definition with_url (rc : RegionConfig) (u : string) : RegionConfig :=
  {| url := u;
     url_ssl_verify := url_ssl_verify rc;
     username := username rc;
     password := password rc;
     token := token rc;
     custom_headers := custom_headers rc |}.

(** The metric names that pass the filter of [list_metrics]. *)
Definition filtered_names (filter_pattern : option string) (names : list string)
  : list string :=
  if PyStr.opt_truthy filter_pattern
  then filter (fun m => PyStr.contains (PyStr.lower (opt_str filter_pattern))
                          (PyStr.lower m)) names
  else names.

(** The names under ["metrics"] in a result of [list_metrics]. *)
Definition metrics_of (r : result value) : option (list value) :=
  match r with
  | Ok v => match Py.getitem v "metrics" with
            | Ok (VList l) => Some l
            | _ => None
            end
  | Raise _ => None
  end.

(** The set of suffixes a loader run iterates over. *)
Definition region_suffixes_of (environ : dict string) : list string :=
  collect_suffixes (dkeys environ) [].

(** The iteration order of a set holds the elements of the set. *)
Definition set_order_spec (rt : runtime) : Prop :=
  forall l x, In x (set_order rt l) <-> In x l.

(** An environment of two regions and one of the legacy variables. *)
Definition example_environ : dict string :=
  [("PROMETHEUS_URL_ATL", "http://atl.example.com:9090");
   ("PROMETHEUS_URL_BLR", "http://blr.example.com:9090/");
   ("PROMETHEUS_TOKEN_BLR", "token123");
   ("PROMETHEUS_SSL_VERIFY_ATL", "No");
   ("PROMETHEUS_URL", "http://legacy.example.com:9090")].

(** A legacy environment that asks for no certificate verification. *)
Definition legacy_environ : dict string :=
  [("PROMETHEUS_URL", "http://legacy.example.com:9090");
   ("PROMETHEUS_URL_SSL_VERIFY", "false")].

Definition instant_vector : value :=
  VDict [("resultType", VStr "vector"); ("result", VList [])].

(** The value of a hexadecimal digit as [quote_plus] writes them. *)
Definition hex_value (c : ascii) : N :=
  let n := N_of_ascii c in
  if (n <? 58)%N then (n - 48)%N else (n - 55)%N.

(** Reading back the first character [quote_plus] has written. *)
Definition unquote_head (s : string) : option (ascii * string) :=
  match s with
  | EmptyString => None
  | String c rest =>
      if Ascii.eqb c "%"
      then match rest with
           | String h (String l rest') =>
               Some (ascii_of_N (16 * hex_value h + hex_value l), rest')
           | _ => None
           end
      else if Ascii.eqb c "+" then Some (" "%char, rest)
      else Some (c, rest)
  end.

(** A region of the loader: its key is written in lowercase, its URL is
    not empty and is the value of the variable it was read from. *)
Definition from_environ (environ : dict string) (k : string) (rc : RegionConfig)
  : Prop :=
  PyStr.lower k = k /\ url rc <> ""
  /\ ((exists suffix, k = PyStr.lower suffix
         /\ dget ("PROMETHEUS_URL_" ++ suffix) environ = Some (url rc))
      \/ (k = "default" /\ dget "PROMETHEUS_URL" environ = Some (url rc))).

(** What the module-level code makes of [example_environ]. *)
Definition example_config : PrometheusConfig :=
  {| regions :=
       [("atl", {| url := "http://atl.example.com:9090"; url_ssl_verify := false;
                   username := Some ""; password := Some ""; token := Some "";
                   custom_headers := None |});
        ("blr", {| url := "http://blr.example.com:9090/"; url_ssl_verify := true;
                   username := Some ""; password := Some ""; token := Some "token123";
                   custom_headers := None |})];
     default_region := "atl";
     disable_prometheus_links := false;
     org_id := Some "";
     mcp_server_config :=
       Some {| mcp_server_transport := "stdio";
               mcp_bind_host := "127.0.0.1";
               mcp_bind_port := 8080 |} |}.

Definition example_globals : globals :=
  {| config := example_config; _metrics_cache := []; sent := [] |}.

(* ================================================================== *)
(** * Properties *)

(** ** Strings *)

Lemma lower_ascii_idem (c : ascii) :
  PyStr.lower_ascii (PyStr.lower_ascii c) = PyStr.lower_ascii c.
Proof. destruct c as [[] [] [] [] [] [] [] []]; reflexivity. Qed.

Lemma lower_idem (s : string) : PyStr.lower (PyStr.lower s) = PyStr.lower s.
Proof.
  induction s as [|c s IH]; simpl.
  - reflexivity.
  - now rewrite lower_ascii_idem, IH.
Qed.

Lemma insert_perm (x : string) (l : list string) :
  Permutation (PyStr.insert x l) (x :: l).
Proof.
  induction l as [|y l IH]; simpl.
  - apply Permutation_refl.
  - destruct (String.leb x y).
    + apply Permutation_refl.
    + apply perm_trans with (y :: x :: l).
      * now apply perm_skip.
      * apply perm_swap.
Qed.

Lemma sorted_perm (l : list string) : Permutation (PyStr.sorted l) l.
Proof.
  induction l as [|x l IH]; simpl.
  - apply perm_nil.
  - apply perm_trans with (x :: PyStr.sorted l).
    + apply insert_perm.
    + now apply perm_skip.
Qed.

Lemma insert_hdrel (a x : string) (l : list string) :
  str_le a x -> HdRel str_le a l -> HdRel str_le a (PyStr.insert x l).
Proof.
  intros Hax Hl. destruct l as [|y l]; simpl.
  - now constructor.
  - inversion Hl; subst. destruct (String.leb x y); now constructor.
Qed.

Lemma insert_sorted (x : string) (l : list string) :
  Sorted str_le l -> Sorted str_le (PyStr.insert x l).
Proof.
  induction 1 as [|y l Hs IH Hhd]; simpl.
  - repeat constructor.
  - destruct (String.leb x y) eqn:E.
    + constructor; [now constructor | now constructor].
    + constructor; [exact IH|].
      apply insert_hdrel; [|exact Hhd].
      destruct (String.leb_total x y) as [H|H]; [congruence | exact H].
Qed.

Lemma sorted_sorted (l : list string) : Sorted str_le (PyStr.sorted l).
Proof.
  induction l as [|x l IH]; simpl.
  - constructor.
  - now apply insert_sorted.
Qed.

Lemma truthy_nonempty (s : string) : PyStr.truthy s = true <-> s <> "".
Proof. destruct s; simpl; split; congruence. Qed.

(** ** Dicts *)

Section DictFacts.
Context {V : Type}.
Implicit Types (d o : dict V) (k : string) (v : V).

Lemma dget_None_iff k d : dget k d = None <-> ~ In k (dkeys d).
Proof.
  induction d as [|[k' v'] d IH]; simpl.
  - tauto.
  - destruct (String.eqb_spec k k') as [->|Hne].
    + split; [discriminate | intros H; exfalso; apply H; now left].
    + rewrite IH. split.
      * intros H [E|HI]; [congruence | tauto].
      * tauto.
Qed.

Lemma dmem_false_iff k d : dmem k d = false <-> ~ In k (dkeys d).
Proof.
  unfold dmem. rewrite <- dget_None_iff.
  destruct (dget k d); split; congruence.
Qed.

Lemma dget_dset_same k v d : dget k (dset k v d) = Some v.
Proof.
  induction d as [|[k' v'] d IH]; simpl.
  - now rewrite String.eqb_refl.
  - destruct (String.eqb_spec k k') as [->|Hne]; simpl.
    + now rewrite String.eqb_refl.
    + destruct (String.eqb_spec k k'); [congruence | exact IH].
Qed.

Lemma dget_dset_other k k' v d : k <> k' -> dget k (dset k' v d) = dget k d.
Proof.
  intros Hne. induction d as [|[k0 v0] d IH]; simpl.
  - destruct (String.eqb_spec k k'); [congruence | reflexivity].
  - destruct (String.eqb_spec k' k0) as [->|Hne0]; simpl.
    + destruct (String.eqb_spec k k0); [congruence | reflexivity].
    + destruct (String.eqb_spec k k0); [reflexivity | exact IH].
Qed.

Lemma dkeys_dset_in k k' v d : In k (dkeys d) -> In k (dkeys (dset k' v d)).
Proof.
  induction d as [|[k0 v0] d IH]; simpl; [tauto|].
  destruct (String.eqb_spec k' k0) as [E|Hne]; simpl; intros [H|H]; subst; auto.
Qed.

Lemma dget_dupdate_absent k d o :
  ~ In k (dkeys o) -> dget k (dupdate d o) = dget k d.
Proof.
  unfold dupdate. revert d.
  induction o as [|[k' v'] o IH]; simpl; intros d Hk.
  - reflexivity.
  - rewrite IH by tauto. apply dget_dset_other. intros ->. apply Hk. now left.
Qed.

Lemma dget_dupdate_present k v d o :
  wf o -> dget k o = Some v -> dget k (dupdate d o) = Some v.
Proof.
  unfold dupdate, wf. revert d.
  induction o as [|[k' v'] o IH]; simpl; intros d Hwf Hk.
  - discriminate.
  - inversion Hwf as [|? ? Hnin Hwf']; subst.
    destruct (String.eqb_spec k k') as [->|Hne].
    + injection Hk as ->.
      change (dget k' (dupdate (dset k' v d) o) = Some v).
      rewrite dget_dupdate_absent by exact Hnin.
      apply dget_dset_same.
    + now apply IH.
Qed.

End DictFacts.

(** ** Running the monad *)

Ltac run := unfold bind, ret, raise, lift, try_except, get_config, get_cache,
  set_cache_entry, http_get in *; simpl in *.

Lemma get_region_config_run (region : option string) (g : globals) :
  get_region_config region g =
    (match dget (PyStr.lower (requested_region (config g) region))
             (regions (config g)) with
     | Some rc => Ok (PyStr.lower (requested_region (config g) region), rc)
     | None => Raise (unknown_region_error (config g)
                        (requested_region (config g) region))
     end, g).
Proof.
  unfold get_region_config, requested_region, unknown_region_error. run.
  destruct region; destruct (dget _ _); reflexivity.
Qed.

Lemma make_prometheus_request_run (e : env) (endpoint : string)
  (params : option (dict string)) (region : option string) (g : globals) :
  make_prometheus_request e endpoint params region g =
    match fst (get_region_config region g) with
    | Raise ex => (Raise ex, g)
    | Ok (region_name, rc) =>
        if PyStr.truthy (url rc)
        then (request_outcome (requests_get e (build_request (config g) rc endpoint params)),
              log_request (build_request (config g) rc endpoint params) g)
        else (Raise (mkExn ValueError
                       ("Prometheus URL is not configured for region '"
                        ++ region_name ++ "'.")), g)
    end.
Proof.
  unfold make_prometheus_request. unfold bind at 1.
  rewrite get_region_config_run. cbn [fst].
  destruct (dget _ _) as [rc|]; [|reflexivity].
  destruct (PyStr.truthy (url rc)); cbn [negb]; [|reflexivity].
  unfold request_outcome, decode_response. run.
  destruct (requests_get e _) as [r|ex]; [|reflexivity].
  destruct (raise_for_status r); [|reflexivity].
  destruct (json r) as [res|]; [|reflexivity].
  destruct (Py.getitem res "status") as [st|]; [|reflexivity].
  destruct (Py.eq_str st "success"); simpl.
  - destruct (Py.get res "data" _); [|reflexivity].
    destruct (Py.getitem res "data"); reflexivity.
  - destruct (Py.get res "error" _); reflexivity.
Qed.

(** A call of the request client leaves [config] and the cache alone and
    hands at most one request to [requests.get]. *)
Lemma make_prometheus_request_frame (e : env) (endpoint : string)
  (params : option (dict string)) (region : option string) (g : globals) :
  let g' := snd (make_prometheus_request e endpoint params region g) in
  config g' = config g /\ _metrics_cache g' = _metrics_cache g /\
  (sent g' = sent g \/ exists rq, sent g' = (sent g ++ [rq])%list).
Proof.
  rewrite make_prometheus_request_run, get_region_config_run. cbn [fst].
  destruct (dget _ _) as [rc|]; [|simpl; auto].
  destruct (PyStr.truthy (url rc)); simpl; eauto.
Qed.

(* ================================================================== *)
(** ** Region registry *)

(** C7.  When the lowercased requested name (the argument, or the default
    region for [None]) is not a key of [config.regions],
    [get_region_config] raises the [ValueError] that quotes the requested
    name as given and lists the configured region names, sorted in
    ascending order and joined by commas; the globals are left as they
    were.  The listed names are exactly the configured ones. *)
Theorem get_region_config_unknown (g : globals) (region : option string) :
  ~ In (PyStr.lower (requested_region (config g) region))
       (dkeys (regions (config g))) ->
  get_region_config region g =
    (Raise (mkExn ValueError
              ("Region '" ++ requested_region (config g) region
               ++ "' is not configured. Available regions: "
               ++ PyStr.join ", " (PyStr.sorted (dkeys (regions (config g)))))),
     g)
  /\ Sorted str_le (PyStr.sorted (dkeys (regions (config g))))
  /\ Permutation (PyStr.sorted (dkeys (regions (config g))))
                 (dkeys (regions (config g))).
Proof.
  intros Hnot. split; [|split].
  - rewrite get_region_config_run.
    apply dget_None_iff in Hnot. now rewrite Hnot.
  - apply sorted_sorted.
  - apply sorted_perm.
Qed.

Lemma get_region_config_unknown_witness :
  get_region_config (Some "Invalid") test_globals =
    (Raise (mkExn ValueError
              "Region 'Invalid' is not configured. Available regions: atl, blr, wdc"),
     test_globals).
Proof.
  apply (get_region_config_unknown test_globals (Some "Invalid")).
  simpl. intros [H|[H|[H|[]]]]; discriminate H.
Defined.

(** C9.  Resolution only looks at the lowercased name: two names with the
    same lowercase form, that form being a configured key, resolve to the
    same pair (lowercased name, its config), and resolving the returned
    name again gives that pair once more.  Nothing is written. *)
Theorem get_region_config_case_insensitive (g : globals) (r1 r2 : string)
  (rc : RegionConfig) :
  PyStr.lower r1 = PyStr.lower r2 ->
  dget (PyStr.lower r1) (regions (config g)) = Some rc ->
  get_region_config (Some r1) g = (Ok (PyStr.lower r1, rc), g)
  /\ get_region_config (Some r2) g = (Ok (PyStr.lower r1, rc), g)
  /\ get_region_config (Some (PyStr.lower r1)) g = (Ok (PyStr.lower r1, rc), g).
Proof.
  intros Heq Hget. rewrite !get_region_config_run. simpl.
  rewrite <- Heq, lower_idem, Hget. auto.
Qed.

Lemma get_region_config_case_insensitive_witness :
  let atl := {| url := "http://atl.example.com:9090"; url_ssl_verify := true;
                username := Some ""; password := Some ""; token := Some "";
                custom_headers := None |} in
  get_region_config (Some "ATL") test_globals = (Ok ("atl", atl), test_globals)
  /\ get_region_config (Some "AtL") test_globals = (Ok ("atl", atl), test_globals)
  /\ get_region_config (Some "atl") test_globals = (Ok ("atl", atl), test_globals).
Proof.
  exact (get_region_config_case_insensitive test_globals "ATL" "AtL" _
           eq_refl eq_refl).
Defined.

(* ================================================================== *)
(** ** Metric metadata *)

Lemma get_metric_metadata_run (e : env) (metric : string)
  (region : option string) (g : globals) :
  get_metric_metadata e metric region g =
    match make_prometheus_request e ("metadata?metric=" ++ metric) None region g with
    | (Raise ex, g') => (Raise ex, g')
    | (Ok payload, g') =>
        (metadata <~ normalize_metadata payload ;;
         _ <~ Py.len metadata ;;
         Ok (VDict [("metadata", metadata);
                    ("region", VStr (region_label (config g) region))]), g')
    end.
Proof.
  unfold get_metric_metadata, bind, get_config, lift, ret, rbind.
  destruct (make_prometheus_request _ _ _ _ _) as [[payload|ex] g']; [|reflexivity].
  destruct (normalize_metadata payload) as [md|]; [|reflexivity].
  destruct (Py.len md); reflexivity.
Qed.

(** C10.  For a region that resolves to a config with a non-empty URL,
    [get_metric_metadata] hands exactly one request to [requests.get]; its
    URL is the base URL without trailing slashes, followed by
    [/api/v1/metadata?metric=] and the metric name exactly as given, and
    no query parameters are passed besides.  Nothing encodes the name, so
    a name such as [up&limit=1#x y] ends up in the URL as it is. *)
Theorem get_metric_metadata_url_verbatim (e : env) (g : globals)
  (metric : string) (region : option string) (rc : RegionConfig) :
  dget (PyStr.lower (requested_region (config g) region)) (regions (config g))
    = Some rc ->
  url rc <> "" ->
  exists rq,
    sent (snd (get_metric_metadata e metric region g)) = (sent g ++ [rq])%list
    /\ req_url rq
       = PyStr.rstrip "/" (url rc) ++ "/api/v1/metadata?metric=" ++ metric
    /\ req_params rq = None.
Proof.
  intros Hget Hurl.
  exists (build_request (config g) rc ("metadata?metric=" ++ metric) None).
  split; [|split].
  - rewrite get_metric_metadata_run, make_prometheus_request_run,
      get_region_config_run, Hget.
    cbn [fst]. apply truthy_nonempty in Hurl. rewrite Hurl.
    destruct (request_outcome _); reflexivity.
  - unfold build_request. destruct (build_headers _ _). reflexivity.
  - unfold build_request. destruct (build_headers _ _). reflexivity.
Qed.

Lemma get_metric_metadata_url_verbatim_witness :
  exists rq,
    sent (snd (get_metric_metadata (const_env (Ok (success_response (VDict []))) 0)
                 "up&limit=1#x y" (Some "WDC") test_globals)) = [rq]
    /\ req_url rq
       = "http://wdc.example.com:9090/api/v1/metadata?metric=up&limit=1#x y"
    /\ req_params rq = None.
Proof.
  refine (get_metric_metadata_url_verbatim _ test_globals "up&limit=1#x y"
            (Some "WDC") _ eq_refl _).
  discriminate.
Defined.

Lemma normalize_metadata_dict (d : dict value) :
  normalize_metadata (VDict d) =
    let metadata :=
      match dget "metadata" d with
      | Some m => m
      | None => match dget "data" d with Some m => m | None => VDict d end
      end in
    Ok (if Py.is_dict metadata then VList [metadata] else metadata).
Proof.
  unfold normalize_metadata, rbind, Py.contains, Py.getitem, dmem.
  destruct (dget "metadata" d); [reflexivity|].
  destruct (dget "data" d); reflexivity.
Qed.

(** C8.  Let the request client return [payload] for the metadata
    endpoint.  When [payload] is a mapping, the handler picks the value
    under ["metadata"] if that key is present, else the value under
    ["data"] if that key is present, else the payload itself.  A picked
    mapping is returned wrapped into a one-element list, a picked list or
    text is returned as it is, each next to the name of the region, and a
    picked value that has no length makes the handler raise the
    [TypeError] of [len].  When [payload] is a list holding neither of the
    two key names, it is returned as it is.  So
    [{"data": [{"metric": "up"}]}], [{"metadata": {"metric": "up"}}] and
    [{"metric": "up"}] all give
    [{"metadata": [{"metric": "up"}], "region": <region name>}]. *)
Theorem get_metric_metadata_normalizes (e : env) (g g' : globals)
  (metric : string) (region : option string) (payload : value) :
  make_prometheus_request e ("metadata?metric=" ++ metric) None region g
    = (Ok payload, g') ->
  let answer := fun metadata : value =>
    (Ok (VDict [("metadata", metadata);
                ("region", VStr (region_label (config g) region))]), g') in
  let up := VDict [("metric", VStr "up")] in
  (forall d : dict value,
     payload = VDict d ->
     let picked :=
       match dget "metadata" d with
       | Some m => m
       | None => match dget "data" d with Some m => m | None => VDict d end
       end in
     (forall m, picked = VDict m ->
                get_metric_metadata e metric region g = answer (VList [VDict m]))
     /\ (forall l, picked = VList l ->
                   get_metric_metadata e metric region g = answer (VList l))
     /\ (forall s, picked = VStr s ->
                   get_metric_metadata e metric region g = answer (VStr s))
     /\ (forall ex, Py.len picked = Raise ex ->
                    get_metric_metadata e metric region g = (Raise ex, g')))
  /\ (forall l : list value,
        payload = VList l ->
        existsb (fun x => Py.eq_str x "metadata") l = false ->
        existsb (fun x => Py.eq_str x "data") l = false ->
        get_metric_metadata e metric region g = answer (VList l))
  /\ (payload = VDict [("data", VList [up])]
      \/ payload = VDict [("metadata", up)]
      \/ payload = up ->
      get_metric_metadata e metric region g = answer (VList [up])).
Proof.
  intros Hreq answer up. unfold answer.
  rewrite get_metric_metadata_run, Hreq. split; [|split].
  - intros d ->. rewrite normalize_metadata_dict. cbv zeta.
    generalize (match dget "metadata" d with
                | Some m => m
                | None => match dget "data" d with Some m => m | None => VDict d end
                end).
    intros picked. split; [|split; [|split]].
    + now intros m ->.
    + now intros l ->.
    + now intros s ->.
    + intros ex Hex. destruct picked; try discriminate Hex;
        cbn [Py.is_dict rbind]; now rewrite Hex.
  - intros l -> Hm Hd.
    unfold normalize_metadata, Py.contains. now rewrite Hm, Hd.
  - intros [->|[->| ->]]; reflexivity.
Qed.

Lemma get_metric_metadata_normalizes_witness :
  let families :=
    VDict [("up", VList [VDict [("type", VStr "gauge"); ("help", VStr "");
                                ("unit", VStr "")]])] in
  let e := const_env (Ok (success_response families)) 0 in
  fst (get_metric_metadata e "up" (Some "wdc") test_globals)
  = Ok (VDict [("metadata", VList [families]); ("region", VStr "wdc")]).
Proof.
  intros families e.
  destruct (get_metric_metadata_normalizes e test_globals
              (snd (make_prometheus_request e "metadata?metric=up" None
                      (Some "wdc") test_globals))
              "up" (Some "wdc") families eq_refl) as (Hmapping & _ & _).
  destruct (Hmapping _ eq_refl) as (Hwrap & _).
  now rewrite (Hwrap _ eq_refl).
Defined.

(* ================================================================== *)
(** ** Listing metrics *)

Lemma list_metrics_run (e : env) (limit : option Z) (offset : Z)
  (filter_pattern : option string) (region : option string) (ctx : bool)
  (g : globals) :
  list_metrics e limit offset filter_pattern region ctx g =
    match make_prometheus_request e "label/__name__/values" None region g with
    | (Raise ex, g') => (Raise ex, g')
    | (Ok payload, g') =>
        (list_metrics_result (region_label (config g) region) limit offset
           filter_pattern ctx payload, g')
    end.
Proof.
  unfold list_metrics, bind, get_config, lift.
  destruct (make_prometheus_request _ _ _ _ _) as [[payload|ex] g']; reflexivity.
Qed.

Lemma filter_metrics_names (pattern : string) (names : list string) :
  filter_metrics pattern (map VStr names) =
    Ok (map VStr (filter (fun m => PyStr.contains pattern (PyStr.lower m)) names)).
Proof.
  induction names as [|m names IH]; simpl.
  - reflexivity.
  - rewrite IH. simpl. now destruct (PyStr.contains pattern (PyStr.lower m)).
Qed.

Lemma slice_list_nonneg {A : Type} (l : list A) (i j : Z) :
  0 <= i -> 0 <= j ->
  Py.slice_list l i j = firstn (Z.to_nat (j - i)) (skipn (Z.to_nat i) l).
Proof.
  intros Hi Hj. unfold Py.slice_list, Py.clamp. cbv zeta.
  destruct (Z.ltb_spec i 0) as [?|_]; [lia|].
  destruct (Z.ltb_spec j 0) as [?|_]; [lia|].
  destruct (Z.le_gt_cases (Z.of_nat (List.length l)) i) as [Hge|Hlt].
  - rewrite (Z.min_r i) by lia.
    rewrite (skipn_all2 l (n := Z.to_nat (Z.of_nat (List.length l)))) by lia.
    rewrite (skipn_all2 l (n := Z.to_nat i)) by lia.
    now rewrite !firstn_nil.
  - rewrite (Z.min_l i) by lia.
    destruct (Z.le_gt_cases j (Z.of_nat (List.length l))) as [Hjn|Hjn].
    + now rewrite Z.min_l by lia.
    + rewrite Z.min_r by lia.
      rewrite !firstn_all2; [reflexivity | |]; rewrite length_skipn; lia.
Qed.

(** C4.  When the request client returns a list of metric names, and with
    a non-negative offset and a non-negative limit (if one is given),
    [list_metrics] returns the names that pass the case-insensitive
    substring filter (all of them when the filter is absent or empty), cut
    to the page of at most [limit] names from [offset] on; [total_count]
    is the number of names after the filter, [returned_count] is
    [min(L, max(0, total_count - offset))] where [L] is the limit or, when
    absent, the remaining length, and [has_more] is
    [offset + returned_count < total_count]. *)
Theorem list_metrics_pagination (e : env) (g g' : globals) (limit : option Z)
  (offset : Z) (filter_pattern : option string) (region : option string)
  (ctx : bool) (names : list string) :
  let filtered :=
    if PyStr.opt_truthy filter_pattern
    then filter (fun m => PyStr.contains (PyStr.lower (opt_str filter_pattern))
                            (PyStr.lower m)) names
    else names in
  let filtered_count := Z.of_nat (List.length filtered) in
  let remaining := Z.max 0 (filtered_count - offset) in
  let L := match limit with Some l => l | None => remaining end in
  let returned_count := Z.min L remaining in
  let page := firstn (Z.to_nat L) (skipn (Z.to_nat offset) filtered) in
  make_prometheus_request e "label/__name__/values" None region g
    = (Ok (VList (map VStr names)), g') ->
  0 <= offset ->
  (forall l, limit = Some l -> 0 <= l) ->
  list_metrics e limit offset filter_pattern region ctx g =
    (Ok (VDict [("metrics", VList (map VStr page));
                ("total_count", VInt filtered_count);
                ("returned_count", VInt returned_count);
                ("offset", VInt offset);
                ("has_more", VBool (offset + returned_count <? filtered_count));
                ("region", VStr (region_label (config g) region))]), g')
  /\ Z.of_nat (List.length page) = returned_count.
Proof.
  intros filtered filtered_count remaining L returned_count page Hreq Hoff Hlim.
  assert (Hlen : Z.of_nat (List.length page) = returned_count).
  { unfold page, returned_count, remaining, filtered_count.
    rewrite length_firstn, length_skipn.
    assert (0 <= L) by (unfold L, remaining; destruct limit; [auto | lia]).
    lia. }
  split; [|exact Hlen].
  rewrite list_metrics_run, Hreq. f_equal.
  unfold list_metrics_result.
  assert (Hctx : (if ctx then Py.len (VList (map VStr names)) else Ok 0)
                 = Ok (if ctx then Z.of_nat (List.length (map VStr names)) else 0))
    by (destruct ctx; reflexivity).
  rewrite Hctx. cbn [rbind].
  assert (Hfil : (if PyStr.opt_truthy filter_pattern
                  then
                    items <~ Py.iter (VList (map VStr names)) ;;
                    filtered_data <~
                      filter_metrics (PyStr.lower (opt_str filter_pattern)) items ;;
                    Ok (VList filtered_data)
                  else Ok (VList (map VStr names)))
                 = Ok (VList (map VStr filtered))).
  { unfold filtered. destruct (PyStr.opt_truthy filter_pattern); [|reflexivity].
    cbn [Py.iter rbind]. now rewrite filter_metrics_names. }
  rewrite Hfil. cbn [rbind Py.len Py.slice]. rewrite length_map.
  fold filtered_count.
  set (end_idx := match limit with Some l => offset + l | None => filtered_count end).
  assert (Hend : 0 <= end_idx)
    by (unfold end_idx, filtered_count; destruct limit as [l|];
        [specialize (Hlim l eq_refl) |]; lia).
  rewrite slice_list_nonneg by assumption.
  assert (Hpage : firstn (Z.to_nat (end_idx - offset))
                    (skipn (Z.to_nat offset) (map VStr filtered))
                  = map VStr page).
  { unfold page. rewrite <- firstn_map, <- skipn_map.
    unfold end_idx, L, remaining. destruct limit as [l|].
    - f_equal. lia.
    - destruct (Z.le_gt_cases offset filtered_count).
      + f_equal. lia.
      + rewrite skipn_all2 by (rewrite length_map; unfold filtered_count in *; lia).
        now rewrite !firstn_nil. }
  rewrite Hpage, length_map, Hlen.
  assert (Hmore : (end_idx <? filtered_count)
                  = (offset + returned_count <? filtered_count)).
  { apply eq_true_iff_eq. rewrite !Z.ltb_lt.
    unfold end_idx, returned_count, L, remaining.
    destruct limit as [l|]; [specialize (Hlim l eq_refl)|]; lia. }
  now rewrite Hmore.
Qed.

Lemma list_metrics_pagination_witness :
  fst (list_metrics
         (const_env (Ok (success_response
                           (VList [VStr "up"; VStr "go_goroutines";
                                   VStr "http_requests_total"]))) 0)
         (Some 1) 1 (Some "O") (Some "wdc") false test_globals)
  = Ok (VDict [("metrics", VList [VStr "http_requests_total"]);
               ("total_count", VInt 2);
               ("returned_count", VInt 1);
               ("offset", VInt 1);
               ("has_more", VBool false);
               ("region", VStr "wdc")]).
Proof.
  pose proof (list_metrics_pagination
                (const_env (Ok (success_response
                                  (VList [VStr "up"; VStr "go_goroutines";
                                          VStr "http_requests_total"]))) 0)
                test_globals _ (Some 1) 1 (Some "O") (Some "wdc") false
                ["up"; "go_goroutines"; "http_requests_total"] eq_refl) as H.
  cbv zeta in H. destruct H as [H _].
  - lia.
  - intros l [= <-]. lia.
  - rewrite H. reflexivity.
Defined.

(** With a negative limit the end of the page is a slice bound counted
    from the end of the list. *)
Remark list_metrics_negative_limit :
  fst (list_metrics
         (const_env (Ok (success_response
                           (VList [VStr "up"; VStr "go_goroutines";
                                   VStr "http_requests_total"]))) 0)
         (Some (-1)) 0 None None false test_globals)
  = Ok (VDict [("metrics", VList [VStr "up"; VStr "go_goroutines"]);
               ("total_count", VInt 3);
               ("returned_count", VInt 2);
               ("offset", VInt 0);
               ("has_more", VBool true);
               ("region", VStr "atl")]).
Proof. reflexivity. Qed.

(* ================================================================== *)
(** ** The request client *)

Lemma build_request_headers (cfg : PrometheusConfig) (rc : RegionConfig)
  (endpoint : string) (params : option (dict string)) :
  req_headers (build_request cfg rc endpoint params) = fst (build_headers cfg rc).
Proof. unfold build_request. now destruct (build_headers cfg rc). Qed.

(** For a region that resolves to a config with a non-empty URL, the
    request client hands exactly one request to [requests.get], the one
    [build_request] describes, and answers with what the [try] block and
    its handlers make of the reply. *)
Lemma make_prometheus_request_sent (e : env) (endpoint : string)
  (params : option (dict string)) (region : option string) (g : globals)
  (rc : RegionConfig) :
  dget (PyStr.lower (requested_region (config g) region)) (regions (config g))
    = Some rc ->
  url rc <> "" ->
  make_prometheus_request e endpoint params region g =
    (request_outcome (requests_get e (build_request (config g) rc endpoint params)),
     log_request (build_request (config g) rc endpoint params) g).
Proof.
  intros Hget Hurl.
  rewrite make_prometheus_request_run, get_region_config_run, Hget. cbn [fst].
  apply truthy_nonempty in Hurl. now rewrite Hurl.
Qed.

(** The claim of C2 fails: with bearer token [token123] and a custom
    header [Authorization], the request that goes out carries the custom
    value, not [Bearer token123]. *)
Lemma custom_authorization_header_wins :
  PyStr.opt_truthy (token override_region) = true
  /\ (exists ch, custom_headers override_region = Some ch
                 /\ dmem "Authorization" ch = true)
  /\ (exists rq,
        sent (snd (make_prometheus_request
                     (const_env (Ok (success_response VNone)) 0)
                     "query" None (Some "blr") override_globals)) = [rq]
        /\ dget "Authorization" (req_headers rq) = Some "Basic YWRtaW46cGFzcw=="
        /\ dget "Authorization" (req_headers rq) <> Some "Bearer token123").
Proof.
  split; [reflexivity|]. split.
  - eexists. split; reflexivity.
  - eexists. split; [reflexivity|]. split; [reflexivity | discriminate].
Qed.

(** C2, amended.  The headers are written in the order bearer token,
    organization id, custom headers, and a later write replaces an earlier
    value under the same key.  So every custom header is sent with its
    custom value, whether or not it collides with [X-Scope-OrgID] or
    [Authorization]; the request carries [Authorization: Bearer <token>]
    when the token is non-empty and the custom headers have no
    [Authorization] key, and [X-Scope-OrgID: <org id>] when an org id is
    configured and the custom headers have no such key. *)
Theorem custom_headers_take_precedence (cfg : PrometheusConfig)
  (rc : RegionConfig) (endpoint : string) (params : option (dict string)) :
  let headers := req_headers (build_request cfg rc endpoint params) in
  (forall ch k v, custom_headers rc = Some ch -> wf ch ->
                  dget k ch = Some v -> dget k headers = Some v)
  /\ (forall tok, token rc = Some tok -> tok <> "" ->
                  (forall ch, custom_headers rc = Some ch ->
                              ~ In "Authorization" (dkeys ch)) ->
                  dget "Authorization" headers = Some ("Bearer " ++ tok))
  /\ (forall org, org_id cfg = Some org -> org <> "" ->
                  (forall ch, custom_headers rc = Some ch ->
                              ~ In "X-Scope-OrgID" (dkeys ch)) ->
                  dget "X-Scope-OrgID" headers = Some org).
Proof.
  intros headers. unfold headers. rewrite build_request_headers.
  unfold build_headers. split; [|split].
  - intros ch k v Hch Hwf Hk. rewrite Hch.
    destruct (get_prometheus_auth rc); cbn [fst];
      (destruct ch as [|kv ch]; [discriminate Hk|]);
      cbn [dtruthy]; now apply dget_dupdate_present.
  - intros tok Htok Hne Hcustom.
    unfold get_prometheus_auth. rewrite Htok.
    apply truthy_nonempty in Hne. cbn [PyStr.opt_truthy opt_str]. rewrite Hne.
    cbn [fst].
    assert (Hbase : dget "Authorization"
                      (if PyStr.opt_truthy (org_id cfg)
                       then dset "X-Scope-OrgID" (opt_str (org_id cfg))
                              (dupdate [] [("Authorization", "Bearer " ++ tok)])
                       else dupdate [] [("Authorization", "Bearer " ++ tok)])
                    = Some ("Bearer " ++ tok)).
    { destruct (PyStr.opt_truthy (org_id cfg)); reflexivity. }
    destruct (custom_headers rc) as [ch|]; [|exact Hbase].
    destruct (dtruthy ch); [|exact Hbase].
    rewrite dget_dupdate_absent; [exact Hbase | now apply Hcustom].
  - intros org Horg Hne Hcustom.
    rewrite Horg. apply truthy_nonempty in Hne.
    cbn [PyStr.opt_truthy opt_str]. rewrite Hne.
    assert (Hbase : forall h : dict string,
               dget "X-Scope-OrgID" (dset "X-Scope-OrgID" org h) = Some org)
      by (intros h; apply dget_dset_same).
    destruct (get_prometheus_auth rc); cbn [fst];
      (destruct (custom_headers rc) as [ch|]; [|apply Hbase]);
      (destruct (dtruthy ch); [|apply Hbase]);
      (rewrite dget_dupdate_absent; [apply Hbase | now apply Hcustom]).
Qed.

Lemma custom_headers_take_precedence_witness :
  dget "X-Custom"
    (req_headers (build_request test_config
                    {| url := "http://blr.example.com:9090"; url_ssl_verify := true;
                       username := Some ""; password := Some "";
                       token := Some "token123";
                       custom_headers := Some [("X-Custom", "blr-value")] |}
                    "query" None)) = Some "blr-value"
  /\ dget "Authorization"
       (req_headers (build_request test_config
                       {| url := "http://blr.example.com:9090"; url_ssl_verify := true;
                          username := Some ""; password := Some "";
                          token := Some "token123";
                          custom_headers := Some [("X-Custom", "blr-value")] |}
                       "query" None)) = Some "Bearer token123".
Proof.
  destruct (custom_headers_take_precedence test_config
              {| url := "http://blr.example.com:9090"; url_ssl_verify := true;
                 username := Some ""; password := Some "";
                 token := Some "token123";
                 custom_headers := Some [("X-Custom", "blr-value")] |}
              "query" None) as (Hcustom & Hauth & _).
  split.
  - apply (Hcustom [("X-Custom", "blr-value")]); [reflexivity | | reflexivity].
    repeat constructor. simpl. tauto.
  - apply (Hauth "token123"); [reflexivity | discriminate |].
    intros ch [= <-]. simpl. intros [H|[]]. discriminate H.
Defined.

Lemma request_exception_reraised (ex : exn) :
  isinstance ex requests_RequestException = true -> request_handlers ex = ex.
Proof. unfold request_handlers. now intros ->. Qed.

Lemma json_decode_error_wrapped (ex : exn) :
  isinstance ex requests_RequestException = false ->
  isinstance ex json_JSONDecodeError = true ->
  request_handlers ex =
    mkExn ValueError ("Invalid JSON response from Prometheus: " ++ exn_str ex).
Proof. unfold request_handlers. now intros -> ->. Qed.

(** When the status is not an error status and [response.json()] raises
    [ex], the request client raises what its [except] clauses make of
    [ex]: the first clause that matches decides. *)
Lemma json_failure_outcome (r : response) (ex : exn) :
  raise_for_status r = Ok tt -> json r = Raise ex ->
  request_outcome (Ok r) = Raise (request_handlers ex).
Proof.
  intros Hst Hjs. unfold request_outcome, decode_response.
  now rewrite Hst, Hjs.
Qed.

(** C3, on the code.  A [200] answer whose body is not JSON makes
    [response.json()] raise [requests.exceptions.JSONDecodeError].  That
    class is a [RequestException], so the first [except] clause takes it
    and re-raises it as it is; the clause for [json.JSONDecodeError], which
    would raise the [ValueError] "Invalid JSON response from Prometheus",
    is never reached. *)
Theorem invalid_json_body_reraised :
  raise_for_status invalid_json_response = Ok tt
  /\ json invalid_json_response
     = Raise (mkExn requests_JSONDecodeError
                "Expecting value: line 1 column 1 (char 0)")
  /\ fst (make_prometheus_request (const_env (Ok invalid_json_response) 0)
            "query" None (Some "atl") test_globals)
     = Raise (mkExn requests_JSONDecodeError
                "Expecting value: line 1 column 1 (char 0)")
  /\ isinstance (mkExn requests_JSONDecodeError
                   "Expecting value: line 1 column 1 (char 0)")
       requests_RequestException = true
  /\ fst (make_prometheus_request (const_env (Ok invalid_json_response) 0)
            "query" None (Some "atl") test_globals)
     <> Raise (mkExn ValueError
                 ("Invalid JSON response from Prometheus: "
                  ++ "Expecting value: line 1 column 1 (char 0)")).
Proof.
  repeat split; try reflexivity. discriminate.
Qed.

(** Had [response.json()] raised the plain [json.JSONDecodeError], the
    second clause would have produced the [ValueError]. *)
Remark plain_json_decode_error_wrapped :
  fst (make_prometheus_request
         (const_env (Ok {| status_code := 200; http_error_text := "";
                           json := Raise (mkExn json_JSONDecodeError
                                            "Expecting value: line 1 column 1 (char 0)") |})
            0)
         "query" None (Some "atl") test_globals)
  = Raise (mkExn ValueError
             "Invalid JSON response from Prometheus: Expecting value: line 1 column 1 (char 0)").
Proof. reflexivity. Qed.

(* ================================================================== *)
(** ** The metrics cache *)

Lemma refresh_metrics_run (e : env) (region : option string) (key : string)
  (now : Z) (g : globals) :
  refresh_metrics e region key now g =
    match make_prometheus_request e "label/__name__/values" None region g with
    | (Raise _, g1) => (Ok (stale_or_empty (_metrics_cache g1) key), g1)
    | (Ok d, g1) =>
        (Ok (match Py.len d with
             | Ok _ => d
             | Raise _ => if Py.is_none d then VList [] else d
             end),
         store_entry key {| data := d; timestamp := now |} g1)
    end.
Proof.
  unfold refresh_metrics, try_except, bind, set_cache_entry, lift, ret,
    get_cache, stale_or_empty.
  destruct (make_prometheus_request _ _ _ _ _) as [[d|ex] g1].
  - destruct (Py.len d); [reflexivity|].
    cbn [store_entry _metrics_cache]. rewrite dget_dset_same.
    unfold entry_usable. cbn [data]. now destruct (Py.is_none d).
  - destruct (dget key (_metrics_cache g1)) as [c|]; [|reflexivity].
    now destruct (entry_usable c).
Qed.

Lemma get_cached_metrics_run (e : env) (region : option string) (g : globals) :
  get_cached_metrics e region g =
    if cache_valid (_metrics_cache g) (cache_key_of (config g) region) (time_time e)
    then (Ok (stale_or_empty (_metrics_cache g) (cache_key_of (config g) region)), g)
    else refresh_metrics e region (cache_key_of (config g) region) (time_time e) g.
Proof.
  unfold get_cached_metrics, bind, get_config, get_cache, ret, cache_valid,
    stale_or_empty, cache_key_of.
  destruct (dget _ _) as [c|]; [|reflexivity].
  unfold entry_fresh. destruct (entry_usable c); [|reflexivity].
  cbn [andb]. now destruct (_ <? _).
Qed.

(** [get_cached_metrics] always returns a value.  If the request for
    the metric names itself raises, it returns the data of the entry
    stored for the region when there is one whose data is not [None], even
    an expired one, and an empty list otherwise, and the cache is as it
    was.  The cache changes only when the request returned: the entry of
    the region is then overwritten with the returned data and the current
    time, before the rest of the [try] block runs. *)
Theorem get_cached_metrics_degrades (e : env) (region : option string)
  (g : globals) :
  let key := cache_key_of (config g) region in
  let r := get_cached_metrics e region g in
  (exists v, fst r = Ok v)
  /\ (forall ex g1,
        make_prometheus_request e "label/__name__/values" None region g
          = (Raise ex, g1) ->
        fst r = Ok (stale_or_empty (_metrics_cache g) key)
        /\ _metrics_cache (snd r) = _metrics_cache g)
  /\ (_metrics_cache (snd r) = _metrics_cache g
      \/ exists d g1,
           make_prometheus_request e "label/__name__/values" None region g
             = (Ok d, g1)
           /\ _metrics_cache (snd r)
              = dset key {| data := d; timestamp := time_time e |}
                  (_metrics_cache g)).
Proof.
  intros key r. unfold r. rewrite get_cached_metrics_run. fold key.
  destruct (cache_valid _ _ _).
  - cbn [fst snd]. split; [eauto|]. split; auto.
  - rewrite refresh_metrics_run.
    pose proof (make_prometheus_request_frame e "label/__name__/values" None
                  region g) as (_ & Hcache & _).
    destruct (make_prometheus_request _ _ _ _ _) as [[d|ex] g1];
      cbn [fst snd] in *.
    + split; [eauto|]. split; [intros ? ? [=]|].
      right. exists d, g1. split; [reflexivity|].
      cbn [store_entry _metrics_cache]. now rewrite Hcache.
    + split; [eauto|]. split; [|now left].
      intros ? ? [= <- <-]. now rewrite Hcache.
Qed.

Lemma get_cached_metrics_degrades_witness :
  let stale := {| config := test_config;
                  _metrics_cache :=
                    [("atl_metrics", {| data := metric_names; timestamp := 0 |})];
                  sent := [] |} in
  let e := const_env (Raise (mkExn requests_ConnectionError "Connection refused"))
             1000 in
  fst (get_cached_metrics e (Some "ATL") stale) = Ok metric_names
  /\ _metrics_cache (snd (get_cached_metrics e (Some "ATL") stale))
     = _metrics_cache stale.
Proof.
  intros stale e.
  exact (proj1 (proj2 (get_cached_metrics_degrades e (Some "ATL") stale))
           _ _ eq_refl).
Defined.

(** A reply [{"status": "success", "data": null}] counts as a returned
    request: the entry of the region is overwritten with [None], the
    logging argument [len(data)] raises, and the handler finds no usable
    entry any more. *)
Remark null_payload_overwrites_entry :
  let stale := {| config := test_config;
                  _metrics_cache :=
                    [("atl_metrics", {| data := metric_names; timestamp := 0 |})];
                  sent := [] |} in
  let r := get_cached_metrics (const_env (Ok (success_response VNone)) 1000)
             (Some "atl") stale in
  fst r = Ok (VList [])
  /\ _metrics_cache (snd r)
     = [("atl_metrics", {| data := VNone; timestamp := 1000 |})].
Proof. split; reflexivity. Qed.

(** C5, on the code.  The [try] block of [get_cached_metrics] stores the
    reply in the cache (line 408) before it takes [len(data)] for the log
    line (line 409).  So when the region has an expired entry holding a
    non-empty list of names and the request returns a value without a
    length, such as the [null] of [{"status": "success", "data": null}],
    the refresh fails after the entry has been overwritten: the [except]
    branch no longer finds the names, the handler returns an empty list
    for [None] (or the reply itself otherwise) instead of the stale names,
    and the cache keeps the reply under the current time. *)
Theorem failed_refresh_discards_stale_entry (e : env) (region : option string)
  (g g1 : globals) (c : cache_entry) (x : value) (names : list value)
  (d : value) (ex : exn) :
  let key := cache_key_of (config g) region in
  let r := get_cached_metrics e region g in
  dget key (_metrics_cache g) = Some c ->
  data c = VList (x :: names) ->
  entry_fresh (time_time e) c = false ->
  make_prometheus_request e "label/__name__/values" None region g = (Ok d, g1) ->
  Py.len d = Raise ex ->
  stale_or_empty (_metrics_cache g) key = VList (x :: names)
  /\ r = (Ok (if Py.is_none d then VList [] else d),
          store_entry key {| data := d; timestamp := time_time e |} g1)
  /\ fst r <> Ok (VList (x :: names))
  /\ dget key (_metrics_cache (snd r))
     = Some {| data := d; timestamp := time_time e |}
  /\ stale_or_empty (_metrics_cache (snd r)) key <> VList (x :: names).
Proof.
  intros key r Hc Hdata Hold Hreq Hlen.
  assert (Hr : r = (Ok (if Py.is_none d then VList [] else d),
                    store_entry key {| data := d; timestamp := time_time e |} g1)).
  { unfold r. rewrite get_cached_metrics_run. fold key.
    unfold cache_valid. rewrite Hc, Hold.
    now rewrite refresh_metrics_run, Hreq, Hlen. }
  assert (Hentry : dget key (_metrics_cache (snd r))
                   = Some {| data := d; timestamp := time_time e |}).
  { rewrite Hr. cbn [snd store_entry _metrics_cache]. apply dget_dset_same. }
  split; [|split; [exact Hr|split; [|split; [exact Hentry|]]]].
  - unfold stale_or_empty, entry_usable. now rewrite Hc, Hdata.
  - rewrite Hr. cbn [fst]. destruct d; discriminate.
  - unfold stale_or_empty, entry_usable. rewrite Hentry. cbn [data].
    destruct d; discriminate.
Qed.

Lemma failed_refresh_discards_stale_entry_witness :
  let stale := {| config := test_config;
                  _metrics_cache :=
                    [("atl_metrics", {| data := metric_names; timestamp := 0 |})];
                  sent := [] |} in
  let e := const_env (Ok (success_response VNone)) 1000 in
  let r := get_cached_metrics e (Some "atl") stale in
  stale_or_empty (_metrics_cache stale) "atl_metrics" = metric_names
  /\ fst r = Ok (VList [])
  /\ fst r <> Ok metric_names
  /\ dget "atl_metrics" (_metrics_cache (snd r))
     = Some {| data := VNone; timestamp := 1000 |}.
Proof.
  intros stale e r.
  destruct (failed_refresh_discards_stale_entry e (Some "atl") stale
              (snd (make_prometheus_request e "label/__name__/values" None
                      (Some "atl") stale))
              {| data := metric_names; timestamp := 0 |}
              (VStr "up") [VStr "go_goroutines"; VStr "http_requests_total"]
              VNone
              (mkExn TypeError "object of type 'NoneType' has no len()")
              eq_refl eq_refl eq_refl eq_refl eq_refl)
    as (Hstale & Hr & Hne & Hentry & _).
  split; [exact Hstale|]. split; [|split; [exact Hne|exact Hentry]].
  unfold r. now rewrite Hr.
Defined.

(** The claim of C1 fails: ten seconds after a successful fetch through
    the cache, the entry of the region is still valid and
    [get_cached_metrics] answers from it without a request, yet
    [list_metrics] hands one more request to [requests.get]. *)
Lemma list_metrics_ignores_fresh_cache :
  let g1 := snd (get_cached_metrics
                   (const_env (Ok (success_response metric_names)) 1000)
                   (Some "atl") test_globals) in
  let e1 := const_env (Ok (success_response metric_names)) 1010 in
  cache_valid (_metrics_cache g1) "atl_metrics" 1010 = true
  /\ List.length (sent g1) = 1%nat
  /\ List.length (sent (snd (get_cached_metrics e1 (Some "atl") g1))) = 1%nat
  /\ List.length (sent (snd (list_metrics e1 None 0 None (Some "atl") false g1)))
     = 2%nat.
Proof. repeat split; reflexivity. Qed.

Lemma get_cached_metrics_config (e : env) (region : option string) (g : globals) :
  config (snd (get_cached_metrics e region g)) = config g.
Proof.
  rewrite get_cached_metrics_run.
  destruct (cache_valid _ _ _); [reflexivity|].
  rewrite refresh_metrics_run.
  pose proof (make_prometheus_request_frame e "label/__name__/values" None
                region g) as (Hcfg & _).
  destruct (make_prometheus_request _ _ _ _ _) as [[d|ex] g1]; exact Hcfg.
Qed.

(** A fetch through the cache that returned a payload other than [None]
    leaves an entry that is valid for the next 300 seconds. *)
Lemma get_cached_metrics_stores (e : env) (region : option string)
  (g g1 : globals) (d : value) (now : Z) :
  cache_valid (_metrics_cache g) (cache_key_of (config g) region) (time_time e)
    = false ->
  make_prometheus_request e "label/__name__/values" None region g = (Ok d, g1) ->
  d <> VNone ->
  now - time_time e < _CACHE_TTL ->
  let g2 := snd (get_cached_metrics e region g) in
  cache_valid (_metrics_cache g2) (cache_key_of (config g2) region) now = true
  /\ stale_or_empty (_metrics_cache g2) (cache_key_of (config g2) region) = d.
Proof.
  intros Hinv Hreq Hd Hnow g2.
  assert (Hcfg : config g2 = config g) by apply get_cached_metrics_config.
  rewrite Hcfg. unfold g2.
  rewrite get_cached_metrics_run, Hinv, refresh_metrics_run, Hreq.
  cbn [snd store_entry _metrics_cache].
  unfold cache_valid, stale_or_empty. rewrite dget_dset_same.
  unfold entry_fresh, entry_usable. cbn [data timestamp].
  assert (Hn : Py.is_none d = false) by (destruct d; simpl; congruence).
  rewrite Hn. cbn [negb andb]. split; [|reflexivity].
  now apply Z.ltb_lt.
Qed.

(** C1, amended.  [list_metrics] calls the request client itself and
    never looks at the metrics cache: for a region that resolves to a
    config with a non-empty URL, every call hands exactly one request to
    [requests.get], whatever the cache holds, and leaves the cache as it
    was.  The cache behaviour is that of [get_cached_metrics]: after a
    fetch through it that returned a payload other than [None], a call for
    the same region less than 300 seconds later answers from the cache
    with no request at all, and a call 300 seconds later or more hands
    exactly one request to [requests.get]. *)
Theorem list_metrics_bypasses_cache (e : env) (g : globals)
  (region : option string) (rc : RegionConfig) :
  dget (PyStr.lower (requested_region (config g) region)) (regions (config g))
    = Some rc ->
  url rc <> "" ->
  let rq := build_request (config g) rc "label/__name__/values" None in
  (forall limit offset filter_pattern ctx,
     let g' := snd (list_metrics e limit offset filter_pattern region ctx g) in
     sent g' = (sent g ++ [rq])%list /\ _metrics_cache g' = _metrics_cache g)
  /\ (forall e0 g0 g1 d,
        cache_valid (_metrics_cache g0) (cache_key_of (config g0) region)
          (time_time e0) = false ->
        make_prometheus_request e0 "label/__name__/values" None region g0
          = (Ok d, g1) ->
        d <> VNone ->
        g = snd (get_cached_metrics e0 region g0) ->
        (time_time e - time_time e0 < _CACHE_TTL ->
         get_cached_metrics e region g = (Ok d, g))
        /\ (_CACHE_TTL <= time_time e - time_time e0 ->
            sent (snd (get_cached_metrics e region g)) = (sent g ++ [rq])%list)).
Proof.
  intros Hget Hurl rq. split.
  - intros limit offset filter_pattern ctx g'. unfold g'.
    rewrite list_metrics_run, (make_prometheus_request_sent _ _ _ _ _ rc Hget Hurl).
    fold rq. destruct (request_outcome _); split; reflexivity.
  - intros e0 g0 g1 d Hinv Hreq Hd Hg. split.
    + intros Hnow.
      destruct (get_cached_metrics_stores e0 region g0 g1 d (time_time e)
                  Hinv Hreq Hd Hnow) as [Hvalid Hdata].
      cbv zeta in Hvalid, Hdata. rewrite <- Hg in Hvalid, Hdata.
      now rewrite get_cached_metrics_run, Hvalid, Hdata.
    + intros Hold.
      assert (Hstale : cache_valid (_metrics_cache g)
                         (cache_key_of (config g) region) (time_time e) = false).
      { assert (Hcfg : config g = config g0)
          by (rewrite Hg; apply get_cached_metrics_config).
        rewrite Hcfg, Hg.
        rewrite get_cached_metrics_run, Hinv, refresh_metrics_run, Hreq.
        cbn [snd store_entry _metrics_cache].
        unfold cache_valid. rewrite dget_dset_same.
        unfold entry_fresh. cbn [timestamp].
        destruct (Z.ltb_spec (time_time e - time_time e0) _CACHE_TTL); [lia|].
        apply andb_false_r. }
      rewrite get_cached_metrics_run, Hstale, refresh_metrics_run,
        (make_prometheus_request_sent _ _ _ _ _ rc Hget Hurl).
      fold rq. destruct (request_outcome _); reflexivity.
Qed.

Lemma list_metrics_bypasses_cache_witness :
  let e0 := const_env (Ok (success_response metric_names)) 1000 in
  let g := snd (get_cached_metrics e0 (Some "atl") test_globals) in
  let e := const_env (Ok (success_response metric_names)) 1010 in
  List.length (sent (snd (list_metrics e None 0 None (Some "atl") false g)))
    = 2%nat
  /\ get_cached_metrics e (Some "atl") g = (Ok metric_names, g).
Proof.
  intros e0 g e.
  assert (Hget : dget (PyStr.lower (requested_region (config g) (Some "atl")))
                   (regions (config g))
                 = Some {| url := "http://atl.example.com:9090";
                           url_ssl_verify := true;
                           username := Some ""; password := Some "";
                           token := Some ""; custom_headers := None |})
    by reflexivity.
  destruct (list_metrics_bypasses_cache e g (Some "atl") _ Hget) as [Hlist Hcache].
  - discriminate.
  - split.
    + destruct (Hlist None 0 None false) as [Hsent _].
      rewrite Hsent. reflexivity.
    + edestruct (Hcache e0 test_globals) as [Hfresh _].
      * reflexivity.
      * reflexivity.
      * discriminate.
      * reflexivity.
      * apply Hfresh. unfold _CACHE_TTL. simpl. lia.
Defined.

(* ================================================================== *)
(** ** Health check *)

Lemma probe_frame (e : env) (name : string) (g : globals) :
  config (snd (probe e name g)) = config g
  /\ _metrics_cache (snd (probe e name g)) = _metrics_cache g
  /\ (forall rq, In rq (sent g) -> In rq (sent (snd (probe e name g)))).
Proof.
  unfold probe.
  pose proof (make_prometheus_request_frame e "query" (Some (probe_params e))
                (Some name) g) as (Hc & Hm & Hs).
  repeat split; auto.
  intros rq Hin. destruct Hs as [-> | [rq' ->]]; [exact Hin|].
  apply in_or_app. now left.
Qed.

Lemma probe_ok_config (e : env) (g1 g2 : globals) (name : string) :
  config g1 = config g2 -> probe_ok e g1 name = probe_ok e g2 name.
Proof.
  intros Hcfg. unfold probe_ok, probe.
  rewrite !make_prometheus_request_run, !get_region_config_run, Hcfg.
  cbn [fst]. destruct (dget _ _) as [rc|]; [|reflexivity].
  now destruct (PyStr.truthy (url rc)).
Qed.

Lemma probe_sent (e : env) (name : string) (g : globals) (rc : RegionConfig) :
  dget (PyStr.lower name) (regions (config g)) = Some rc ->
  url rc <> "" ->
  In (build_request (config g) rc "query" (Some (probe_params e)))
     (sent (snd (probe e name g))).
Proof.
  intros Hget Hurl. unfold probe.
  rewrite (make_prometheus_request_sent e "query" (Some (probe_params e))
             (Some name) g rc Hget Hurl).
  cbn [snd log_request sent]. apply in_or_app. right. now left.
Qed.

Lemma forallb_pointwise {A : Type} (f h : A -> bool) (l : list A) :
  (forall a, f a = h a) -> forallb f l = forallb h l.
Proof.
  intros Hfh. induction l as [|a l IH]; simpl; [reflexivity|].
  now rewrite Hfh, IH.
Qed.

Lemma probe_regions_cons (e : env) (name : string) (rc : RegionConfig)
  (rest : list (string * RegionConfig)) (rs : dict value) (ah : bool)
  (g : globals) :
  probe_regions e ((name, rc) :: rest) rs ah g =
    probe_regions e rest
      (dset name (region_detail rc (fst (probe e name g))) rs)
      (ah && probe_ok e g name)
      (snd (probe e name g)).
Proof.
  cbn [probe_regions]. unfold bind at 1. unfold try_except, bind, ret, probe_ok.
  destruct (probe e name g) as [[v|ex] g1]; cbn [fst snd region_detail is_ok].
  - now rewrite andb_true_r.
  - now rewrite andb_false_r.
Qed.

Lemma region_detail_connectivity (rc : RegionConfig) (r : result value) :
  exists detail,
    region_detail rc r = VDict detail
    /\ dget "prometheus_connectivity" detail = Some (connectivity (is_ok r)).
Proof. destruct r; eexists; split; reflexivity. Qed.

(** The loop of [health_check] never raises, visits every item whatever
    the earlier probes did, and records the outcome of each probe under
    the name of its region. *)
Lemma probe_regions_spec (e : env) (items : list (string * RegionConfig)) :
  forall (rs : dict value) (ah : bool) (g : globals),
  exists rs' g',
    probe_regions e items rs ah g
      = (Ok (rs', ah && forallb (probe_ok e g) (dkeys items)), g')
    /\ config g' = config g
    /\ (forall rq, In rq (sent g) -> In rq (sent g'))
    /\ (forall name, In name (dkeys items) ->
          exists detail,
            dget name rs' = Some (VDict detail)
            /\ dget "prometheus_connectivity" detail
               = Some (connectivity (probe_ok e g name)))
    /\ (forall name, ~ In name (dkeys items) -> dget name rs' = dget name rs)
    /\ (forall name rc, In name (dkeys items) ->
          dget (PyStr.lower name) (regions (config g)) = Some rc ->
          url rc <> "" ->
          In (build_request (config g) rc "query" (Some (probe_params e)))
             (sent g')).
Proof.
  induction items as [|[name rc0] rest IH]; intros rs ah g.
  - exists rs, g. cbn. rewrite andb_true_r. repeat split; auto; intros; tauto.
  - rewrite probe_regions_cons.
    destruct (probe_frame e name g) as (Hcfg & _ & Hsent).
    destruct (IH (dset name (region_detail rc0 (fst (probe e name g))) rs)
                (ah && probe_ok e g name) (snd (probe e name g)))
      as (rs' & g' & Hrun & Hcfg' & Hsent' & Hin & Hout & Hnet).
    assert (Hok : forall n, probe_ok e (snd (probe e name g)) n = probe_ok e g n)
      by (intros n; now apply probe_ok_config).
    exists rs', g'. split; [|split; [|split; [|split; [|split]]]].
    + rewrite Hrun. cbn [dkeys map fst forallb].
      rewrite (forallb_pointwise _ _ _ Hok), andb_assoc. reflexivity.
    + congruence.
    + auto.
    + intros n Hn.
      destruct (in_dec string_dec n (dkeys rest)) as [Hrest|Hrest].
      * destruct (Hin n Hrest) as (detail & Hd & Hc).
        exists detail. now rewrite <- Hok.
      * destruct Hn as [<-|Hn]; [|contradiction].
        rewrite (Hout _ Hrest), dget_dset_same.
        destruct (region_detail_connectivity rc0 (fst (probe e name g)))
          as (detail & -> & Hc).
        now exists detail.
    + intros n Hn. cbn in Hn.
      rewrite Hout by tauto. apply dget_dset_other. intros ->. tauto.
    + intros n rc Hn Hget Hurl.
      destruct (in_dec string_dec n (dkeys rest)) as [Hrest|Hrest].
      * rewrite <- Hcfg. apply (Hnet n rc); [exact Hrest | now rewrite Hcfg | exact Hurl].
      * destruct Hn as [<-|Hn]; [|contradiction].
        apply Hsent'. now apply probe_sent.
Qed.

(** A [try] whose handler always returns never raises. *)
Lemma try_except_total {A : Type} (c : M A) (h : exn -> M A) (g : globals) :
  (forall ex g1, exists v g2, h ex g1 = (Ok v, g2)) ->
  exists v g', try_except c h g = (Ok v, g').
Proof.
  intros Hh. unfold try_except.
  destruct (c g) as [[v|ex] g1]; [eauto | apply Hh].
Qed.

Lemma health_check_all_regions_run (e : env) (region : option string)
  (g g' : globals) (rs : dict value) (all_healthy : bool) :
  PyStr.opt_truthy region = false ->
  probe_regions e (regions (config g)) [] true g = (Ok (rs, all_healthy), g') ->
  health_check e region g =
    (Ok (VDict (let hs := dset "regions" (VDict rs)
                            (initial_health_status e (config g)) in
                if negb all_healthy then dset "status" (VStr "degraded") hs else hs)),
     g').
Proof.
  intros Hregion Hrun.
  unfold health_check, try_except, bind, get_config, ret.
  rewrite Hregion, Hrun. reflexivity.
Qed.

Lemma health_check_unknown_region_run (e : env) (r : string) (g : globals) :
  r <> "" ->
  ~ In (PyStr.lower r) (dkeys (regions (config g))) ->
  health_check e (Some r) g =
    (Ok (VDict (dset "error" (VStr (exn_str (unknown_region_error (config g) r)))
                  (dset "status" (VStr "unhealthy")
                     (initial_health_status e (config g))))), g).
Proof.
  intros Hr Hnot.
  apply truthy_nonempty in Hr. apply dget_None_iff in Hnot.
  unfold health_check, try_except, bind, get_config, ret.
  cbn [PyStr.opt_truthy]. rewrite Hr, get_region_config_run.
  cbn [requested_region]. rewrite Hnot. reflexivity.
Qed.

(** C6.  [health_check] always returns a payload.  Called without a
    region (or with an empty one) it probes every configured region: each
    region name gets an entry in [regions] whose [prometheus_connectivity]
    tells whether the probe of that very region succeeded, the request of
    every region that resolves to a config with a URL has been handed to
    [requests.get], and [status] is ["healthy"] when all probes succeed and
    ["degraded"] when at least one fails.  Called with a region whose
    lowercased name is not configured, it returns [status] ["unhealthy"]
    with the message of the resolution error under [error], and sends
    nothing. *)
Theorem health_check_never_raises (e : env) (region : option string)
  (g : globals) :
  (exists v g', health_check e region g = (Ok v, g'))
  /\ (PyStr.opt_truthy region = false ->
      exists hs rs g',
        health_check e region g = (Ok (VDict hs), g')
        /\ dget "regions" hs = Some (VDict rs)
        /\ ((forall name, In name (dkeys (regions (config g))) ->
                          probe_ok e g name = true) ->
            dget "status" hs = Some (VStr "healthy"))
        /\ ((exists name, In name (dkeys (regions (config g)))
                          /\ probe_ok e g name = false) ->
            dget "status" hs = Some (VStr "degraded"))
        /\ (forall name, In name (dkeys (regions (config g))) ->
              exists detail,
                dget name rs = Some (VDict detail)
                /\ dget "prometheus_connectivity" detail
                   = Some (connectivity (probe_ok e g name)))
        /\ (forall name rc, In name (dkeys (regions (config g))) ->
              dget (PyStr.lower name) (regions (config g)) = Some rc ->
              url rc <> "" ->
              In (build_request (config g) rc "query" (Some (probe_params e)))
                 (sent g')))
  /\ (forall r, region = Some r -> r <> "" ->
        ~ In (PyStr.lower r) (dkeys (regions (config g))) ->
        exists hs,
          health_check e region g = (Ok (VDict hs), g)
          /\ dget "status" hs = Some (VStr "unhealthy")
          /\ dget "error" hs
             = Some (VStr ("Region '" ++ r
                           ++ "' is not configured. Available regions: "
                           ++ PyStr.join ", "
                                (PyStr.sorted (dkeys (regions (config g))))))).
Proof.
  split; [|split].
  - unfold health_check. apply try_except_total.
    intros ex g1. unfold ret. eauto.
  - intros Hregion.
    destruct (probe_regions_spec e (regions (config g)) [] true g)
      as (rs & g' & Hrun & _ & _ & Hin & _ & Hnet).
    cbn [andb] in Hrun.
    eexists _, rs, g'.
    split; [exact (health_check_all_regions_run e region g g' rs _ Hregion Hrun)|].
    split; [|split; [|split; [|split]]].
    + cbv zeta. now destruct (negb _).
    + intros Hall.
      assert (Hf : forallb (probe_ok e g) (dkeys (regions (config g))) = true)
        by (apply forallb_forall; exact Hall).
      rewrite Hf. reflexivity.
    + intros (name & Hname & Hfail).
      assert (Hf : forallb (probe_ok e g) (dkeys (regions (config g))) = false).
      { destruct (forallb _ _) eqn:E; [|reflexivity].
        rewrite forallb_forall in E. rewrite (E _ Hname) in Hfail.
        discriminate. }
      rewrite Hf. reflexivity.
    + exact Hin.
    + exact Hnet.
  - intros r -> Hr Hnot. eexists. split.
    + now apply health_check_unknown_region_run.
    + split; reflexivity.
Qed.

Lemma health_check_never_raises_witness :
  (exists hs g',
     health_check blr_down_env None test_globals = (Ok (VDict hs), g')
     /\ dget "status" hs = Some (VStr "degraded"))
  /\ (exists hs,
        health_check blr_down_env (Some "Invalid") test_globals
          = (Ok (VDict hs), test_globals)
        /\ dget "status" hs = Some (VStr "unhealthy")).
Proof.
  split.
  - destruct (health_check_never_raises blr_down_env None test_globals)
      as (_ & Hall & _).
    destruct (Hall eq_refl) as (hs & rs & g' & Hrun & _ & _ & Hdeg & _).
    exists hs, g'. split; [exact Hrun|].
    apply Hdeg. exists "blr". split; [simpl; tauto | reflexivity].
  - destruct (health_check_never_raises blr_down_env (Some "Invalid") test_globals)
      as (_ & _ & Hunknown).
    destruct (Hunknown "Invalid" eq_refl) as (hs & Hrun & Hstatus & _).
    + discriminate.
    + simpl. intros [H|[H|[H|[]]]]; discriminate H.
    + exists hs. split; [exact Hrun | exact Hstatus].
Defined.

(** The run of [test_health_check_degraded_region]: three regions, [blr]
    down. *)
Example health_check_one_region_down :
  exists hs rs,
    fst (health_check blr_down_env None test_globals) = Ok (VDict hs)
    /\ dget "status" hs = Some (VStr "degraded")
    /\ dget "regions" hs = Some (VDict rs)
    /\ map (fun kv => (fst kv, Py.getitem (snd kv) "prometheus_connectivity")) rs
       = [("atl", Ok (VStr "healthy"));
          ("blr", Ok (VStr "degraded"));
          ("wdc", Ok (VStr "healthy"))].
Proof. do 2 eexists. repeat split; reflexivity. Qed.

(* ================================================================== *)
(** * Further properties of the module *)

(** ** The request client: failures *)

(** X1.  When the region does not resolve, or resolves to a config whose
    URL is empty, [make_prometheus_request] raises a [ValueError] before
    anything is sent: the globals, and with them the log of requests, are
    as they were. *)
Theorem make_prometheus_request_fails_fast (e : env) (endpoint : string)
  (params : option (dict string)) (region : option string) (g : globals) :
  (~ In (PyStr.lower (requested_region (config g) region))
        (dkeys (regions (config g))) ->
   make_prometheus_request e endpoint params region g
     = (Raise (unknown_region_error (config g)
                 (requested_region (config g) region)), g))
  /\ (forall rc,
        dget (PyStr.lower (requested_region (config g) region))
          (regions (config g)) = Some rc ->
        url rc = "" ->
        make_prometheus_request e endpoint params region g
          = (Raise (mkExn ValueError
                      ("Prometheus URL is not configured for region '"
                       ++ PyStr.lower (requested_region (config g) region)
                       ++ "'.")), g)).
Proof.
  split.
  - intros Hnot. apply dget_None_iff in Hnot.
    now rewrite make_prometheus_request_run, get_region_config_run, Hnot.
  - intros rc Hget Hurl.
    rewrite make_prometheus_request_run, get_region_config_run, Hget.
    cbn [fst]. now rewrite Hurl.
Qed.

Lemma make_prometheus_request_fails_fast_witness :
  make_prometheus_request (const_env (Ok (success_response VNone)) 0)
    "query" None (Some "fra") test_globals
  = (Raise (mkExn ValueError
              "Region 'fra' is not configured. Available regions: atl, blr, wdc"),
     test_globals).
Proof.
  apply (proj1 (make_prometheus_request_fails_fast _ "query" None (Some "fra")
                  test_globals)).
  simpl. intros [H|[H|[H|[]]]]; discriminate H.
Defined.

(** X2.  For a region that resolves to a config with a URL, what goes
    wrong on the wire comes back as it is: an exception of [requests.get]
    that is a [RequestException], or that is not a [json.JSONDecodeError],
    is re-raised unchanged, and an answer with a status from 400 to 599
    raises the [HTTPError] of [raise_for_status] whatever the body holds.
    In each case exactly one request has been sent. *)
Theorem transport_and_http_errors_propagate (e : env) (endpoint : string)
  (params : option (dict string)) (region : option string) (g : globals)
  (rc : RegionConfig) :
  dget (PyStr.lower (requested_region (config g) region)) (regions (config g))
    = Some rc ->
  url rc <> "" ->
  let rq := build_request (config g) rc endpoint params in
  (forall ex,
     requests_get e rq = Raise ex ->
     isinstance ex requests_RequestException = true
     \/ isinstance ex json_JSONDecodeError = false ->
     make_prometheus_request e endpoint params region g
       = (Raise ex, log_request rq g))
  /\ (forall r,
        requests_get e rq = Ok r ->
        400 <= status_code r < 600 ->
        make_prometheus_request e endpoint params region g
          = (Raise (mkExn requests_HTTPError (http_error_text r)),
             log_request rq g)).
Proof.
  intros Hget Hurl rq.
  rewrite (make_prometheus_request_sent e endpoint params region g rc Hget Hurl).
  fold rq. split.
  - intros ex Hnet Hcls. rewrite Hnet.
    unfold request_outcome, decode_response, request_handlers.
    destruct Hcls as [-> | Hj]; [reflexivity|].
    rewrite Hj. now destruct (isinstance ex requests_RequestException).
  - intros r Hnet Hcode. rewrite Hnet.
    unfold request_outcome, decode_response, raise_for_status.
    destruct (Z.leb_spec 400 (status_code r)); [|lia].
    destruct (Z.ltb_spec (status_code r) 600); [|lia].
    reflexivity.
Qed.

Lemma transport_and_http_errors_propagate_witness :
  fst (make_prometheus_request
         (const_env (Ok {| status_code := 503;
                           http_error_text := "503 Server Error: Service Unavailable";
                           json := Ok (VDict [("status", VStr "success");
                                              ("data", VList [])]) |}) 0)
         "query" None (Some "atl") test_globals)
  = Raise (mkExn requests_HTTPError "503 Server Error: Service Unavailable").
Proof.
  edestruct (transport_and_http_errors_propagate
               (const_env (Ok {| status_code := 503;
                                 http_error_text := "503 Server Error: Service Unavailable";
                                 json := Ok (VDict [("status", VStr "success");
                                                    ("data", VList [])]) |}) 0)
               "query" None (Some "atl") test_globals) as [_ Hhttp].
  - reflexivity.
  - discriminate.
  - rewrite (Hhttp _ eq_refl); [reflexivity | simpl; lia].
Defined.

(** X3.  For a region that resolves to a config with a URL and an answer
    whose status is not from 400 to 599 and whose body decodes to a JSON
    object: without a ["status"] member the client raises [KeyError]; with
    a status other than ["success"] it raises the [ValueError] "Prometheus
    API error: " followed by the ["error"] member, or by "Unknown error"
    when there is none; with status ["success"] it returns the ["data"]
    member as it is, and raises [KeyError] when there is none. *)
Theorem upstream_status_decides (e : env) (endpoint : string)
  (params : option (dict string)) (region : option string) (g : globals)
  (rc : RegionConfig) (r : response) (body : dict value) :
  dget (PyStr.lower (requested_region (config g) region)) (regions (config g))
    = Some rc ->
  url rc <> "" ->
  requests_get e (build_request (config g) rc endpoint params) = Ok r ->
  status_code r < 400 \/ 600 <= status_code r ->
  json r = Ok (VDict body) ->
  fst (make_prometheus_request e endpoint params region g) =
    match dget "status" body with
    | None => Raise (mkExn KeyError "'status'")
    | Some status =>
        if Py.eq_str status "success"
        then match dget "data" body with
             | Some payload => Ok payload
             | None => Raise (mkExn KeyError "'data'")
             end
        else Raise (mkExn ValueError
                      ("Prometheus API error: "
                       ++ Py.str match dget "error" body with
                                 | Some msg => msg
                                 | None => VStr "Unknown error"
                                 end))
    end.
Proof.
  intros Hget Hurl Hnet Hcode Hjson.
  rewrite (make_prometheus_request_sent e endpoint params region g rc Hget Hurl).
  cbn [fst]. rewrite Hnet.
  unfold request_outcome, decode_response, raise_for_status. rewrite Hjson.
  assert (Hst : (400 <=? status_code r) && (status_code r <? 600) = false).
  { destruct (Z.leb_spec 400 (status_code r)); [|reflexivity].
    destruct (Z.ltb_spec (status_code r) 600); [lia | reflexivity]. }
  rewrite Hst. cbn [Py.getitem Py.get].
  destruct (dget "status" body) as [status|]; [|reflexivity].
  destruct (Py.eq_str status "success"); cbn [negb].
  - destruct (dget "data" body); reflexivity.
  - destruct (dget "error" body); reflexivity.
Qed.

Lemma upstream_status_decides_witness :
  fst (make_prometheus_request
         (const_env (Ok {| status_code := 200; http_error_text := "";
                           json := Ok (VDict [("status", VStr "error");
                                              ("errorType", VStr "bad_data");
                                              ("error", VStr "parse error")]) |}) 0)
         "query" None (Some "atl") test_globals)
  = Raise (mkExn ValueError "Prometheus API error: parse error").
Proof.
  rewrite (upstream_status_decides _ "query" None (Some "atl") test_globals
             _ {| status_code := 200; http_error_text := "";
                  json := Ok (VDict [("status", VStr "error");
                                     ("errorType", VStr "bad_data");
                                     ("error", VStr "parse error")]) |}
             [("status", VStr "error"); ("errorType", VStr "bad_data");
              ("error", VStr "parse error")] eq_refl).
  - reflexivity.
  - discriminate.
  - reflexivity.
  - left. simpl. lia.
  - reflexivity.
Defined.

(** ** The request client: what is sent *)

(** X4.  Which credentials go out.  A non-empty token wins: no basic
    credentials are passed to [requests.get], even when a username and a
    password are configured too.  Without a token, a non-empty username
    together with a non-empty password is passed as basic credentials;
    with anything less, none are passed.  In the cases without a token the
    client writes no [Authorization] header of its own. *)
Theorem auth_selection (cfg : PrometheusConfig) (rc : RegionConfig)
  (endpoint : string) (params : option (dict string)) :
  let rq := build_request cfg rc endpoint params in
  (PyStr.opt_truthy (token rc) = true -> req_auth rq = None)
  /\ (PyStr.opt_truthy (token rc) = false ->
      req_auth rq =
        (if PyStr.opt_truthy (username rc) && PyStr.opt_truthy (password rc)
         then Some (opt_str (username rc), opt_str (password rc))
         else None)
      /\ ((forall ch, custom_headers rc = Some ch ->
                      ~ In "Authorization" (dkeys ch)) ->
          dget "Authorization" (req_headers rq) = None)).
Proof.
  intros rq. unfold rq, build_request, build_headers, get_prometheus_auth.
  split.
  - intros ->. reflexivity.
  - intros ->. split.
    + now destruct (PyStr.opt_truthy (username rc) && PyStr.opt_truthy (password rc)).
    + intros Hcustom.
      assert (Hbase : dget "Authorization"
                        (if PyStr.opt_truthy (org_id cfg)
                         then dset "X-Scope-OrgID" (opt_str (org_id cfg)) []
                         else []) = None)
        by (destruct (PyStr.opt_truthy (org_id cfg)); reflexivity).
      destruct (PyStr.opt_truthy (username rc) && PyStr.opt_truthy (password rc));
        cbn [req_headers];
        (destruct (custom_headers rc) as [ch|]; [|exact Hbase]);
        (destruct (dtruthy ch); [|exact Hbase]);
        (rewrite dget_dupdate_absent; [exact Hbase | now apply Hcustom]).
Qed.

Lemma auth_selection_witness :
  let both := {| url := "http://wdc.example.com:9090"; url_ssl_verify := false;
                 username := Some "admin"; password := Some "pass";
                 token := Some "token123"; custom_headers := None |} in
  let basic := {| url := "http://wdc.example.com:9090"; url_ssl_verify := false;
                  username := Some "admin"; password := Some "pass";
                  token := Some ""; custom_headers := None |} in
  req_auth (build_request test_config both "query" None) = None
  /\ req_auth (build_request test_config basic "query" None)
     = Some ("admin", "pass")
  /\ dget "Authorization" (req_headers (build_request test_config basic "query" None))
     = None.
Proof.
  intros both basic. split; [|split].
  - apply (proj1 (auth_selection test_config both "query" None)). reflexivity.
  - apply (proj2 (auth_selection test_config basic "query" None)). reflexivity.
  - apply (proj2 (auth_selection test_config basic "query" None)).
    + reflexivity.
    + intros ch [=].
Defined.

Lemma rstrip_app_slash (s : string) :
  PyStr.rstrip "/" (s ++ "/") = PyStr.rstrip "/" s.
Proof.
  induction s as [|a s IH]; simpl.
  - reflexivity.
  - now rewrite IH.
Qed.

Lemma rstrip_idem (s : string) :
  PyStr.rstrip "/" (PyStr.rstrip "/" s) = PyStr.rstrip "/" s.
Proof.
  induction s as [|a s IH]; simpl; [reflexivity|].
  destruct (PyStr.rstrip "/" s) as [|b r] eqn:E.
  - destruct (Ascii.eqb a "/") eqn:Ea; simpl; [reflexivity|].
    now rewrite Ea.
  - simpl. simpl in IH. now rewrite IH.
Qed.

(** X5.  Trailing slashes of the configured base URL do not matter: a
    region whose URL has one more slash at the end gives the very same
    request, and stripping is idempotent. *)
Theorem trailing_slash_irrelevant (cfg : PrometheusConfig) (rc : RegionConfig)
  (endpoint : string) (params : option (dict string)) :
  build_request cfg (with_url rc (url rc ++ "/")) endpoint params
    = build_request cfg rc endpoint params
  /\ build_request cfg (with_url rc (PyStr.rstrip "/" (url rc))) endpoint params
     = build_request cfg rc endpoint params.
Proof.
  unfold build_request, build_headers, get_prometheus_auth, with_url.
  cbn [url url_ssl_verify username password token custom_headers].
  rewrite rstrip_app_slash, rstrip_idem. split; reflexivity.
Qed.

(* ================================================================== *)
(** ** Query handlers and scrape targets *)

Lemma instant_params_eq (query : string) (time : option string) :
  (if PyStr.opt_truthy time
   then dset "time" (opt_str time) [("query", query)]
   else [("query", query)]) = instant_params query time.
Proof. unfold instant_params. now destruct (PyStr.opt_truthy time). Qed.

Lemma instant_ui_params_eq (query : string) (time : option string) :
  (if PyStr.opt_truthy time
   then dset "g0.moment_input" (opt_str time) [("g0.expr", query); ("g0.tab", "0")]
   else [("g0.expr", query); ("g0.tab", "0")]) = instant_ui_params query time.
Proof. unfold instant_ui_params. now destruct (PyStr.opt_truthy time). Qed.

Lemma execute_query_run (e : env) (query : string) (time : option string)
  (region : option string) (g : globals) :
  execute_query e query time region g =
    match make_prometheus_request e "query" (Some (instant_params query time))
            region g with
    | (Raise ex, g') => (Raise ex, g')
    | (Ok payload, g') =>
        (query_result (config g) region (instant_ui_params query time) payload, g')
    end.
Proof.
  unfold execute_query. rewrite instant_params_eq, instant_ui_params_eq.
  pose proof (make_prometheus_request_frame e "query"
                (Some (instant_params query time)) region g) as (Hcfg & _).
  unfold bind at 1. unfold get_config at 1. unfold bind at 1.
  destruct (make_prometheus_request _ _ _ _ _) as [[payload|ex] g'];
    [|reflexivity].
  cbn [snd] in Hcfg.
  unfold query_result, with_links, bind, lift, get_config, ret, rbind.
  destruct (Py.getitem payload "resultType") as [rt|]; [|reflexivity].
  destruct (Py.getitem payload "result") as [rv|]; [|reflexivity].
  rewrite Hcfg.
  destruct (disable_prometheus_links (config g)); cbn [negb]; [reflexivity|].
  rewrite get_region_config_run, Hcfg.
  destruct (dget _ _); reflexivity.
Qed.

Lemma execute_range_query_run (e : env) (query start end_ step : string)
  (region : option string) (g : globals) :
  execute_range_query e query start end_ step region g =
    match make_prometheus_request e "query_range"
            (Some (range_params query start end_ step)) region g with
    | (Raise ex, g') => (Raise ex, g')
    | (Ok payload, g') =>
        (query_result (config g) region (range_ui_params query start end_ step)
           payload, g')
    end.
Proof.
  unfold execute_range_query.
  fold (range_params query start end_ step).
  fold (range_ui_params query start end_ step).
  pose proof (make_prometheus_request_frame e "query_range"
                (Some (range_params query start end_ step)) region g) as (Hcfg & _).
  unfold bind at 1. unfold get_config at 1. unfold bind at 1.
  destruct (make_prometheus_request _ _ _ _ _) as [[payload|ex] g'];
    [|reflexivity].
  cbn [snd] in Hcfg.
  unfold query_result, with_links, bind, lift, get_config, ret, rbind.
  destruct (Py.getitem payload "resultType") as [rt|]; [|reflexivity].
  destruct (Py.getitem payload "result") as [rv|]; [|reflexivity].
  rewrite Hcfg.
  destruct (disable_prometheus_links (config g)); cbn [negb]; [reflexivity|].
  rewrite get_region_config_run, Hcfg.
  destruct (dget _ _); reflexivity.
Qed.

Lemma get_targets_run (e : env) (region : option string) (g : globals) :
  get_targets e region g =
    match make_prometheus_request e "targets" None region g with
    | (Raise ex, g') => (Raise ex, g')
    | (Ok payload, g') => (targets_result (config g) region payload, g')
    end.
Proof.
  unfold get_targets, targets_result, bind, get_config, lift, ret, rbind.
  destruct (make_prometheus_request _ _ _ _ _) as [[payload|ex] g'];
    [|reflexivity].
  destruct (Py.getitem payload "activeTargets") as [a|]; [|reflexivity].
  destruct (Py.getitem payload "droppedTargets") as [d|]; [|reflexivity].
  destruct (Py.len a); [|reflexivity].
  destruct (Py.len d); reflexivity.
Qed.

(** X6.  The five handlers that call the request client hide nothing:
    when the client raises, the handler raises the same exception and
    leaves the globals as the client left them.  (Only
    [get_cached_metrics] and [health_check] catch.) *)
Theorem handlers_propagate_client_errors (e : env) (g g' : globals)
  (ex : exn) (region : option string) :
  (forall query time,
     make_prometheus_request e "query" (Some (instant_params query time)) region g
       = (Raise ex, g') ->
     execute_query e query time region g = (Raise ex, g'))
  /\ (forall query start end_ step,
        make_prometheus_request e "query_range"
          (Some (range_params query start end_ step)) region g = (Raise ex, g') ->
        execute_range_query e query start end_ step region g = (Raise ex, g'))
  /\ (forall limit offset filter_pattern ctx,
        make_prometheus_request e "label/__name__/values" None region g
          = (Raise ex, g') ->
        list_metrics e limit offset filter_pattern region ctx g = (Raise ex, g'))
  /\ (forall metric,
        make_prometheus_request e ("metadata?metric=" ++ metric) None region g
          = (Raise ex, g') ->
        get_metric_metadata e metric region g = (Raise ex, g'))
  /\ (make_prometheus_request e "targets" None region g = (Raise ex, g') ->
      get_targets e region g = (Raise ex, g')).
Proof.
  repeat split.
  - intros query time H. now rewrite execute_query_run, H.
  - intros query start end_ step H. now rewrite execute_range_query_run, H.
  - intros limit offset filter_pattern ctx H. now rewrite list_metrics_run, H.
  - intros metric H. now rewrite get_metric_metadata_run, H.
  - intros H. now rewrite get_targets_run, H.
Qed.

Lemma handlers_propagate_client_errors_witness :
  let e := const_env (Raise (mkExn requests_Timeout "Read timed out")) 0 in
  fst (execute_query e "up" None (Some "atl") test_globals)
    = Raise (mkExn requests_Timeout "Read timed out")
  /\ fst (get_targets e (Some "atl") test_globals)
     = Raise (mkExn requests_Timeout "Read timed out").
Proof.
  intros e. split.
  - destruct (handlers_propagate_client_errors e test_globals
                (snd (make_prometheus_request e "query"
                        (Some (instant_params "up" None)) (Some "atl")
                        test_globals))
                (mkExn requests_Timeout "Read timed out") (Some "atl"))
      as (Hq & _).
    rewrite (Hq "up" None); reflexivity.
  - destruct (handlers_propagate_client_errors e test_globals
                (snd (make_prometheus_request e "targets" None (Some "atl")
                        test_globals))
                (mkExn requests_Timeout "Read timed out") (Some "atl"))
      as (_ & _ & _ & _ & Ht).
    rewrite Ht; reflexivity.
Defined.

(** X7.  An instant query that goes through.  For a region that resolves
    to a config with a URL and an answer carrying [resultType] and
    [result], [execute_query] sends one request to [/api/v1/query] with
    the parameter [query], and [time] only when a non-empty time was
    given, and returns [resultType] and [result] as received together with
    the region name.  Unless links are disabled the result carries one
    link, [<base>/graph?g0.expr=<query>&g0.tab=0], followed by
    [&g0.moment_input=<time>] when a time was given, with the query and
    the time percent-encoded. *)
Theorem execute_query_success (e : env) (g : globals) (query : string)
  (time : option string) (region : option string) (rc : RegionConfig)
  (body : dict value) (rt rv : value) :
  dget (PyStr.lower (requested_region (config g) region)) (regions (config g))
    = Some rc ->
  url rc <> "" ->
  request_outcome
    (requests_get e (build_request (config g) rc "query"
                       (Some (instant_params query time)))) = Ok (VDict body) ->
  dget "resultType" body = Some rt ->
  dget "result" body = Some rv ->
  execute_query e query time region g =
    (Ok (VDict
           ([("resultType", rt); ("result", rv);
             ("region", VStr (region_label (config g) region))]
            ++ if disable_prometheus_links (config g) then []
               else [("links",
                      prometheus_ui_links
                        (PyStr.rstrip "/" (url rc) ++ "/graph?g0.expr="
                         ++ UrlLib.quote_plus query ++ "&g0.tab=0"
                         ++ if PyStr.opt_truthy time
                            then "&g0.moment_input="
                                 ++ UrlLib.quote_plus (opt_str time)
                            else ""))])%list),
     log_request (build_request (config g) rc "query"
                    (Some (instant_params query time))) g).
Proof.
  intros Hget Hurl Hout Hrt Hrv.
  rewrite execute_query_run,
    (make_prometheus_request_sent e "query" _ region g rc Hget Hurl), Hout.
  f_equal. unfold query_result, with_links.
  cbn [Py.getitem rbind]. rewrite Hrt, Hrv, Hget. cbn [rbind].
  destruct (disable_prometheus_links (config g)); cbn [negb rbind]; [reflexivity|].
  unfold instant_ui_params.
  destruct (PyStr.opt_truthy time); reflexivity.
Qed.

Lemma execute_query_success_witness :
  fst (execute_query (const_env (Ok (success_response instant_vector)) 0)
         "up == 1" None (Some "BLR") test_globals)
  = Ok (VDict [("resultType", VStr "vector"); ("result", VList []);
               ("region", VStr "blr");
               ("links",
                prometheus_ui_links
                  "http://blr.example.com:9090/graph?g0.expr=up+%3D%3D+1&g0.tab=0")]).
Proof.
  rewrite (execute_query_success _ test_globals "up == 1" None (Some "BLR")
             {| url := "http://blr.example.com:9090"; url_ssl_verify := true;
                username := Some ""; password := Some ""; token := Some "token123";
                custom_headers := Some [("X-Custom", "blr-value")] |}
             [("resultType", VStr "vector"); ("result", VList [])]
             (VStr "vector") (VList []) eq_refl).
  - reflexivity.
  - discriminate.
  - reflexivity.
  - reflexivity.
  - reflexivity.
Defined.

Lemma hex_digits_safe (c : ascii) :
  UrlLib.always_safe (UrlLib.hex_digit (N_of_ascii c / 16)) = true
  /\ UrlLib.always_safe (UrlLib.hex_digit (N_of_ascii c mod 16)) = true.
Proof. destruct c as [[] [] [] [] [] [] [] []]; split; reflexivity. Qed.

Lemma unquote_head_quote_plus (c : ascii) (s : string) :
  unquote_head (UrlLib.quote_plus (String c s)) = Some (c, UrlLib.quote_plus s).
Proof. destruct c as [[] [] [] [] [] [] [] []]; reflexivity. Qed.

(** X8.  The percent-encoding of the links.  [quote_plus] writes only
    ASCII letters, digits, [_.-~], [%] and [+], so no [&], [=], [#], [?],
    space or slash of a query reaches the link as such; and it loses
    nothing: two texts with the same encoding are the same text. *)
Theorem quote_plus_clean_and_injective (s : string) :
  Forall (fun c => url_clean c = true) (list_ascii_of_string (UrlLib.quote_plus s))
  /\ (forall s', UrlLib.quote_plus s = UrlLib.quote_plus s' -> s = s').
Proof.
  split.
  - induction s as [|c s IH]; cbn [UrlLib.quote_plus list_ascii_of_string].
    + constructor.
    + destruct (UrlLib.always_safe c) eqn:Hs.
      * cbn [list_ascii_of_string]. constructor; [|exact IH].
        unfold url_clean. now rewrite Hs.
      * destruct (hex_digits_safe c) as [Hh Hl].
        destruct (Ascii.eqb c " "); cbn [list_ascii_of_string];
          repeat (constructor; [try reflexivity|]); try exact IH;
          unfold url_clean; [now rewrite Hh | now rewrite Hl].
  - induction s as [|c s IH]; intros [|c' s'] Heq.
    + reflexivity.
    + apply (f_equal unquote_head) in Heq.
      rewrite unquote_head_quote_plus in Heq. discriminate.
    + apply (f_equal unquote_head) in Heq.
      rewrite unquote_head_quote_plus in Heq. discriminate.
    + apply (f_equal unquote_head) in Heq.
      rewrite !unquote_head_quote_plus in Heq.
      injection Heq as -> Hrest. f_equal. now apply IH.
Qed.

Lemma quote_plus_clean_and_injective_witness :
  UrlLib.quote_plus "a&b=c d" = "a%26b%3Dc+d"
  /\ (UrlLib.quote_plus "a&b=c d" = UrlLib.quote_plus "a&b=c d" -> "a&b=c d" = "a&b=c d").
Proof.
  split; [reflexivity|].
  apply (proj2 (quote_plus_clean_and_injective "a&b=c d")).
Defined.

(** X9.  A range query that goes through: one request to
    [/api/v1/query_range] with exactly the parameters [query], [start],
    [end] and [step]; [resultType] and [result] come back as received with
    the region name; unless links are disabled, one link whose range input
    is the text [<start> to <end>], percent-encoded like the query and the
    step. *)
Theorem execute_range_query_success (e : env) (g : globals)
  (query start end_ step : string) (region : option string) (rc : RegionConfig)
  (body : dict value) (rt rv : value) :
  dget (PyStr.lower (requested_region (config g) region)) (regions (config g))
    = Some rc ->
  url rc <> "" ->
  request_outcome
    (requests_get e (build_request (config g) rc "query_range"
                       (Some [("query", query); ("start", start);
                              ("end", end_); ("step", step)])))
    = Ok (VDict body) ->
  dget "resultType" body = Some rt ->
  dget "result" body = Some rv ->
  execute_range_query e query start end_ step region g =
    (Ok (VDict
           ([("resultType", rt); ("result", rv);
             ("region", VStr (region_label (config g) region))]
            ++ if disable_prometheus_links (config g) then []
               else [("links",
                      prometheus_ui_links
                        (PyStr.rstrip "/" (url rc) ++ "/graph?g0.expr="
                         ++ UrlLib.quote_plus query
                         ++ "&g0.tab=0&g0.range_input="
                         ++ UrlLib.quote_plus (start ++ " to " ++ end_)
                         ++ "&g0.step_input=" ++ UrlLib.quote_plus step))])%list),
     log_request (build_request (config g) rc "query_range"
                    (Some [("query", query); ("start", start);
                           ("end", end_); ("step", step)])) g).
Proof.
  intros Hget Hurl Hout Hrt Hrv.
  change (request_outcome
            (requests_get e (build_request (config g) rc "query_range"
                               (Some (range_params query start end_ step))))
          = Ok (VDict body)) in Hout.
  rewrite execute_range_query_run.
  rewrite (make_prometheus_request_sent e "query_range" _ region g rc Hget Hurl),
    Hout.
  f_equal. unfold query_result, with_links.
  cbn [Py.getitem rbind]. rewrite Hrt, Hrv, Hget. cbn [rbind].
  destruct (disable_prometheus_links (config g)); reflexivity.
Qed.

Lemma execute_range_query_success_witness :
  fst (execute_range_query
         (const_env (Ok (success_response
                           (VDict [("resultType", VStr "matrix");
                                   ("result", VList [])]))) 0)
         "up" "2023-01-01T00:00:00Z" "2023-01-01T01:00:00Z" "15s" (Some "atl")
         test_globals)
  = Ok (VDict [("resultType", VStr "matrix"); ("result", VList []);
               ("region", VStr "atl");
               ("links",
                prometheus_ui_links
                  "http://atl.example.com:9090/graph?g0.expr=up&g0.tab=0&g0.range_input=2023-01-01T00%3A00%3A00Z+to+2023-01-01T01%3A00%3A00Z&g0.step_input=15s")]).
Proof.
  rewrite (execute_range_query_success _ test_globals "up" "2023-01-01T00:00:00Z"
             "2023-01-01T01:00:00Z" "15s" (Some "atl")
             {| url := "http://atl.example.com:9090"; url_ssl_verify := true;
                username := Some ""; password := Some ""; token := Some "";
                custom_headers := None |}
             [("resultType", VStr "matrix"); ("result", VList [])]
             (VStr "matrix") (VList []) eq_refl).
  - reflexivity.
  - discriminate.
  - reflexivity.
  - reflexivity.
  - reflexivity.
Defined.

(** X10.  [get_targets] on the mapping the client returned: a missing
    [activeTargets] or, failing that, a missing [droppedTargets] raises
    [KeyError]; when both are lists they come back as received with the
    region name; and when one of them is [null] the handler raises
    [TypeError], for the count it logs, although the request went
    through. *)
Theorem get_targets_verbatim (e : env) (g g' : globals)
  (region : option string) (body : dict value) :
  make_prometheus_request e "targets" None region g = (Ok (VDict body), g') ->
  (dget "activeTargets" body = None ->
   get_targets e region g = (Raise (mkExn KeyError "'activeTargets'"), g'))
  /\ (forall a, dget "activeTargets" body = Some a ->
        dget "droppedTargets" body = None ->
        get_targets e region g = (Raise (mkExn KeyError "'droppedTargets'"), g'))
  /\ (forall a d, dget "activeTargets" body = Some (VList a) ->
        dget "droppedTargets" body = Some (VList d) ->
        get_targets e region g
          = (Ok (VDict [("activeTargets", VList a);
                        ("droppedTargets", VList d);
                        ("region", VStr (region_label (config g) region))]), g'))
  /\ (forall a, dget "activeTargets" body = Some (VList a) ->
        dget "droppedTargets" body = Some VNone ->
        get_targets e region g
          = (Raise (mkExn TypeError "object of type 'NoneType' has no len()"), g')).
Proof.
  intros Hreq. rewrite get_targets_run, Hreq.
  unfold targets_result. cbn [Py.getitem].
  repeat split.
  - intros ->. reflexivity.
  - intros a -> ->. reflexivity.
  - intros a d -> ->. reflexivity.
  - intros a -> ->. reflexivity.
Qed.

Lemma get_targets_verbatim_witness :
  let e := const_env (Ok (success_response
                            (VDict [("activeTargets",
                                     VList [VDict [("health", VStr "up")]]);
                                    ("droppedTargets", VList [])]))) 0 in
  fst (get_targets e (Some "ATL") test_globals)
  = Ok (VDict [("activeTargets", VList [VDict [("health", VStr "up")]]);
               ("droppedTargets", VList []);
               ("region", VStr "atl")]).
Proof.
  intros e.
  destruct (get_targets_verbatim e test_globals
              (snd (make_prometheus_request e "targets" None (Some "ATL")
                      test_globals))
              (Some "ATL")
              [("activeTargets", VList [VDict [("health", VStr "up")]]);
               ("droppedTargets", VList [])] eq_refl) as (_ & _ & Hok & _).
  rewrite (Hok _ _ eq_refl eq_refl). reflexivity.
Defined.

Lemma region_label_canonical (cfg : PrometheusConfig) (region : option string) :
  region <> Some "" ->
  (region = None -> PyStr.lower (default_region cfg) = default_region cfg) ->
  region_label cfg region = PyStr.lower (requested_region cfg region).
Proof.
  intros Hne Hdef. unfold region_label, requested_region.
  destruct region as [[|c r]|]; cbn.
  - congruence.
  - reflexivity.
  - symmetry. now apply Hdef.
Qed.

Lemma client_ok_resolved (e : env) (endpoint : string)
  (params : option (dict string)) (region : option string) (g g' : globals)
  (payload : value) :
  make_prometheus_request e endpoint params region g = (Ok payload, g') ->
  exists rc,
    dget (PyStr.lower (requested_region (config g) region)) (regions (config g))
      = Some rc.
Proof.
  rewrite make_prometheus_request_run, get_region_config_run. cbn [fst].
  destruct (dget _ _) as [rc|]; [eauto | discriminate].
Qed.

Lemma query_result_region (cfg : PrometheusConfig) (region : option string)
  (ui_params : dict string) (payload v : value) :
  query_result cfg region ui_params payload = Ok v ->
  Py.getitem v "region" = Ok (VStr (region_label cfg region)).
Proof.
  unfold query_result, with_links, rbind.
  destruct (Py.getitem payload "resultType"); [|discriminate].
  destruct (Py.getitem payload "result"); [|discriminate].
  destruct (disable_prometheus_links cfg); cbn [negb].
  - intros [= <-]. reflexivity.
  - destruct (dget _ (regions cfg)); [|discriminate].
    intros [= <-]. reflexivity.
Qed.

Lemma list_metrics_result_region (region_name : string) (limit : option Z)
  (offset : Z) (filter_pattern : option string) (ctx : bool) (payload v : value) :
  list_metrics_result region_name limit offset filter_pattern ctx payload = Ok v ->
  Py.getitem v "region" = Ok (VStr region_name).
Proof.
  unfold list_metrics_result, rbind.
  destruct (if ctx then Py.len payload else Ok 0); [|discriminate].
  destruct (if PyStr.opt_truthy filter_pattern then _ else _) as [d|];
    [|discriminate].
  destruct (Py.len d); [|discriminate].
  destruct (Py.slice d _ _) as [p|]; [|discriminate].
  destruct (Py.len p); [|discriminate].
  intros [= <-]. reflexivity.
Qed.

Lemma targets_result_region (cfg : PrometheusConfig) (region : option string)
  (payload v : value) :
  targets_result cfg region payload = Ok v ->
  Py.getitem v "region" = Ok (VStr (region_label cfg region)).
Proof.
  unfold targets_result, rbind.
  destruct (Py.getitem payload "activeTargets") as [a|]; [|discriminate].
  destruct (Py.getitem payload "droppedTargets") as [d|]; [|discriminate].
  destruct (Py.len a); [|discriminate].
  destruct (Py.len d); [|discriminate].
  intros [= <-]. reflexivity.
Qed.

(** X11.  The region a handler echoes is the resolved one.  When one of
    the five handlers that call the request client returns a result, for a
    region argument other than the empty string (and, for [None], a
    default region written in lowercase), the ["region"] member of the
    result is the lowercased requested name, and that name is the key
    under which the region resolved. *)
Theorem handlers_echo_resolved_region (e : env) (g g' : globals)
  (region : option string) (v : value) :
  region <> Some "" ->
  (region = None ->
   PyStr.lower (default_region (config g)) = default_region (config g)) ->
  (exists query time, execute_query e query time region g = (Ok v, g'))
  \/ (exists query start end_ step,
        execute_range_query e query start end_ step region g = (Ok v, g'))
  \/ (exists limit offset filter_pattern ctx,
        list_metrics e limit offset filter_pattern region ctx g = (Ok v, g'))
  \/ (exists metric, get_metric_metadata e metric region g = (Ok v, g'))
  \/ get_targets e region g = (Ok v, g') ->
  Py.getitem v "region"
    = Ok (VStr (PyStr.lower (requested_region (config g) region)))
  /\ exists rc,
       get_region_config region g
         = (Ok (PyStr.lower (requested_region (config g) region), rc), g).
Proof.
  intros Hne Hdef Hcall.
  pose proof (region_label_canonical (config g) region Hne Hdef) as Hlab.
  rewrite get_region_config_run.
  destruct Hcall as [(query & time & H) | [(query & start & end_ & step & H)
    | [(limit & offset & fp & ctx & H) | [(metric & H) | H]]]].
  - rewrite execute_query_run in H.
    destruct (make_prometheus_request _ _ _ _ _) as [[payload|ex] g1] eqn:Hreq;
      [|discriminate].
    destruct (client_ok_resolved _ _ _ _ _ _ _ Hreq) as [rc ->].
    injection H as H _.
    split; [rewrite <- Hlab; now apply query_result_region in H | eauto].
  - rewrite execute_range_query_run in H.
    destruct (make_prometheus_request _ _ _ _ _) as [[payload|ex] g1] eqn:Hreq;
      [|discriminate].
    destruct (client_ok_resolved _ _ _ _ _ _ _ Hreq) as [rc ->].
    injection H as H _.
    split; [rewrite <- Hlab; now apply query_result_region in H | eauto].
  - rewrite list_metrics_run in H.
    destruct (make_prometheus_request _ _ _ _ _) as [[payload|ex] g1] eqn:Hreq;
      [|discriminate].
    destruct (client_ok_resolved _ _ _ _ _ _ _ Hreq) as [rc ->].
    injection H as H _.
    split; [rewrite <- Hlab; now apply list_metrics_result_region in H | eauto].
  - rewrite get_metric_metadata_run in H.
    destruct (make_prometheus_request _ _ _ _ _) as [[payload|ex] g1] eqn:Hreq;
      [|discriminate].
    destruct (client_ok_resolved _ _ _ _ _ _ _ Hreq) as [rc ->].
    injection H as H _. split; [|eauto].
    unfold rbind in H.
    destruct (normalize_metadata payload) as [md|]; [|discriminate].
    destruct (Py.len md); [|discriminate].
    injection H as <-. rewrite <- Hlab. reflexivity.
  - rewrite get_targets_run in H.
    destruct (make_prometheus_request _ _ _ _ _) as [[payload|ex] g1] eqn:Hreq;
      [|discriminate].
    destruct (client_ok_resolved _ _ _ _ _ _ _ Hreq) as [rc ->].
    injection H as H _.
    split; [rewrite <- Hlab; now apply targets_result_region in H | eauto].
Qed.

Lemma handlers_echo_resolved_region_witness :
  let e := const_env (Ok (success_response instant_vector)) 0 in
  exists v,
    fst (execute_query e "up" None (Some "WDC") test_globals) = Ok v
    /\ Py.getitem v "region" = Ok (VStr "wdc").
Proof.
  intros e. eexists. split; [reflexivity|].
  refine (proj1 (handlers_echo_resolved_region e test_globals
                   (snd (execute_query e "up" None (Some "WDC") test_globals))
                   (Some "WDC") _ _ _ _)).
  - discriminate.
  - discriminate.
  - left. exists "up", None. reflexivity.
Defined.

(* ================================================================== *)
(** ** The metrics cache, further *)

Lemma lower_empty_iff (s : string) : PyStr.lower s = "" <-> s = "".
Proof. destruct s; simpl; split; congruence. Qed.

(** X12.  One call of [get_cached_metrics] reads and writes only the
    entry of its own region: [config] and every other entry of the cache
    are as they were.  The entry is shared by all spellings of the region
    name: two non-empty names with the same lowercase form give the same
    answer and the same globals. *)
Theorem get_cached_metrics_one_entry (e : env) (region : option string)
  (g : globals) :
  (config (snd (get_cached_metrics e region g)) = config g
   /\ forall k, k <> cache_key_of (config g) region ->
        dget k (_metrics_cache (snd (get_cached_metrics e region g)))
          = dget k (_metrics_cache g))
  /\ (forall r1 r2, r1 <> "" -> PyStr.lower r1 = PyStr.lower r2 ->
        get_cached_metrics e (Some r1) g = get_cached_metrics e (Some r2) g).
Proof.
  split; [split|].
  - apply get_cached_metrics_config.
  - intros k Hk. rewrite get_cached_metrics_run.
    destruct (cache_valid _ _ _); [reflexivity|].
    rewrite refresh_metrics_run.
    pose proof (make_prometheus_request_frame e "label/__name__/values" None
                  region g) as (_ & Hcache & _).
    destruct (make_prometheus_request _ _ _ _ _) as [[d|ex] g1];
      cbn [snd store_entry _metrics_cache] in *.
    + rewrite dget_dset_other by exact Hk. now rewrite Hcache.
    + now rewrite Hcache.
  - intros r1 r2 Hne Hlow.
    assert (Hne2 : r2 <> "").
    { intros ->. apply Hne. apply lower_empty_iff. exact Hlow. }
    assert (Hkey : cache_key_of (config g) (Some r1)
                   = cache_key_of (config g) (Some r2)).
    { unfold cache_key_of, region_label. cbn [PyStr.opt_truthy opt_str].
      apply truthy_nonempty in Hne, Hne2. now rewrite Hne, Hne2, Hlow. }
    rewrite !get_cached_metrics_run, Hkey.
    destruct (cache_valid _ _ _); [reflexivity|].
    rewrite !refresh_metrics_run, !make_prometheus_request_run,
      !get_region_config_run.
    cbn [fst requested_region]. rewrite <- Hlow.
    destruct (dget _ _) as [rc|]; [|reflexivity].
    destruct (PyStr.truthy (url rc)); reflexivity.
Qed.

Lemma get_cached_metrics_one_entry_witness :
  get_cached_metrics (const_env (Ok (success_response metric_names)) 1000)
    (Some "ATL") test_globals
  = get_cached_metrics (const_env (Ok (success_response metric_names)) 1000)
      (Some "atl") test_globals.
Proof.
  apply (proj2 (get_cached_metrics_one_entry _ (Some "ATL") test_globals)).
  - discriminate.
  - reflexivity.
Defined.

(** X13.  The empty string is not the default region.  When [""] is not a
    configured key, the request client given the region [""] raises the
    unknown-region error and sends nothing, while [get_cached_metrics]
    given [""] works on the entry of the default region: it sends nothing
    either and answers with what that entry holds, or with an empty list.
    [health_check] given [""] does what it does without a region. *)
Theorem empty_region_string (e : env) (g : globals) :
  ~ In "" (dkeys (regions (config g))) ->
  (forall endpoint params,
     make_prometheus_request e endpoint params (Some "") g
       = (Raise (mkExn ValueError
                   ("Region '' is not configured. Available regions: "
                    ++ PyStr.join ", " (PyStr.sorted (dkeys (regions (config g)))))),
          g))
  /\ get_cached_metrics e (Some "") g
     = (Ok (stale_or_empty (_metrics_cache g)
              (default_region (config g) ++ "_metrics")), g)
  /\ health_check e (Some "") g = health_check e None g.
Proof.
  intros Hnot.
  assert (Hreq : forall endpoint params,
             make_prometheus_request e endpoint params (Some "") g
             = (Raise (unknown_region_error (config g) ""), g)).
  { intros endpoint params.
    rewrite make_prometheus_request_run, get_region_config_run.
    cbn [requested_region PyStr.lower].
    apply dget_None_iff in Hnot. now rewrite Hnot. }
  split; [exact Hreq|]. split; [|reflexivity].
  rewrite get_cached_metrics_run.
  change (cache_key_of (config g) (Some ""))
    with (default_region (config g) ++ "_metrics").
  destruct (cache_valid _ _ _); [reflexivity|].
  now rewrite refresh_metrics_run, Hreq.
Qed.

Lemma empty_region_string_witness :
  get_cached_metrics (const_env (Ok (success_response metric_names)) 1000)
    (Some "") test_globals
  = (Ok (VList []), test_globals).
Proof.
  refine (proj1 (proj2 (empty_region_string _ test_globals _))).
  simpl. intros [H|[H|[H|[]]]]; discriminate H.
Defined.

(* ================================================================== *)
(** ** Listing metrics, further *)

Lemma truthy_lower (s : string) : PyStr.truthy (PyStr.lower s) = PyStr.truthy s.
Proof. now destruct s. Qed.

(** X14.  The filter of [list_metrics] does not see the case of the
    pattern: two patterns with the same lowercase form give the same
    result and the same globals, whatever the client returns. *)
Theorem list_metrics_filter_ignores_case (e : env) (g : globals)
  (limit : option Z) (offset : Z) (p1 p2 : string) (region : option string)
  (ctx : bool) :
  PyStr.lower p1 = PyStr.lower p2 ->
  list_metrics e limit offset (Some p1) region ctx g
    = list_metrics e limit offset (Some p2) region ctx g.
Proof.
  intros Hlow. rewrite !list_metrics_run.
  destruct (make_prometheus_request _ _ _ _ _) as [[payload|ex] g'];
    [|reflexivity].
  f_equal. unfold list_metrics_result.
  cbn [PyStr.opt_truthy opt_str].
  rewrite <- (truthy_lower p1), <- (truthy_lower p2), Hlow. reflexivity.
Qed.

Lemma list_metrics_filter_ignores_case_witness :
  list_metrics (const_env (Ok (success_response metric_names)) 0)
    None 0 (Some "HTTP") None false test_globals
  = list_metrics (const_env (Ok (success_response metric_names)) 0)
      None 0 (Some "http") None false test_globals.
Proof.
  apply list_metrics_filter_ignores_case. reflexivity.
Defined.

Lemma slice_list_map {A B : Type} (f : A -> B) (l : list A) (i j : Z) :
  Py.slice_list (map f l) i j = map f (Py.slice_list l i j).
Proof.
  unfold Py.slice_list. now rewrite length_map, skipn_map, firstn_map.
Qed.

(** The result of [list_metrics] for a list of names, with a limit. *)
Lemma list_metrics_result_names (region_name : string) (l offset : Z)
  (filter_pattern : option string) (ctx : bool) (names : list string) :
  list_metrics_result region_name (Some l) offset filter_pattern ctx
    (VList (map VStr names)) =
  Ok (VDict
        [("metrics",
          VList (map VStr (Py.slice_list (filtered_names filter_pattern names)
                             offset (offset + l))));
         ("total_count",
          VInt (Z.of_nat (List.length (filtered_names filter_pattern names))));
         ("returned_count",
          VInt (Z.of_nat (List.length
                            (Py.slice_list (filtered_names filter_pattern names)
                               offset (offset + l)))));
         ("offset", VInt offset);
         ("has_more",
          VBool (offset + l
                 <? Z.of_nat (List.length (filtered_names filter_pattern names))));
         ("region", VStr region_name)]).
Proof.
  unfold list_metrics_result, filtered_names.
  destruct ctx; cbn [Py.len rbind];
    (destruct (PyStr.opt_truthy filter_pattern); cbn [Py.iter rbind];
     [rewrite filter_metrics_names|]; cbn [rbind Py.len Py.slice];
     now rewrite slice_list_map, !length_map).
Qed.

Lemma firstn_plus {A : Type} (a b : nat) (l : list A) :
  firstn (a + b) l = (firstn a l ++ firstn b (skipn a l))%list.
Proof.
  revert l. induction a as [|a IH]; intros [|x l]; simpl;
    try reflexivity.
  - now rewrite firstn_nil.
  - now rewrite IH.
Qed.

Lemma slice_list_tiles {A : Type} (l : list A) (o a b : Z) :
  0 <= o -> 0 <= a -> 0 <= b ->
  Py.slice_list l o (o + (a + b))
    = (Py.slice_list l o (o + a) ++ Py.slice_list l (o + a) (o + a + b))%list.
Proof.
  intros Ho Ha Hb. rewrite !slice_list_nonneg by lia.
  replace (Z.to_nat (o + (a + b) - o)) with (Z.to_nat a + Z.to_nat b)%nat by lia.
  replace (Z.to_nat (o + a - o)) with (Z.to_nat a) by lia.
  replace (Z.to_nat (o + a + b - (o + a))) with (Z.to_nat b) by lia.
  replace (Z.to_nat (o + a)) with (Z.to_nat a + Z.to_nat o)%nat by lia.
  rewrite <- skipn_skipn. apply firstn_plus.
Qed.

(** X15.  Pages tile the filtered list.  When the client returns a list
    of names, and for a non-negative offset and non-negative limits, the
    page of [a + b] names from [offset] is the page of [a] names from
    [offset] followed by the page of [b] names from [offset + a]; and the
    first page says [has_more] exactly when the page of one name after it
    is not empty. *)
Theorem list_metrics_pages_tile (e : env) (g g' : globals) (names : list string)
  (filter_pattern : option string) (region : option string) (ctx : bool)
  (offset a b : Z) :
  make_prometheus_request e "label/__name__/values" None region g
    = (Ok (VList (map VStr names)), g') ->
  0 <= offset -> 0 <= a -> 0 <= b ->
  exists p1 p2 v1,
    fst (list_metrics e (Some a) offset filter_pattern region ctx g) = Ok v1
    /\ metrics_of (Ok v1) = Some p1
    /\ metrics_of (fst (list_metrics e (Some b) (offset + a) filter_pattern
                          region ctx g)) = Some p2
    /\ metrics_of (fst (list_metrics e (Some (a + b)) offset filter_pattern
                          region ctx g)) = Some (p1 ++ p2)%list
    /\ (Py.getitem v1 "has_more" = Ok (VBool true) <->
        metrics_of (fst (list_metrics e (Some 1) (offset + a) filter_pattern
                           region ctx g)) <> Some []).
Proof.
  intros Hreq Ho Ha Hb.
  rewrite !list_metrics_run, Hreq. cbn [fst].
  rewrite !list_metrics_result_names.
  do 3 eexists. split; [reflexivity|].
  cbn [metrics_of Py.getitem dget String.eqb Ascii.eqb Bool.eqb].
  split; [reflexivity|]. split; [reflexivity|]. split.
  - now rewrite slice_list_tiles, map_app by assumption.
  - set (fl := filtered_names filter_pattern names).
    rewrite slice_list_nonneg by lia.
    replace (Z.to_nat (offset + a + 1 - (offset + a))) with 1%nat by lia.
    assert (Hlen : List.length (skipn (Z.to_nat (offset + a)) fl)
                   = (List.length fl - Z.to_nat (offset + a))%nat)
      by apply length_skipn.
    destruct (skipn (Z.to_nat (offset + a)) fl) as [|x rest]; cbn in *.
    + destruct (Z.ltb_spec (offset + a) (Z.of_nat (List.length fl))); [lia|].
      split; [discriminate | congruence].
    + destruct (Z.ltb_spec (offset + a) (Z.of_nat (List.length fl))); [|lia].
      split; [discriminate | reflexivity].
Qed.

Lemma list_metrics_pages_tile_witness :
  let e := const_env (Ok (success_response metric_names)) 0 in
  metrics_of (fst (list_metrics e (Some 2) 0 None (Some "atl") false test_globals))
  = Some ([VStr "up"] ++ [VStr "go_goroutines"])%list.
Proof.
  intros e.
  destruct (list_metrics_pages_tile e test_globals
              (snd (make_prometheus_request e "label/__name__/values" None
                      (Some "atl") test_globals))
              ["up"; "go_goroutines"; "http_requests_total"]
              None (Some "atl") false 0 1 1 eq_refl)
    as (p1 & p2 & v1 & H1 & Hp1 & Hp2 & Hsum & _); try lia.
  change (0 + 1) with 1 in Hp2. change (1 + 1) with 2 in Hsum.
  rewrite <- H1 in Hp1.
  rewrite Hsum. f_equal. f_equal.
  - cbv in Hp1. congruence.
  - cbv in Hp2. congruence.
Defined.

(* ================================================================== *)
(** ** Metric metadata, further *)

Lemma normalize_metadata_not_dict (payload md : value) :
  normalize_metadata payload = Ok md -> Py.is_dict md = false.
Proof.
  unfold normalize_metadata, rbind.
  destruct (Py.contains "metadata" payload) as [[|]|]; [| |discriminate].
  - destruct (Py.getitem payload "metadata") as [m|]; [|discriminate].
    intros [= <-]. now destruct m.
  - destruct (Py.contains "data" payload) as [[|]|]; [| |discriminate].
    + destruct (Py.getitem payload "data") as [m|]; [|discriminate].
      intros [= <-]. now destruct m.
    + intros [= <-]. now destruct payload.
Qed.

(** X16.  Whatever the client returns, a result of [get_metric_metadata]
    never carries a bare mapping or a scalar under ["metadata"]: it is a
    list or, when the payload put a text there, a string. *)
Theorem get_metric_metadata_shape (e : env) (g g' : globals) (metric : string)
  (region : option string) (v : value) :
  get_metric_metadata e metric region g = (Ok v, g') ->
  exists md,
    Py.getitem v "metadata" = Ok md
    /\ ((exists l, md = VList l) \/ (exists s, md = VStr s)).
Proof.
  rewrite get_metric_metadata_run.
  destruct (make_prometheus_request _ _ _ _ _) as [[payload|ex] g1];
    [|discriminate].
  unfold rbind.
  destruct (normalize_metadata payload) as [md|] eqn:Hn; [|discriminate].
  apply normalize_metadata_not_dict in Hn.
  destruct (Py.len md) eqn:Hl; [|discriminate].
  intros [= <- _]. exists md. split; [reflexivity|].
  destruct md; try discriminate; eauto.
Qed.

Lemma get_metric_metadata_shape_witness :
  exists md,
    Py.getitem (VDict [("metadata", VList [VDict [("up", VList [])]]);
                       ("region", VStr "atl")]) "metadata" = Ok md
    /\ ((exists l, md = VList l) \/ (exists s, md = VStr s)).
Proof.
  apply (get_metric_metadata_shape
           (const_env (Ok (success_response (VDict [("up", VList [])]))) 0)
           test_globals
           (snd (get_metric_metadata
                   (const_env (Ok (success_response (VDict [("up", VList [])]))) 0)
                   "up" None test_globals))
           "up" None).
  reflexivity.
Defined.

(* ================================================================== *)
(** ** Health check, further *)

Lemma probe_regions_frame (e : env) (items : list (string * RegionConfig)) :
  forall (rs : dict value) (ah : bool) (g : globals),
    config (snd (probe_regions e items rs ah g)) = config g
    /\ _metrics_cache (snd (probe_regions e items rs ah g)) = _metrics_cache g.
Proof.
  induction items as [|[name rc] rest IH]; intros rs ah g.
  - split; reflexivity.
  - rewrite probe_regions_cons.
    destruct (probe_frame e name g) as (Hc & Hm & _).
    destruct (IH (dset name (region_detail rc (fst (probe e name g))) rs)
                (ah && probe_ok e g name) (snd (probe e name g))) as [Hc' Hm'].
    split; congruence.
Qed.

(** X17.  [health_check] for one known region.  For a non-empty region
    name whose lowercase form is configured, exactly the probe of that
    region runs.  When it succeeds the payload says [status] healthy,
    [prometheus_connectivity] healthy, and gives the URL and the region
    name; when it raises, the payload says [status] degraded,
    [prometheus_connectivity] unhealthy, and gives the text of the
    exception and the region name. *)
Theorem health_check_single_region (e : env) (g : globals) (r : string)
  (rc : RegionConfig) :
  r <> "" ->
  dget (PyStr.lower r) (regions (config g)) = Some rc ->
  exists hs,
    health_check e (Some r) g = (Ok (VDict hs), snd (probe e (PyStr.lower r) g))
    /\ dget "region" hs = Some (VStr (PyStr.lower r))
    /\ match fst (probe e (PyStr.lower r) g) with
       | Ok _ =>
           dget "status" hs = Some (VStr "healthy")
           /\ dget "prometheus_connectivity" hs = Some (VStr "healthy")
           /\ dget "prometheus_url" hs = Some (VStr (url rc))
       | Raise ex =>
           dget "status" hs = Some (VStr "degraded")
           /\ dget "prometheus_connectivity" hs = Some (VStr "unhealthy")
           /\ dget "prometheus_error" hs = Some (VStr (exn_str ex))
       end.
Proof.
  intros Hr Hget. apply truthy_nonempty in Hr.
  unfold health_check, try_except, bind, get_config, ret.
  cbn [PyStr.opt_truthy]. rewrite Hr, get_region_config_run.
  cbn [requested_region]. rewrite Hget.
  destruct (probe e (PyStr.lower r) g) as [[v|ex] g1]; cbn [fst snd];
    eexists; (split; [reflexivity|]); repeat split; reflexivity.
Qed.

Lemma health_check_single_region_witness :
  exists hs g',
    health_check blr_down_env (Some "BLR") test_globals = (Ok (VDict hs), g')
    /\ dget "region" hs = Some (VStr "blr")
    /\ dget "prometheus_connectivity" hs = Some (VStr "unhealthy").
Proof.
  destruct (health_check_single_region blr_down_env test_globals "BLR"
              {| url := "http://blr.example.com:9090"; url_ssl_verify := true;
                 username := Some ""; password := Some ""; token := Some "token123";
                 custom_headers := Some [("X-Custom", "blr-value")] |})
    as (hs & Hrun & Hregion & Hrest).
  - discriminate.
  - reflexivity.
  - exists hs. eexists. split; [exact Hrun|]. split; [exact Hregion|].
    exact (proj1 (proj2 Hrest)).
Defined.

(** X18.  [health_check] only reads: whatever the region and the
    network, [config] and the metrics cache are as they were.  With no
    region configured and no region asked for, it sends nothing and
    reports [status] healthy with an empty [regions] member. *)
Theorem health_check_read_only (e : env) (region : option string) (g : globals) :
  (config (snd (health_check e region g)) = config g
   /\ _metrics_cache (snd (health_check e region g)) = _metrics_cache g)
  /\ (regions (config g) = [] -> PyStr.opt_truthy region = false ->
      exists hs,
        health_check e region g = (Ok (VDict hs), g)
        /\ dget "status" hs = Some (VStr "healthy")
        /\ dget "regions" hs = Some (VDict [])).
Proof.
  split.
  - unfold health_check, try_except, bind, get_config, ret.
    destruct (PyStr.opt_truthy region).
    + rewrite get_region_config_run.
      destruct (dget _ _) as [rc|]; cbn [isinstance]; [|split; reflexivity].
      pose proof (probe_frame e (PyStr.lower (requested_region (config g) region)) g)
        as (Hc & Hm & _).
      destruct (probe e _ g) as [[v|ex] g1]; cbn [snd] in *; split; assumption.
    + pose proof (probe_regions_frame e (regions (config g)) [] true g) as [Hc Hm].
      destruct (probe_regions_spec e (regions (config g)) [] true g)
        as (rs & g1 & Hrun & _).
      rewrite Hrun in *. cbn [snd] in *. split; assumption.
  - intros Hnone Hregion.
    unfold health_check, try_except, bind, get_config, ret.
    rewrite Hregion, Hnone. cbn [probe_regions ret negb].
    eexists. split; [reflexivity|]. split; reflexivity.
Qed.

Lemma health_check_read_only_witness :
  let empty := {| config := {| regions := []; default_region := "default";
                               disable_prometheus_links := false;
                               org_id := Some ""; mcp_server_config := None |};
                  _metrics_cache := []; sent := [] |} in
  exists hs,
    health_check blr_down_env None empty = (Ok (VDict hs), empty)
    /\ dget "status" hs = Some (VStr "healthy")
    /\ dget "regions" hs = Some (VDict []).
Proof.
  intros empty.
  apply (proj2 (health_check_read_only blr_down_env None empty)); reflexivity.
Defined.

(* ================================================================== *)
(** ** Loading the configuration *)

Lemma dget_dset {V : Type} (k k' : string) (v : V) (d : dict V) :
  dget k (dset k' v d) = if String.eqb k k' then Some v else dget k d.
Proof.
  destruct (String.eqb_spec k k') as [->|Hne].
  - apply dget_dset_same.
  - now apply dget_dset_other.
Qed.

Lemma dget_Some_In {V : Type} (k : string) (v : V) (d : dict V) :
  dget k d = Some v -> In k (dkeys d).
Proof.
  intros H. destruct (in_dec string_dec k (dkeys d)) as [Hin|Hnin]; [exact Hin|].
  apply dget_None_iff in Hnin. congruence.
Qed.

Lemma In_dget_Some {V : Type} (k : string) (d : dict V) :
  In k (dkeys d) -> exists v, dget k d = Some v.
Proof.
  intros Hin. destruct (dget k d) as [v|] eqn:E; [eauto|].
  apply dget_None_iff in E. contradiction.
Qed.

Lemma substring_full (s : string) : String.substring 0 (String.length s) s = s.
Proof. induction s as [|c s IH]; simpl; [reflexivity | now rewrite IH]. Qed.

Lemma prefix_split (p key : string) :
  String.prefix p key = true ->
  key = p ++ String.substring (String.length p)
              (String.length key - String.length p) key.
Proof.
  revert key. induction p as [|a p IH]; intros key Hp; simpl.
  - rewrite Nat.sub_0_r. symmetry. apply substring_full.
  - destruct key as [|b key]; simpl in Hp; [discriminate|].
    destruct (ascii_dec a b) as [->|]; [|discriminate].
    simpl. f_equal. now apply IH.
Qed.

Lemma prefix_url_suffix (key : string) :
  String.prefix "PROMETHEUS_URL_" key = true ->
  key = "PROMETHEUS_URL_" ++ url_suffix key.
Proof. intros Hp. exact (prefix_split "PROMETHEUS_URL_" key Hp). Qed.

Lemma prefix_app (p s : string) : String.prefix p (p ++ s) = true.
Proof.
  induction p as [|a p IH]; simpl; [now destruct s|].
  destruct (ascii_dec a a); [exact IH | congruence].
Qed.

Lemma url_suffix_app (s : string) : url_suffix ("PROMETHEUS_URL_" ++ s) = s.
Proof.
  unfold url_suffix. simpl. rewrite Nat.sub_0_r. apply substring_full.
Qed.

Lemma set_add_In (x y : string) (s : list string) :
  In x (set_add y s) <-> x = y \/ In x s.
Proof.
  unfold set_add. destruct (existsb (String.eqb y) s) eqn:E.
  - split; [tauto|]. intros [->|H]; [|exact H].
    apply existsb_exists in E. destruct E as (z & Hz & Heq).
    apply String.eqb_eq in Heq. now subst.
  - rewrite in_app_iff. simpl. split; [intros [H|[H|[]]]; auto | intros [H|H]; auto].
Qed.

Lemma collect_suffixes_In (x : string) (keys acc : list string) :
  In x (collect_suffixes keys acc) <->
  In x acc \/ (x <> "" /\ In ("PROMETHEUS_URL_" ++ x) keys).
Proof.
  revert acc. induction keys as [|key keys IH]; intros acc.
  - simpl. tauto.
  - cbn [collect_suffixes]. rewrite IH. clear IH.
    assert (Hhead : In ("PROMETHEUS_URL_" ++ x) (key :: keys) <->
                    key = "PROMETHEUS_URL_" ++ x
                    \/ In ("PROMETHEUS_URL_" ++ x) keys) by (simpl; tauto).
    rewrite Hhead. clear Hhead.
    destruct (String.prefix "PROMETHEUS_URL_" key) eqn:Hp.
    + destruct (PyStr.truthy (url_suffix key)) eqn:Ht.
      * rewrite set_add_In. apply truthy_nonempty in Ht.
        split.
        -- intros [[->|H]|H]; [|tauto|tauto].
           right. split; [exact Ht|]. left. now apply prefix_url_suffix.
        -- intros [H|[Hx [H|H]]]; [tauto | | tauto].
           left. left. rewrite H. symmetry. apply url_suffix_app.
      * split; [tauto|]. intros [H|[Hx [H|H]]]; [tauto | | tauto].
        rewrite H, url_suffix_app in Ht. apply truthy_nonempty in Hx. congruence.
    + split; [tauto|]. intros [H|[Hx [H|H]]]; [tauto | | tauto].
      rewrite H, prefix_app in Hp. discriminate.
Qed.

Lemma parse_suffixes_from_environ (rt : runtime) (environ : dict string)
  (suffixes : list string) :
  forall regions,
    (forall k rc, dget k regions = Some rc -> from_environ environ k rc) ->
    forall k rc, dget k (parse_suffixes rt environ suffixes regions) = Some rc ->
                 from_environ environ k rc.
Proof.
  induction suffixes as [|sfx rest IH]; intros regions Hinv;
    cbn [parse_suffixes].
  - exact Hinv.
  - apply IH. intros k rc.
    destruct (dget ("PROMETHEUS_URL_" ++ sfx) environ) as [u|] eqn:Hu;
      cbn [PyStr.opt_truthy]; [|apply Hinv].
    destruct (PyStr.truthy u) eqn:Ht; [|apply Hinv].
    rewrite dget_dset. destruct (String.eqb_spec k (PyStr.lower sfx)) as [->|Hne];
      [|apply Hinv].
    intros [= <-]. cbn [opt_str]. unfold from_environ. cbn [url region_of_suffix].
    split; [apply lower_idem|]. split; [now apply truthy_nonempty|].
    left. exists sfx. auto.
Qed.

(** Keys in lowercase and URLs not empty, for the whole loader. *)
Lemma parse_region_configs_keys (rt : runtime) (environ : dict string)
  (k : string) (rc : RegionConfig) :
  dget k (parse_region_configs rt environ) = Some rc ->
  PyStr.lower k = k /\ url rc <> "".
Proof.
  unfold parse_region_configs.
  assert (Hloop : forall k rc,
             dget k (parse_suffixes rt environ
                       (set_order rt (collect_suffixes (dkeys environ) [])) [])
               = Some rc -> PyStr.lower k = k /\ url rc <> "").
  { intros k' rc' H.
    destruct (parse_suffixes_from_environ rt environ _ []
                ltac:(intros ? ?; discriminate) k' rc' H) as (Hk & Hu & _).
    now split. }
  destruct (PyStr.truthy (environ_get environ "PROMETHEUS_URL" "")) eqn:Ht;
    cbn [andb]; [|apply Hloop].
  destruct (dtruthy _); cbn [negb]; [apply Hloop|].
  rewrite dget_dset. destruct (String.eqb_spec k "default") as [->|Hne];
    [|apply Hloop].
  intros [= <-]. split; [reflexivity | now apply truthy_nonempty].
Qed.

(** X19.  Every region [parse_region_configs] produces has a key written
    in lowercase and a non-empty URL, and that URL is the value of the
    variable [PROMETHEUS_URL_<suffix>] of a suffix whose lowercase form is
    the key, or, for the key [default], possibly of [PROMETHEUS_URL].
    This holds for every environment, whatever the iteration order of the
    suffixes and whatever the headers decode to. *)
Theorem parse_region_configs_from_environ (rt : runtime) (environ : dict string)
  (k : string) (rc : RegionConfig) :
  dget k (parse_region_configs rt environ) = Some rc ->
  PyStr.lower k = k /\ url rc <> ""
  /\ ((exists suffix, k = PyStr.lower suffix
         /\ dget ("PROMETHEUS_URL_" ++ suffix) environ = Some (url rc))
      \/ (k = "default" /\ dget "PROMETHEUS_URL" environ = Some (url rc))).
Proof.
  unfold parse_region_configs.
  assert (Hloop : forall k rc,
             dget k (parse_suffixes rt environ
                       (set_order rt (collect_suffixes (dkeys environ) [])) [])
               = Some rc -> from_environ environ k rc).
  { apply parse_suffixes_from_environ. intros k' rc'. discriminate. }
  destruct (PyStr.truthy (environ_get environ "PROMETHEUS_URL" "")) eqn:Ht;
    cbn [andb]; [|apply Hloop].
  destruct (dtruthy _); cbn [negb]; [apply Hloop|].
  rewrite dget_dset. destruct (String.eqb_spec k "default") as [->|Hne];
    [|apply Hloop].
  intros [= <-]. cbn [url legacy_region].
  split; [reflexivity|]. split; [now apply truthy_nonempty|].
  right. split; [reflexivity|].
  unfold environ_get in *. destruct (dget "PROMETHEUS_URL" environ);
    [reflexivity | discriminate].
Qed.

Lemma parse_region_configs_from_environ_witness :
  PyStr.lower "blr" = "blr" /\ "http://blr.example.com:9090/" <> ""
  /\ ((exists suffix, "blr" = PyStr.lower suffix
         /\ dget ("PROMETHEUS_URL_" ++ suffix) example_environ
            = Some "http://blr.example.com:9090/")
      \/ ("blr" = "default"
          /\ dget "PROMETHEUS_URL" example_environ
             = Some "http://blr.example.com:9090/")).
Proof.
  exact (parse_region_configs_from_environ example_runtime example_environ "blr"
           (region_of_suffix example_runtime example_environ "BLR"
              "http://blr.example.com:9090/") eq_refl).
Defined.

Lemma parse_suffixes_keeps_key (rt : runtime) (environ : dict string)
  (suffixes : list string) :
  forall regions k,
    In k (dkeys regions) ->
    In k (dkeys (parse_suffixes rt environ suffixes regions)).
Proof.
  induction suffixes as [|sfx rest IH]; intros regions k Hin;
    cbn [parse_suffixes]; [exact Hin|].
  apply IH. destruct (PyStr.opt_truthy _); [now apply dkeys_dset_in | exact Hin].
Qed.

Lemma parse_suffixes_lookup (rt : runtime) (environ : dict string)
  (suffix u : string) (suffixes : list string) :
  dget ("PROMETHEUS_URL_" ++ suffix) environ = Some u ->
  u <> "" ->
  (forall s', In s' suffixes -> PyStr.lower s' = PyStr.lower suffix -> s' = suffix) ->
  forall regions,
    In suffix suffixes
    \/ dget (PyStr.lower suffix) regions
       = Some (region_of_suffix rt environ suffix u) ->
    dget (PyStr.lower suffix) (parse_suffixes rt environ suffixes regions)
      = Some (region_of_suffix rt environ suffix u).
Proof.
  intros Hu Hne. apply truthy_nonempty in Hne.
  induction suffixes as [|sfx rest IH]; intros Huniq regions Hstart;
    cbn [parse_suffixes].
  - destruct Hstart as [[]|H]. exact H.
  - apply IH; [intros s' Hs'; apply Huniq; now right|].
    destruct (string_dec sfx suffix) as [->|Hdiff].
    + right. rewrite Hu. cbn [PyStr.opt_truthy opt_str]. rewrite Hne.
      apply dget_dset_same.
    + destruct Hstart as [[H|H]|H]; [contradiction | now left |].
      right. destruct (PyStr.opt_truthy _); [|exact H].
      rewrite dget_dset_other; [exact H|].
      intros Heq. apply Hdiff. apply Huniq; [now left | now symmetry].
Qed.

(** X20.  From the environment to the registry and back.  When the
    iteration order of the suffix set holds exactly its elements, a
    variable [PROMETHEUS_URL_<suffix>] with a non-empty suffix and value,
    whose suffix is the only one with its lowercase form, gives the region
    under the lowercased suffix: its URL is the value, its credentials
    and flags are those of the variables with the same suffix, and
    [get_region_config] finds it under any spelling of the name. *)
Theorem parse_region_configs_lookup (rt : runtime) (environ : dict string)
  (suffix u : string) :
  set_order_spec rt ->
  suffix <> "" -> u <> "" ->
  dget ("PROMETHEUS_URL_" ++ suffix) environ = Some u ->
  (forall s', In s' (region_suffixes_of environ) ->
              PyStr.lower s' = PyStr.lower suffix -> s' = suffix) ->
  dget (PyStr.lower suffix) (parse_region_configs rt environ)
    = Some (region_of_suffix rt environ suffix u)
  /\ forall g r,
       regions (config g) = parse_region_configs rt environ ->
       PyStr.lower r = PyStr.lower suffix ->
       get_region_config (Some r) g
         = (Ok (PyStr.lower suffix, region_of_suffix rt environ suffix u), g).
Proof.
  intros Hord Hsfx Hne Hu Huniq.
  assert (Hin : In suffix (set_order rt (region_suffixes_of environ))).
  { apply Hord. unfold region_suffixes_of. apply collect_suffixes_In.
    right. split; [exact Hsfx|]. now apply dget_Some_In in Hu. }
  assert (Hloop : dget (PyStr.lower suffix)
                    (parse_suffixes rt environ
                       (set_order rt (region_suffixes_of environ)) [])
                  = Some (region_of_suffix rt environ suffix u)).
  { apply (parse_suffixes_lookup rt environ suffix u _ Hu Hne); [|now left].
    intros s' Hs'. apply Huniq. now apply Hord. }
  assert (Hparse : dget (PyStr.lower suffix) (parse_region_configs rt environ)
                   = Some (region_of_suffix rt environ suffix u)).
  { unfold parse_region_configs. fold (region_suffixes_of environ).
    destruct (parse_suffixes rt environ _ []) as [|kv rest] eqn:E;
      [discriminate Hloop|].
    cbn [dtruthy negb]. rewrite andb_false_r. exact Hloop. }
  split; [exact Hparse|].
  intros g r Hreg Hlow. rewrite get_region_config_run.
  cbn [requested_region]. now rewrite Hlow, Hreg, Hparse.
Qed.

Lemma example_runtime_order : set_order_spec example_runtime.
Proof. intros l x. reflexivity. Qed.

Lemma parse_region_configs_lookup_witness :
  dget "blr" (parse_region_configs example_runtime example_environ)
  = Some {| url := "http://blr.example.com:9090/"; url_ssl_verify := true;
            username := Some ""; password := Some ""; token := Some "token123";
            custom_headers := None |}.
Proof.
  refine (proj1 (parse_region_configs_lookup example_runtime example_environ
                   "BLR" "http://blr.example.com:9090/"
                   example_runtime_order _ _ eq_refl _)).
  - discriminate.
  - discriminate.
  - intros s' [<-|[<-|[]]]; [discriminate | reflexivity].
Defined.

Lemma url_prefix_app_inj (x y : string) :
  "PROMETHEUS_URL_" ++ x = "PROMETHEUS_URL_" ++ y -> x = y.
Proof.
  intros H. apply (f_equal url_suffix) in H.
  now rewrite !url_suffix_app in H.
Qed.

Lemma parse_suffixes_same (rt : runtime) (environ : dict string)
  (suffix u : string) (suffixes : list string) :
  dget ("PROMETHEUS_URL_" ++ suffix) environ = Some u ->
  u <> "" ->
  (forall x, In x suffixes -> x = suffix) ->
  parse_suffixes rt environ suffixes
    [(PyStr.lower suffix, region_of_suffix rt environ suffix u)]
  = [(PyStr.lower suffix, region_of_suffix rt environ suffix u)].
Proof.
  intros Hu Hne. apply truthy_nonempty in Hne.
  induction suffixes as [|sfx rest IH]; intros Hall; cbn [parse_suffixes].
  - reflexivity.
  - rewrite (Hall sfx (or_introl eq_refl)), Hu.
    cbn [PyStr.opt_truthy opt_str dset]. rewrite Hne, String.eqb_refl.
    apply IH. intros x Hx. apply Hall. now right.
Qed.

Lemma parse_suffixes_none (rt : runtime) (environ : dict string)
  (suffixes : list string) (regions : dict RegionConfig) :
  (forall x, In x suffixes ->
             PyStr.opt_truthy (dget ("PROMETHEUS_URL_" ++ x) environ) = false) ->
  parse_suffixes rt environ suffixes regions = regions.
Proof.
  revert regions. induction suffixes as [|sfx rest IH]; intros regions Hall;
    cbn [parse_suffixes]; [reflexivity|].
  rewrite (Hall sfx (or_introl eq_refl)).
  apply IH. intros x Hx. apply Hall. now right.
Qed.

(** X21.  A legacy environment cannot switch certificate verification
    off with a value.  When [PROMETHEUS_URL_SSL_VERIFY] holds a non-empty
    value and no other variable starts with [PROMETHEUS_URL_], the loader
    takes that variable for the URL of a region: the registry is exactly
    one region named [ssl_verify] whose URL is the value of the flag, and
    [PROMETHEUS_URL] is not used, whatever it holds. *)
Theorem legacy_ssl_verify_becomes_region (rt : runtime) (environ : dict string)
  (v : string) :
  set_order_spec rt ->
  dget "PROMETHEUS_URL_SSL_VERIFY" environ = Some v ->
  v <> "" ->
  (forall key, In key (dkeys environ) ->
               String.prefix "PROMETHEUS_URL_" key = true ->
               key = "PROMETHEUS_URL_SSL_VERIFY") ->
  parse_region_configs rt environ
    = [("ssl_verify", region_of_suffix rt environ "SSL_VERIFY" v)].
Proof.
  intros Hord Hv Hne Honly.
  assert (Hset : forall x, In x (set_order rt (region_suffixes_of environ))
                           <-> x = "SSL_VERIFY").
  { intros x. rewrite (Hord _ x). unfold region_suffixes_of.
    rewrite collect_suffixes_In. split.
    - intros [[]|[Hx Hin]].
      apply url_prefix_app_inj. apply Honly; [exact Hin | apply prefix_app].
    - intros ->. right. split; [discriminate|]. now apply dget_Some_In in Hv. }
  unfold parse_region_configs. fold (region_suffixes_of environ).
  destruct (set_order rt (region_suffixes_of environ)) as [|x rest] eqn:E.
  - exfalso. apply (proj2 (Hset "SSL_VERIFY") eq_refl).
  - assert (Hall : forall y, In y (x :: rest) -> y = "SSL_VERIFY")
      by (intros y Hy; now apply Hset).
    assert (Hloop : parse_suffixes rt environ (x :: rest) []
                    = [("ssl_verify", region_of_suffix rt environ "SSL_VERIFY" v)]).
    { cbn [parse_suffixes]. rewrite (Hall x (or_introl eq_refl)).
      change ("PROMETHEUS_URL_" ++ "SSL_VERIFY") with "PROMETHEUS_URL_SSL_VERIFY".
      rewrite Hv. cbn [PyStr.opt_truthy opt_str].
      apply truthy_nonempty in Hne. rewrite Hne. cbn [dset].
      apply (parse_suffixes_same rt environ "SSL_VERIFY" v rest Hv).
      - now apply truthy_nonempty.
      - intros y Hy. apply Hall. now right. }
    rewrite Hloop. cbn [dtruthy negb]. now rewrite andb_false_r.
Qed.

Lemma legacy_ssl_verify_becomes_region_witness :
  parse_region_configs example_runtime legacy_environ
  = [("ssl_verify",
      {| url := "false"; url_ssl_verify := true;
         username := Some ""; password := Some ""; token := Some "";
         custom_headers := None |})].
Proof.
  refine (legacy_ssl_verify_becomes_region example_runtime legacy_environ "false"
            example_runtime_order eq_refl _ _).
  - discriminate.
  - intros key [<-|[<-|[]]]; [discriminate | reflexivity].
Defined.

(** X22.  The legacy variables.  When [PROMETHEUS_URL] holds a non-empty
    value and every variable [PROMETHEUS_URL_<suffix>] is empty, the
    registry is exactly one region named [default], built from the legacy
    variables.  Its certificate verification is on, unless the variable
    [PROMETHEUS_URL_SSL_VERIFY] is present, which under these conditions
    means present and empty. *)
Theorem legacy_single_region (rt : runtime) (environ : dict string) (u : string) :
  set_order_spec rt ->
  dget "PROMETHEUS_URL" environ = Some u ->
  u <> "" ->
  (forall key, In key (dkeys environ) ->
               String.prefix "PROMETHEUS_URL_" key = true ->
               dget key environ = Some "") ->
  parse_region_configs rt environ = [("default", legacy_region rt environ u)]
  /\ url (legacy_region rt environ u) = u
  /\ url_ssl_verify (legacy_region rt environ u)
     = negb (dmem "PROMETHEUS_URL_SSL_VERIFY" environ).
Proof.
  intros Hord Hu Hne Hempty.
  split; [|split; [reflexivity|]].
  - unfold parse_region_configs. fold (region_suffixes_of environ).
    rewrite parse_suffixes_none.
    + unfold environ_get. rewrite Hu. apply truthy_nonempty in Hne.
      now rewrite Hne.
    + intros x Hx. apply (proj1 (Hord _ x)) in Hx. unfold region_suffixes_of in Hx.
      apply collect_suffixes_In in Hx. destruct Hx as [[]|[_ Hin]].
      now rewrite (Hempty _ Hin (prefix_app _ _)).
  - cbn [url_ssl_verify legacy_region]. unfold environ_get, dmem.
    destruct (dget "PROMETHEUS_URL_SSL_VERIFY" environ) as [v|] eqn:E;
      [|reflexivity].
    rewrite (Hempty "PROMETHEUS_URL_SSL_VERIFY") in E.
    + now injection E as <-.
    + now apply dget_Some_In in E.
    + reflexivity.
Qed.

Lemma legacy_single_region_witness :
  parse_region_configs example_runtime
    [("PROMETHEUS_URL", "http://legacy.example.com:9090");
     ("PROMETHEUS_TOKEN", "secret")]
  = [("default",
      {| url := "http://legacy.example.com:9090"; url_ssl_verify := true;
         username := Some ""; password := Some ""; token := Some "secret";
         custom_headers := None |})].
Proof.
  refine (proj1 (legacy_single_region example_runtime
                   [("PROMETHEUS_URL", "http://legacy.example.com:9090");
                    ("PROMETHEUS_TOKEN", "secret")]
                   "http://legacy.example.com:9090"
                   example_runtime_order eq_refl _ _)).
  - discriminate.
  - intros key [<-|[<-|[]]]; discriminate.
Defined.

Lemma load_config_inv (rt : runtime) (environ : dict string)
  (cfg : PrometheusConfig) :
  load_config rt environ = Ok cfg ->
  regions cfg = parse_region_configs rt environ
  /\ (regions cfg <> [] -> dmem (default_region cfg) (regions cfg) = true)
  /\ exists port mc,
       int_of_str rt (environ_get environ "PROMETHEUS_MCP_BIND_PORT" "8080") = Ok port
       /\ MCPServerConfig_init
            (PyStr.lower (environ_get environ "PROMETHEUS_MCP_SERVER_TRANSPORT" "stdio"))
            (environ_get environ "PROMETHEUS_MCP_BIND_HOST" "127.0.0.1") port = Ok mc
       /\ mcp_server_config cfg = Some mc.
Proof.
  unfold load_config, rbind.
  destruct (int_of_str rt _) as [port|] eqn:Hport; [|discriminate].
  destruct (MCPServerConfig_init _ _ port) as [mc|] eqn:Hinit; [|discriminate].
  cbn [regions default_region].
  destruct (dtruthy (parse_region_configs rt environ)) eqn:Hd.
  - destruct (dmem _ (parse_region_configs rt environ)) eqn:Hm; cbn [negb];
      [|discriminate].
    intros [= <-]. cbn [regions default_region mcp_server_config].
    split; [reflexivity|]. split; [intros _; exact Hm|].
    exists port, mc. auto.
  - intros [= <-]. cbn [regions default_region mcp_server_config].
    split; [reflexivity|]. split; [|exists port, mc; auto].
    intros Hne. destruct (parse_region_configs rt environ); [congruence | discriminate].
Qed.

(** X23.  The registry a successful load leaves behind.  When
    [load_config] returns a configuration, every region in it is found by
    [get_region_config] under every spelling of its name and has a URL,
    so the request client never meets the missing-URL error; and when at
    least one region is configured the default region is one of them, so
    [get_region_config(None)] succeeds with the default region's own
    name. *)
Theorem load_config_registry (rt : runtime) (environ : dict string)
  (cfg : PrometheusConfig) (g : globals) :
  load_config rt environ = Ok cfg ->
  config g = cfg ->
  (forall k rc r,
     dget k (regions cfg) = Some rc -> PyStr.lower r = k ->
     get_region_config (Some r) g = (Ok (k, rc), g) /\ url rc <> "")
  /\ (regions cfg <> [] ->
      exists rc, get_region_config None g = (Ok (default_region cfg, rc), g)).
Proof.
  intros Hload Hcfg.
  destruct (load_config_inv rt environ cfg Hload) as (Hreg & Hdef & _).
  split.
  - intros k rc r Hk Hr.
    assert (Hk' := Hk). rewrite Hreg in Hk'.
    destruct (parse_region_configs_keys rt environ k rc Hk') as (_ & Hurl).
    split; [|exact Hurl].
    rewrite get_region_config_run, Hcfg. cbn [requested_region].
    now rewrite Hr, Hk.
  - intros Hne. specialize (Hdef Hne). unfold dmem in Hdef.
    destruct (dget (default_region cfg) (regions cfg)) as [rc|] eqn:E;
      [|discriminate].
    assert (E' := E). rewrite Hreg in E'.
    destruct (parse_region_configs_keys rt environ _ rc E') as (Hlow & _).
    exists rc. rewrite get_region_config_run, Hcfg. cbn [requested_region].
    now rewrite Hlow, E.
Qed.

Lemma load_config_registry_witness :
  load_config example_runtime example_environ = Ok example_config
  /\ (exists rc, get_region_config None example_globals
                  = (Ok ("atl", rc), example_globals))
  /\ get_region_config (Some "BLR") example_globals
      = (Ok ("blr", {| url := "http://blr.example.com:9090/";
                       url_ssl_verify := true;
                       username := Some ""; password := Some "";
                       token := Some "token123"; custom_headers := None |}),
         example_globals).
Proof.
  destruct (load_config_registry example_runtime example_environ example_config
              example_globals eq_refl eq_refl) as [Hall Hdef].
  split; [reflexivity|]. split.
  - apply Hdef. discriminate.
  - apply (Hall "blr" _ "BLR"); reflexivity.
Defined.

(** X24.  The bind settings of a loaded configuration are complete: the
    transport is the lowercased [PROMETHEUS_MCP_SERVER_TRANSPORT], or
    [stdio] when unset, and is not empty; the host is
    [PROMETHEUS_MCP_BIND_HOST], or [127.0.0.1] when unset, and is not
    empty; the port is what [int] made of [PROMETHEUS_MCP_BIND_PORT], or
    of [8080] when unset, and is not 0.  A port of 0, an empty host or an
    empty transport make the load fail. *)
Theorem load_config_bind_settings (rt : runtime) (environ : dict string)
  (cfg : PrometheusConfig) :
  load_config rt environ = Ok cfg ->
  exists mc,
    mcp_server_config cfg = Some mc
    /\ mcp_server_transport mc
       = PyStr.lower (environ_get environ "PROMETHEUS_MCP_SERVER_TRANSPORT" "stdio")
    /\ mcp_server_transport mc <> ""
    /\ mcp_bind_host mc = environ_get environ "PROMETHEUS_MCP_BIND_HOST" "127.0.0.1"
    /\ mcp_bind_host mc <> ""
    /\ int_of_str rt (environ_get environ "PROMETHEUS_MCP_BIND_PORT" "8080")
       = Ok (mcp_bind_port mc)
    /\ mcp_bind_port mc <> 0.
Proof.
  intros Hload.
  destruct (load_config_inv rt environ cfg Hload)
    as (_ & _ & port & mc & Hport & Hinit & Hmc).
  exists mc. split; [exact Hmc|].
  unfold MCPServerConfig_init in Hinit.
  destruct (PyStr.truthy (PyStr.lower _)) eqn:Ht; cbn [negb] in Hinit;
    [|discriminate].
  destruct (PyStr.truthy (environ_get environ "PROMETHEUS_MCP_BIND_HOST" _)) eqn:Hh;
    cbn [negb] in Hinit; [|discriminate].
  destruct (Z.eqb_spec port 0) as [|Hp]; [discriminate|].
  injection Hinit as <-.
  cbn [mcp_server_transport mcp_bind_host mcp_bind_port].
  apply truthy_nonempty in Ht, Hh. repeat split; assumption.
Qed.

Lemma load_config_bind_settings_witness :
  exists mc,
    mcp_server_config example_config = Some mc
    /\ mcp_server_transport mc = "stdio"
    /\ mcp_bind_host mc = "127.0.0.1"
    /\ mcp_bind_port mc <> 0.
Proof.
  destruct (load_config_bind_settings example_runtime example_environ
              example_config eq_refl)
    as (mc & Hmc & Ht & _ & Hh & _ & _ & Hp).
  exists mc. repeat split; assumption.
Defined.

(* ================================================================== *)
(** ** The entry point *)

(** X25.  [run_server] never starts the server.  [setup_environment]
    reads [config.url], and [PrometheusConfig] has no such attribute, so
    for every configuration the run ends with that [AttributeError]
    escaping: [mcp.run] is not reached and no exit code is returned. *)
Theorem run_server_never_starts (cfg : PrometheusConfig) :
  setup_environment cfg
    = Raise (mkExn AttributeError
               "'PrometheusConfig' object has no attribute 'url'")
  /\ run_server cfg
     = Crashed (mkExn AttributeError
                  "'PrometheusConfig' object has no attribute 'url'")
  /\ (forall transport bind, run_server cfg <> Started transport bind)
  /\ (forall code, run_server cfg <> Exited code).
Proof.
  repeat split; try reflexivity; intros; discriminate.
Qed.
